(** * compras-tics: a shallow embedding of the scrapers and upload helpers

    The development follows the Python sources:

    - [proyectos/subir_a_firestore.py], [proyectos/subir_a_bigquery.py] and
      [compras_to_bigquery.py]: [sanitizar_doc_id], [obtener_anio_desde_fecha];
    - [scrapers/comprar.py]: [TIC_KEYWORDS], [_strip_accents], [es_tic],
      [_iter_compras_pages], [scrape_comprar_tics];
    - [scrapers/comprar_bot.py]: [ejecutar_robot], [scrape_comprar_tics_robot];
    - [scrapers/boletin_tercera.py]: [scrape_boletin_tercera];
    - [scrapers/__init__.py]: [SCRAPERS_REGISTRY], [get_scraper].

    Part III adds, from the same files and from their callers:
    [ScraperWorker] of [main.py]; [_clean_text],
    [_extract_renglones_from_text], [_find_after_label],
    [_parse_postback_from_href], [fetch_detalle_proceso_via_postback],
    [_parse_pager_target] and [_parse_simple_pager_links] of
    [scrapers/comprar.py]; [obtener_filas_listado] of
    [scrapers/comprar_bot.py]; [_get_listado_avisos] of
    [scrapers/boletin_tercera.py]; [preparar_registro_para_firestore] and
    [subir_registros_a_firestore]; [preparar_fila];
    [df_a_registros_bigquery]; and [aplicar_modelo_tics] of
    [proyectos/convertir_a_json.py].

    Python [str] values are lists of Unicode code points, Python [int]s are
    [Z], Python [float]s are rationals together with a rounding function,
    [dict]s are [gmap]s.  Everything outside the program (the web sites, the
    browser, the cancel flag, the file system that takes the spreadsheet) is
    an oracle that the adapters query. *)

From Stdlib Require Import ZArith NArith QArith Qround List String Ascii Lia Bool Sorted.
From stdpp Require Import base option list gmap strings pretty.

Local Open Scope Z_scope.

(* ===================================================================== *)
(** * Part I: definitions                                                 *)
(* ===================================================================== *)

(** ** Python values *)

Module Py.

(** A [str] is a sequence of code points. *)
Definition str := list N.

(** Decoding of the UTF-8 bytes of a literal, so that the literals of the
    sources can be written as they are. *)
Fixpoint utf8_decode (bs : list N) : str :=
  match bs with
  | [] => []
  | b :: r =>
    if (b <? 128)%N then b :: utf8_decode r
    else if (b <? 224)%N then
      match r with
      | b1 :: r' => ((b - 192) * 64 + (b1 - 128))%N :: utf8_decode r'
      | _ => []
      end
    else if (b <? 240)%N then
      match r with
      | b1 :: b2 :: r' =>
        ((b - 224) * 4096 + (b1 - 128) * 64 + (b2 - 128))%N :: utf8_decode r'
      | _ => []
      end
    else
      match r with
      | b1 :: b2 :: b3 :: r' =>
        ((b - 240) * 262144 + (b1 - 128) * 4096 + (b2 - 128) * 64 + (b3 - 128))%N
          :: utf8_decode r'
      | _ => []
      end
  end.

Definition lit (s : string) : str :=
  utf8_decode (map (fun a => N_of_ascii a) (list_ascii_of_string s)).

(** The exceptions that the modelled code raises or lets through. *)
Inductive exn :=
| ValueError | HTTPError | ConnectionError | TimeoutException
| WebDriverException | OverflowError | OtherException.

(** The values stored in the records: [None], [bool], [int] and [str]. *)
Inductive value :=
| VNone
| VBool (b : bool)
| VInt (z : Z)
| VStr (s : str).

Definition of_opt (o : option str) : value :=
  match o with Some s => VStr s | None => VNone end.

(** Truth value of an object, as [if x:] and [x or y] test it. *)
Definition truthy (v : value) : bool :=
  match v with
  | VNone => false
  | VBool b => b
  | VInt z => negb (z =? 0)
  | VStr s => match s with [] => false | _ => true end
  end.

Definition truthy_opt (o : option str) : bool := truthy (of_opt o).

(** [a or b] on [Optional[str]] operands. *)
Definition or_opt (a b : option str) : option str :=
  if truthy_opt a then a else b.

(** [d.get(k)] on a [Dict[str, Optional[str]]]: a missing key gives [None]. *)
Definition get (d : gmap str (option str)) (k : str) : option str :=
  match d !! k with Some v => v | None => None end.

(** [str(x)]. *)
Definition str_of_Z (z : Z) : str :=
  match z with
  | Z0 => lit "0"
  | Zpos p => lit (pretty (Npos p))
  | Zneg p => lit "-" ++ lit (pretty (Npos p))
  end.

Definition str_of (v : value) : str :=
  match v with
  | VNone => lit "None"
  | VBool true => lit "True"
  | VBool false => lit "False"
  | VInt z => str_of_Z z
  | VStr s => s
  end.

(** [c.isspace()] for one code point; the same set is what [\s] matches in a
    [str] pattern and what [str.strip()] removes. *)
Definition isspace (c : N) : bool :=
  ((9 <=? c) && (c <=? 13) || (28 <=? c) && (c <=? 32) || (c =? 133) || (c =? 160)
   || (c =? 5760) || (8192 <=? c) && (c <=? 8202) || (c =? 8232) || (c =? 8233)
   || (c =? 8239) || (c =? 8287) || (c =? 12288))%N.

Fixpoint lstrip (s : str) : str :=
  match s with
  | [] => []
  | c :: r => if isspace c then lstrip r else s
  end.

Definition rstrip (s : str) : str := rev (lstrip (rev s)).

(** [s.strip()]. *)
Definition strip (s : str) : str := rstrip (lstrip s).

(** [s.replace(a, b)] for one-character [a] and [b]. *)
Definition replace (a b : N) (s : str) : str :=
  map (fun c => if (c =? a)%N then b else c) s.

(** [re.sub(r"\s+", rep, s)]: every maximal run of white space becomes one
    [rep]; [in_run] says that the previous character was white space. *)
Fixpoint sub_spaces (rep : str) (in_run : bool) (s : str) : str :=
  match s with
  | [] => []
  | c :: r =>
    if isspace c then
      if in_run then sub_spaces rep true r else rep ++ sub_spaces rep true r
    else c :: sub_spaces rep false r
  end.

Definition re_sub_spaces (rep : str) (s : str) : str := sub_spaces rep false s.

(** [needle in hay]. *)
Fixpoint startswith (needle hay : str) : bool :=
  match needle, hay with
  | [], _ => true
  | _ :: _, [] => false
  | a :: n', b :: h' => (a =? b)%N && startswith n' h'
  end.

Fixpoint contains (needle hay : str) : bool :=
  startswith needle hay ||
  match hay with
  | [] => false
  | _ :: h' => contains needle h'
  end.

(** [sep.join(parts)]. *)
Fixpoint join (sep : str) (parts : list str) : str :=
  match parts with
  | [] => []
  | [p] => p
  | p :: rest => p ++ sep ++ join sep rest
  end.

Definition slash : N := 47.
Definition backslash : N := 92.
Definition hyphen : N := 45.
Definition underscore : N := 95.

End Py.

(** ** [sanitizar_doc_id] and [obtener_anio_desde_fecha]

    The three upload scripts carry the same two helpers. *)

Module Upload.
Import Py.

Definition sanitizar_doc_id (base : value) : str :=
  let s := strip (str_of base) in
  let s := replace slash hyphen s in
  let s := replace backslash hyphen s in
  re_sub_spaces [underscore] s.

Section Decimal.

(** [decimal c] is the digit value of [c] when [c] is a decimal digit of the
    Unicode database (what [\d] matches in a [str] pattern and what [int]
    reads), and [None] otherwise. *)
Variable decimal : N -> option N.

(** [re.search(r"(\d{4})", s)]: the digits of the leftmost run of four. *)
Fixpoint search_4_digits (s : str) : option (N * N * N * N) :=
  match s with
  | [] => None
  | c :: r =>
    match decimal c, r with
    | Some d1, c2 :: c3 :: c4 :: _ =>
      match decimal c2, decimal c3, decimal c4 with
      | Some d2, Some d3, Some d4 => Some (d1, d2, d3, d4)
      | _, _, _ => search_4_digits r
      end
    | _, _ => search_4_digits r
    end
  end.

Definition obtener_anio_desde_fecha (fecha_apertura : value) : option Z :=
  match fecha_apertura with
  | VStr s =>
    match search_4_digits s with
    | None => None
    | Some (d1, d2, d3, d4) =>
      Some (Z.of_N (d1 * 1000 + d2 * 100 + d3 * 10 + d4))
    end
  | _ => None
  end.

End Decimal.

(** The decimal digits of Unicode 14.0.0: each entry is the code point of a
    digit zero, followed by the digits one to nine of its script. *)
Definition decimal_zeros : list N :=
  [ 48; 1632; 1776; 1984; 2406; 2534; 2662; 2790; 2918; 3046; 3174; 3302;
    3430; 3558; 3664; 3792; 3872; 4160; 4240; 6112; 6160; 6470; 6608; 6784;
    6800; 6992; 7088; 7232; 7248; 42528; 43216; 43264; 43472; 43504; 43600;
    44016; 65296; 66720; 68912; 69734; 69872; 69942; 70096; 70384; 70736;
    70864; 71248; 71360; 71472; 71904; 72016; 72784; 73040; 73120; 92768;
    92864; 93008; 120782; 120792; 120802; 120812; 120822; 123200; 123632;
    125264; 130032 ]%N.

Fixpoint decimal_in (zeros : list N) (c : N) : option N :=
  match zeros with
  | [] => None
  | z :: rest =>
    if ((z <=? c) && (c <=? z + 9))%N then Some (c - z)%N else decimal_in rest c
  end.

Definition unicode_decimal (c : N) : option N := decimal_in decimal_zeros c.

End Upload.

(** ** [scrapers/comprar.py]: the classification *)

Module Clasificacion.
Import Py.

Definition TIC_KEYWORDS : list str :=
  map lit
  [ "computadora";
    "computadoras";
    "notebook";
    "notebooks";
    "laptop";
    "laptops";
    "pc de escritorio";
    "equipo informático";
    "equipo informatico";
    "equipos informáticos";
    "equipos informaticos";
    "equipamiento informático";
    "equipamiento informatico";
    "servidor";
    "servidores";
    "impresora";
    "impresoras";
    "multifunción";
    "multifuncion";
    "plotter";
    "scanner";
    "escáner";
    "monitor";
    "monitores";
    "teclado";
    "teclados";
    "mouse";
    "mouses";
    "disco rígido";
    "discos rígidos";
    "disco duro";
    "discos duros";
    "ssd";
    "switch";
    "switches";
    "router";
    "routers";
    "firewall";
    "firewalls";
    "access point";
    "punto de acceso";
    "wifi";
    "redes informáticas";
    "redes informaticas";
    "cableado estructurado";
    "datacenter";
    "data center";
    "virtualización";
    "virtualizacion";
    "storage";
    "cabina de almacenamiento";
    "infraestructura tecnológica";
    "infraestructura tecnologica";
    "software";
    "sistema informático";
    "sistema informatico";
    "sistemas informáticos";
    "sistemas informaticos";
    "programa informático";
    "programa informatico";
    "programas informáticos";
    "programas informaticos";
    "licencia de software";
    "licencias de software";
    "antivirus";
    "licencias de uso de software";
    "suscripción de software";
    "suscripcion de software";
    "desarrollo de software";
    "desarrollo de sistemas";
    "desarrollo informático";
    "desarrollo informatico";
    "mantenimiento de software";
    "mantenimiento de sistemas";
    "implementación de software";
    "implementacion de software";
    "servicios informáticos";
    "servicios informaticos";
    "servicios de informática";
    "servicios de informatica";
    "soporte técnico informático";
    "soporte tecnico informatico";
    "servicio técnico informático";
    "servicio tecnico informatico";
    "hosting";
    "cloud";
    "nube";
    "saas";
    "iaas";
    "paas";
    "tecnologías de la información";
    "tecnologias de la informacion" ]%string.

Section Unicode.

(** What the Unicode database and [str.lower] give:
    [normalize_NFD s] is [unicodedata.normalize("NFD", s)], [combining c] is
    [unicodedata.combining(c)] and [lower s] is [s.lower()]. *)
Variable normalize_NFD : str -> str.
Variable combining : N -> N.
Variable lower : str -> str.

Definition _strip_accents (s : str) : str :=
  match s with
  | [] => []
  | _ => filter (fun c => combining c = 0%N) (normalize_NFD s)
  end.

(** The body of [for kw in TIC_KEYWORDS]. *)
Fixpoint es_tic_keywords (txt : str) (kws : list str) : bool :=
  match kws with
  | [] => false
  | kw :: rest =>
    let kw_norm := lower (_strip_accents kw) in
    if (length kw_norm <=? 2)%nat then es_tic_keywords txt rest
    else if contains kw_norm txt then true
    else es_tic_keywords txt rest
  end.

Definition es_tic (texto : option str) : bool :=
  match texto with
  | None => false
  | Some [] => false
  | Some s =>
    let txt := lower (_strip_accents s) in
    es_tic_keywords txt TIC_KEYWORDS
  end.

End Unicode.

(** The database restricted to Basic Latin and the Latin-1 Supplement
    (U+0000 to U+00FF) and to the seven marks that the decompositions of
    these characters use; enough for Spanish text. *)
Definition latin1_decomposition : list (N * list N) :=
  [ (192, [65; 768]); (193, [65; 769]); (194, [65; 770]); (195, [65; 771]);
    (196, [65; 776]); (197, [65; 778]); (199, [67; 807]); (200, [69; 768]);
    (201, [69; 769]); (202, [69; 770]); (203, [69; 776]); (204, [73; 768]);
    (205, [73; 769]); (206, [73; 770]); (207, [73; 776]); (209, [78; 771]);
    (210, [79; 768]); (211, [79; 769]); (212, [79; 770]); (213, [79; 771]);
    (214, [79; 776]); (217, [85; 768]); (218, [85; 769]); (219, [85; 770]);
    (220, [85; 776]); (221, [89; 769]); (224, [97; 768]); (225, [97; 769]);
    (226, [97; 770]); (227, [97; 771]); (228, [97; 776]); (229, [97; 778]);
    (231, [99; 807]); (232, [101; 768]); (233, [101; 769]); (234, [101; 770]);
    (235, [101; 776]); (236, [105; 768]); (237, [105; 769]); (238, [105; 770]);
    (239, [105; 776]); (241, [110; 771]); (242, [111; 768]); (243, [111; 769]);
    (244, [111; 770]); (245, [111; 771]); (246, [111; 776]); (249, [117; 768]);
    (250, [117; 769]); (251, [117; 770]); (252, [117; 776]); (253, [121; 769]);
    (255, [121; 776]) ]%N.

Fixpoint decompose_in (table : list (N * list N)) (c : N) : list N :=
  match table with
  | [] => [c]
  | (k, d) :: rest => if (k =? c)%N then d else decompose_in rest c
  end.

Definition latin1_NFD (s : str) : str :=
  flat_map (decompose_in latin1_decomposition) s.

Definition latin1_combining (c : N) : N :=
  if ((c =? 768) || (c =? 769) || (c =? 770) || (c =? 771) || (c =? 776)
      || (c =? 778))%N then 230%N
  else if (c =? 807)%N then 202%N
  else 0%N.

Definition latin1_lower_char (c : N) : N :=
  if ((65 <=? c) && (c <=? 90))%N then (c + 32)%N
  else if ((192 <=? c) && (c <=? 222) && negb (c =? 215))%N then (c + 32)%N
  else c.

Definition latin1_lower (s : str) : str := map latin1_lower_char s.

Definition es_tic_latin1 : option str -> bool :=
  es_tic latin1_NFD latin1_combining latin1_lower.

End Clasificacion.

(** ** Python floats

    A [float] is the rational it denotes; every operation computes the exact
    result and rounds it with [round], the rounding of the machine (IEEE 754
    binary64, to nearest).  The properties below only need what is stated of
    [round] where they are proved. *)

Module Float.

Section Rounding.
Variable round : Q -> Q.

(** [float(z)]. *)
Definition of_int (z : Z) : Q := round (inject_Z z).

(** [a / b] on two [int]s: the quotient, rounded once. *)
Definition truediv (a b : Z) : Q := round (inject_Z a / inject_Z b).

Definition add (x y : Q) : Q := round (x + y).
Definition mul (x y : Q) : Q := round (x * y).
Definition div (x y : Q) : Q := round (x / y).

End Rounding.

(** [int(x)]: truncation towards zero. *)
Definition to_int (x : Q) : Z := Z.quot (Qnum x) (Zpos (Qden x)).

(** Arithmetic without rounding error. *)
Definition exact (x : Q) : Q := x.

End Float.

(** ** Dates

    A [datetime.date] is its proleptic Gregorian ordinal ([date.toordinal()]),
    between 1 and [MAXORDINAL] (9999-12-31). *)

Module Fechas.
Import Py.

Definition date := Z.

Definition MAXORDINAL : Z := 3652059.

Definition DAYS_BEFORE_MONTH : list Z :=
  [0; 0; 31; 59; 90; 120; 151; 181; 212; 243; 273; 304; 334].

Definition DAYS_IN_MONTH : list Z :=
  [0; 31; 28; 31; 30; 31; 30; 31; 31; 30; 31; 30; 31].

(** [_ord2ymd] of the [datetime] module: ordinal to (year, month, day). *)
Definition ord2ymd (n : Z) : Z * Z * Z :=
  let n := n - 1 in
  let n400 := n / 146097 in
  let n := n mod 146097 in
  let year := n400 * 400 + 1 in
  let n100 := n / 36524 in
  let n := n mod 36524 in
  let n4 := n / 1461 in
  let n := n mod 1461 in
  let n1 := n / 365 in
  let n := n mod 365 in
  let year := year + n100 * 100 + n4 * 4 + n1 in
  if (n1 =? 4) || (n100 =? 4) then (year - 1, 12, 31)
  else
    let leapyear := (n1 =? 3) && (negb (n4 =? 24) || (n100 =? 3)) in
    let month := Z.shiftr (n + 50) 5 in
    let preceding :=
      nth (Z.to_nat month) DAYS_BEFORE_MONTH 0
      + (if (2 <? month) && leapyear then 1 else 0) in
    if n <? preceding then
      let month := month - 1 in
      let preceding :=
        preceding - (nth (Z.to_nat month) DAYS_IN_MONTH 0
                     + (if (month =? 2) && leapyear then 1 else 0)) in
      (year, month, n - preceding + 1)
    else (year, month, n - preceding + 1).

(** A number in decimal, padded with zeros to [width] digits. *)
Definition zero_pad (width : nat) (z : Z) : str :=
  let digits := str_of_Z z in
  repeat 48%N (width - length digits) ++ digits.

(** [d.strftime("%Y%m%d")]; [strftime_Y] is what the C library gives for
    [%Y]: the year in four digits, or the year as it is (glibc, which does
    not pad a year below 1000). *)
Definition strftime_Ymd (strftime_Y : Z -> str) (d : date) : str :=
  let '(y, m, dd) := ord2ymd d in
  strftime_Y y ++ zero_pad 2 m ++ zero_pad 2 dd.

End Fechas.

(** ** Effects

    An adapter polls the cancel predicate, reports progress, appends records
    to its list, drives a browser and writes a spreadsheet.  A computation
    is given the number of polls made so far and gives back its result, the
    new number of polls and the effects it performed, in order. *)

Module Efectos.
Import Py.

(** A record of the output, a Python [dict]. *)
Abbreviation record := (gmap str value).

Inductive event :=
| Poll (answer : bool)
  (** [is_cancelled()] was called and gave [answer] *)
| Progress (pct : Z)
  (** [progress_callback(pct)] *)
| Append (registro : record)
  (** [registros.append(registro)] *)
| PageSource (pagina : Z)
  (** the rows of listing page [pagina] were read from the browser *)
| GoToPage (pagina : Z)
  (** [ir_a_pagina(driver, pagina)] *)
| Quit
  (** [driver.quit()] *)
| ToExcel (output_dir filename : str) (rows : list record)
  (** [df.to_excel(os.path.join(output_dir, filename))] wrote the
      spreadsheet *).

(** What the outside world answers to a call: a value or an exception. *)
Inductive reply (A : Type) :=
| Reply (a : A)
| Throws (e : exn).
Arguments Reply {A} a.
Arguments Throws {A} e.

(** How a computation ends. *)
Inductive result (A : Type) :=
| Returns (a : A)
| Raises (e : exn)
| OutOfFuel.
Arguments Returns {A} a.
Arguments Raises {A} e.
Arguments OutOfFuel {A}.

Record out (A : Type) := Out {
  res : result A;
  polls : nat;
  events : list event
}.
Arguments Out {A} res polls events.
Arguments res {A} o.
Arguments polls {A} o.
Arguments events {A} o.

Definition M (A : Type) := nat -> out A.

Definition ret {A} (a : A) : M A := fun n => Out (Returns a) n [].

Definition raise {A} (e : exn) : M A := fun n => Out (Raises e) n [].

Definition out_of_fuel {A} : M A := fun n => Out OutOfFuel n [].

Definition bind {A B} (m : M A) (k : A -> M B) : M B :=
  fun n =>
    let o := m n in
    match res o with
    | Returns a =>
      let o' := k a (polls o) in
      Out (res o') (polls o') (events o ++ events o')
    | Raises e => Out (Raises e) (polls o) (events o)
    | OutOfFuel => Out OutOfFuel (polls o) (events o)
    end.

Notation "'let*' x ':=' m 'in' k" := (bind m (fun x => k))
  (at level 10, x pattern, m at level 100, k at level 200).

Definition emit (e : event) : M unit := fun n => Out (Returns tt) n [e].

(** [is_cancelled and is_cancelled()]: without a predicate nothing is polled;
    [answers i] is what the predicate says the [i]-th time it is asked. *)
Definition cancelled (is_cancelled : option (nat -> bool)) : M bool :=
  match is_cancelled with
  | None => ret false
  | Some answers => fun n => Out (Returns (answers n)) (S n) [Poll (answers n)]
  end.

(** [if progress_callback: progress_callback(pct)]; the flag says whether a
    callback was passed. *)
Definition report (progress_callback : bool) (pct : Z) : M unit :=
  if progress_callback then emit (Progress pct) else ret tt.

(** [try: body finally: cleanup]. *)
Definition finally {A} (body : M A) (cleanup : M unit) : M A :=
  fun n =>
    let o := body n in
    let c := cleanup (polls o) in
    Out (res o) (polls c) (events o ++ events c).

(** A call to the outside world. *)
Definition call {A} (r : reply A) : M A :=
  match r with
  | Reply a => ret a
  | Throws e => raise e
  end.

(** [enumerate(l, start)]. *)
Fixpoint enumerate {A} (start : Z) (l : list A) : list (Z * A) :=
  match l with
  | [] => []
  | x :: r => (start, x) :: enumerate (start + 1) r
  end.

(** A dictionary display [{k1: v1, ...}]: later items win. *)
Definition dict_of {V} (items : list (str * V)) : gmap str V :=
  fold_left (fun m kv => <[kv.1 := kv.2]> m) items ∅.

(** [r.get(k)] on a record. *)
Definition get_value (r : record) (k : str) : value :=
  match r !! k with Some v => v | None => VNone end.

(** [a or b] on values. *)
Definition or_value (a b : value) : value := if truthy a then a else b.

(** The text of a value that is a string. *)
Definition text_of (v : value) : str :=
  match v with VStr s => s | _ => [] end.

End Efectos.

(** ** The Python runtime that an adapter runs on: the rounding of its
    floats, the Unicode tables behind [es_tic], the [%Y] of the C library,
    and what the file system answers when the spreadsheet of the run is
    written: [df.to_excel] returns, or raises. *)

Record python := Python {
  float_round : Q -> Q;
  normalize_NFD : Py.str -> Py.str;
  combining : N -> N;
  lower : Py.str -> Py.str;
  strftime_Y : Z -> Py.str;
  to_excel : Efectos.reply unit
}.

(** Exact arithmetic, the Latin-1 tables, the [%Y] of glibc and a file
    system that takes the spreadsheet. *)
Definition latin1_python : python :=
  Python Float.exact Clasificacion.latin1_NFD Clasificacion.latin1_combining
         Clasificacion.latin1_lower Py.str_of_Z (Efectos.Reply tt).

(** [df.to_excel(os.path.join(output_dir, filename), ...)]: the spreadsheet
    is written, or the exception of the writer comes up. *)
Definition df_to_excel (py : python) (output_dir filename : Py.str)
    (df : list Efectos.record) : Efectos.M unit :=
  Efectos.bind (Efectos.call (to_excel py))
    (fun _ => Efectos.emit (Efectos.ToExcel output_dir filename df)).

(** ** [scrapers/comprar.py]: the adapter over HTTP *)

Module Comprar.
Import Py Efectos Fechas.

Abbreviation dict := (gmap str (option str)).

(** A row of the listing grid, as [_extract_list_rows_from_soup] builds it. *)
Record ListRow := {
  numero_proceso_list : option str;
  nombre_proceso_list : option str;
  tipo_proceso_list : option str;
  fecha_apertura_list : option str;
  estado_list : option str;
  unidad_ejecutora_list : option str;
  saf_list : option str;
  detalle_url : option str
}.

(** A parsed listing page, seen through the parsers of the module: each
    field is what the function of that name returns on the page. *)
Record Soup := {
  _parse_total_results : option N;
  _extract_list_rows_from_soup : list ListRow;
  _parse_simple_pager_links : list str;
  _parse_pager_target : option str;
  _collect_form_state : gmap str str
}.

Inductive request :=
| GET (url : str)
| POST (url : str) (data : gmap str str).

(** A [requests.Session] and the site behind it: given the requests sent so
    far, the last one being the current one, the page that comes back, or
    the exception of [session.get], [session.post] or [raise_for_status]. *)
Definition session := list request -> reply Soup.

Definition COMPRAS_LIST_URL : str :=
  lit "https://comprar.gob.ar/Compras.aspx?qs=W1HXHGHtH10=".

(** [range(a, b)]. *)
Definition range (a b : Z) : list Z :=
  map (fun i => a + Z.of_nat i) (seq 0 (Z.to_nat (b - a))).

(** [max_pages is not None and page > max_pages]. *)
Definition beyond (max_pages : option Z) (page : Z) : bool :=
  match max_pages with
  | Some m => m <? page
  | None => false
  end.

(** [total_pages] of [_iter_compras_pages]. *)
Definition total_pages_of (total_results : option N) (page_size : Z) : option Z :=
  match total_results with
  | Some n =>
    if page_size =? 0 then None
    else Some ((Z.of_N n + page_size - 1) / page_size)
  | None => None
  end.

Section IterPages.
Variable ses : session.
Variable max_pages : option Z.

(** [for idx, url in enumerate(simple_links, start=2)]. *)
Fixpoint simple_links_loop (links : list (Z * str)) (soups : list Soup)
    (sent : list request) : reply (list Soup) * list request :=
  match links with
  | [] => (Reply soups, sent)
  | (idx, url) :: rest =>
    if beyond max_pages idx then (Reply soups, sent)
    else
      let sent := sent ++ [GET url] in
      match ses sent with
      | Throws e => (Throws e, sent)
      | Reply sp => simple_links_loop rest (soups ++ [sp]) sent
      end
  end.

Definition postback_form (current_soup : Soup) (pager_target : str) (page : Z)
    : gmap str str :=
  let form_data := _collect_form_state current_soup in
  let form_data := <[lit "__EVENTTARGET" := pager_target]> form_data in
  <[lit "__EVENTARGUMENT" := lit "Page$" ++ str_of_Z page]> form_data.

(** [for page in range(2, total_pages + 1)]. *)
Fixpoint postback_loop (pager_target : str) (pages : list Z) (current_soup : Soup)
    (soups : list Soup) (sent : list request)
    : reply (list Soup) * list request :=
  match pages with
  | [] => (Reply soups, sent)
  | page :: rest =>
    if beyond max_pages page then (Reply soups, sent)
    else
      let form_data := postback_form current_soup pager_target page in
      let sent := sent ++ [POST COMPRAS_LIST_URL form_data] in
      match ses sent with
      | Throws e => (Throws e, sent)
      | Reply sp => postback_loop pager_target rest sp (soups ++ [sp]) sent
      end
  end.

(** The pages of the listing, with the requests that were sent for them. *)
Definition _iter_compras_pages : reply (list Soup) * list request :=
  let sent := [GET COMPRAS_LIST_URL] in
  match ses sent with
  | Throws e => (Throws e, sent)
  | Reply soup =>
    let soups := [soup] in
    let total_results := _parse_total_results soup in
    let first_rows := _extract_list_rows_from_soup soup in
    let page_size := Z.of_nat (length first_rows) in
    let total_pages := total_pages_of total_results page_size in
    let simple_links := _parse_simple_pager_links soup in
    match simple_links with
    | _ :: _ => simple_links_loop (enumerate 2 simple_links) soups sent
    | [] =>
      match _parse_pager_target soup, total_pages with
      | Some pager_target, Some total_pages =>
        if negb (truthy (VStr pager_target)) || (total_pages =? 0)
           || (total_pages <=? 1)
        then (Reply soups, sent)
        else postback_loop pager_target (range 2 (total_pages + 1)) soup soups sent
      | _, _ => (Reply soups, sent)
      end
    end
  end.

End IterPages.

(** The site as [scrape_comprar_tics] meets it: the listing behind the
    session, and for the [idx]-th row of the run what its detail gives,
    through [scrape_convocatoria_detail(detalle_url)] or through
    [fetch_detalle_proceso_via_postback(numero)]. *)
Record sitio := {
  listado : session;
  scrape_convocatoria_detail : Z -> str -> reply dict;
  fetch_detalle_proceso_via_postback : Z -> str -> reply (option dict)
}.

Section Adapter.
Variable py : python.
Variable web : sitio.

Definition es_tic : option str -> bool :=
  Clasificacion.es_tic (normalize_NFD py) (combining py) (lower py).

(** The detail of a row: [{}] when it cannot be had. *)
Definition detail_of (idx : Z) (row : ListRow) : dict :=
  if truthy_opt (detalle_url row) then
    match scrape_convocatoria_detail web idx (default [] (detalle_url row)) with
    | Reply d => d
    | Throws _ => ∅
    end
  else
    let numero_list := numero_proceso_list row in
    if truthy_opt numero_list then
      match fetch_detalle_proceso_via_postback web idx (default [] numero_list) with
      | Reply r => default ∅ r
      | Throws _ => ∅
      end
    else ∅.

Definition merge (row : ListRow) (detail_data : dict) : record :=
  dict_of
    [ (lit "numero_proceso",
       of_opt (or_opt (get detail_data (lit "numero_proceso")) (numero_proceso_list row)));
      (lit "expediente", of_opt (get detail_data (lit "expediente")));
      (lit "nombre_proceso",
       of_opt (or_opt (get detail_data (lit "nombre_proceso")) (nombre_proceso_list row)));
      (lit "tipo_proceso",
       of_opt (or_opt (get detail_data (lit "tipo_proceso")) (tipo_proceso_list row)));
      (lit "fecha_apertura",
       of_opt (or_opt (get detail_data (lit "fecha_apertura")) (fecha_apertura_list row)));
      (lit "estado",
       of_opt (or_opt (get detail_data (lit "estado")) (estado_list row)));
      (lit "unidad_ejecutora",
       of_opt (or_opt (get detail_data (lit "unidad_ejecutora"))
                      (unidad_ejecutora_list row)));
      (lit "saf", of_opt (or_opt (get detail_data (lit "saf")) (saf_list row)));
      (lit "detalle_productos", of_opt (get detail_data (lit "detalle_productos")));
      (lit "pliego_nombre", of_opt (get detail_data (lit "pliego_nombre")));
      (lit "pliego_url", of_opt (get detail_data (lit "pliego_url")));
      (lit "url_detalle",
       of_opt (or_opt (get detail_data (lit "url")) (detalle_url row))) ].

(** The text that is classified, and the record with its mark. *)
Definition texto_tic (merged : record) : str :=
  join (lit " ")
    (map text_of
       (filter (fun t => truthy t = true)
          [ or_value (get_value merged (lit "detalle_productos")) (VStr []);
            or_value (get_value merged (lit "nombre_proceso")) (VStr []) ])).

Definition marcar_tic (merged : record) : record :=
  <[lit "es_tic" := VBool (es_tic (Some (texto_tic merged)))]> merged.

Section Run.
Variable start_date end_date : date.
Variable output_dir : str.
Variable progress_callback : bool.
Variable is_cancelled : option (nat -> bool).

(** [for idx, row in enumerate(list_rows, start=1)]; the loop ends, by
    exhaustion or by [break], with the records gathered. *)
Fixpoint for_rows (total : Z) (rows : list (Z * ListRow)) (records : list record)
    : M (list record) :=
  match rows with
  | [] => ret records
  | (idx, row) :: rest =>
    let* c := cancelled is_cancelled in
    if c then ret records
    else
      let detail_data := detail_of idx row in
      let merged := marcar_tic (merge row detail_data) in
      let* _ := emit (Append merged) in
      let progress := Float.to_int (Float.truediv (float_round py) (idx * 100) total) in
      let* _ := report progress_callback progress in
      for_rows total rest (records ++ [merged])
  end.

Definition scrape_comprar_tics : M Z :=
  let* list_soups := call (_iter_compras_pages (listado web) None).1 in
  let list_rows := flat_map _extract_list_rows_from_soup list_soups in
  let total := Z.of_nat (length list_rows) in
  if total =? 0 then
    let* _ := report progress_callback 100 in
    ret 0
  else
    let* records := for_rows total (enumerate 1 list_rows) [] in
    match records with
    | [] =>
      let* _ := report progress_callback 100 in
      ret 0
    | _ =>
      let df := records in
      let filename :=
        lit "comprar_tics_" ++ strftime_Ymd (strftime_Y py) start_date ++ lit "_"
        ++ strftime_Ymd (strftime_Y py) end_date ++ lit ".xlsx" in
      let* _ := df_to_excel py output_dir filename df in
      let* _ := report progress_callback 100 in
      ret (Z.of_nat (length df))
    end.

End Run.
End Adapter.
End Comprar.

(** ** [scrapers/comprar_bot.py]: the adapter that drives a browser *)

Module ComprarBot.
Import Py Efectos Fechas.

Abbreviation dict := (gmap str (option str)).

(** A [pandas.DataFrame] built from a list of records: its rows. *)
Abbreviation DataFrame := (list record).

(** A row of the grid, as [obtener_filas_listado] builds it. *)
Record Fila := {
  numero_proceso : str;
  objeto : option str;
  tipo : option str;
  fecha_apertura : option str;
  estado : option str;
  unidad_ejecutora : option str;
  saf : option str
}.

(** The browser and the site behind it: whether the driver starts and the
    listing opens, the rows that [obtener_filas_listado(driver.page_source)]
    gives while page [pagina] is shown, what
    [scrapear_detalle_proceso(driver, numero)] gives for row [idx] of page
    [pagina], and whether [ir_a_pagina(driver, pagina)] succeeds. *)
Record navegador := {
  crear_driver : reply unit;
  ir_a_listado : reply unit;
  obtener_filas_listado : Z -> list Fila;
  scrapear_detalle_proceso : Z -> Z -> str -> reply (option dict);
  ir_a_pagina : Z -> bool
}.

(** How a loop whose body may [return] ends. *)
Inductive loop_exit (A B : Type) :=
| Completed (a : A)
| Returned (b : B).
Arguments Completed {A B} a.
Arguments Returned {A B} b.

Section Robot.
Variable py : python.
Variable nav : navegador.

Definition es_tic : option str -> bool :=
  Clasificacion.es_tic (normalize_NFD py) (combining py) (lower py).

Definition merge (fila : Fila) (detalle : dict) : record :=
  dict_of
    [ (lit "numero_proceso",
       of_opt (or_opt (get detalle (lit "numero_proceso")) (Some (numero_proceso fila))));
      (lit "expediente", of_opt (get detalle (lit "expediente")));
      (lit "nombre_proceso",
       of_opt (or_opt (get detalle (lit "nombre_proceso")) (objeto fila)));
      (lit "tipo_proceso",
       of_opt (or_opt (get detalle (lit "tipo_proceso")) (tipo fila)));
      (lit "fecha_apertura",
       of_opt (or_opt (get detalle (lit "fecha_apertura")) (fecha_apertura fila)));
      (lit "estado", of_opt (or_opt (estado fila) (get detalle (lit "estado"))));
      (lit "unidad_ejecutora",
       of_opt (or_opt (unidad_ejecutora fila) (get detalle (lit "unidad_ejecutora"))));
      (lit "saf", of_opt (or_opt (saf fila) (get detalle (lit "saf"))));
      (lit "detalle_productos", of_opt (get detalle (lit "detalle_productos")));
      (lit "pliego_nombre", of_opt (get detalle (lit "pliego_nombre")));
      (lit "pliego_url", of_opt (get detalle (lit "pliego_url")));
      (lit "url_detalle", of_opt (get detalle (lit "url"))) ].

Definition texto_tic (registro : record) : str :=
  join (lit " ")
    (map text_of
       (filter (fun t => truthy t = true)
          [ or_value (get_value registro (lit "nombre_proceso")) (VStr []);
            or_value (get_value registro (lit "detalle_productos")) (VStr []) ])).

Definition marcar_tic (registro : record) : record :=
  <[lit "es_tic" := VBool (es_tic (Some (texto_tic registro)))]> registro.

(** The detail of a row, [None] when visiting it raised. *)
Definition detalle_de (pagina idx : Z) (fila : Fila) : option dict :=
  match scrapear_detalle_proceso nav pagina idx (numero_proceso fila) with
  | Reply d => d
  | Throws _ => None
  end.

(** [not detalle]. *)
Definition sin_detalle (detalle : option dict) : bool :=
  match detalle with
  | None => true
  | Some d => bool_decide (d = ∅)
  end.

Section Run.
Variable max_paginas : option Z.
Variable progress_callback : bool.
Variable is_cancelled : option (nat -> bool).

(** [for idx, fila in enumerate(filas)]. *)
Fixpoint for_filas (pagina : Z) (filas : list (Z * Fila))
    (registros : list record) (total_procesos : Z)
    : M (loop_exit (list record * Z) DataFrame) :=
  match filas with
  | [] => ret (Completed (registros, total_procesos))
  | (idx, fila) :: rest =>
    let* c := cancelled is_cancelled in
    if c then ret (Returned registros)
    else
      let detalle := detalle_de pagina idx fila in
      if sin_detalle detalle then for_filas pagina rest registros total_procesos
      else
        let registro := marcar_tic (merge fila (default ∅ detalle)) in
        let* _ := emit (Append registro) in
        let total_procesos := total_procesos + 1 in
        let progress := Z.min total_procesos 99 in
        let* _ := report progress_callback progress in
        for_filas pagina rest (registros ++ [registro]) total_procesos
  end.

(** [while True], with [fuel] iterations at most. *)
Fixpoint paginas (fuel : nat) (pagina : Z) (registros : list record)
    (total_procesos : Z) : M (loop_exit (list record) DataFrame) :=
  match fuel with
  | O => out_of_fuel
  | S fuel =>
    let* _ := emit (PageSource pagina) in
    let filas := obtener_filas_listado nav pagina in
    match filas with
    | [] => ret (Completed registros)
    | _ =>
      let* r := for_filas pagina (enumerate 0 filas) registros total_procesos in
      match r with
      | Returned df => ret (Returned df)
      | Completed (registros, total_procesos) =>
        let pagina := pagina + 1 in
        if Comprar.beyond max_paginas pagina then ret (Completed registros)
        else
          let* _ := emit (GoToPage pagina) in
          if negb (ir_a_pagina nav pagina) then ret (Completed registros)
          else paginas fuel pagina registros total_procesos
      end
    end
  end.

Definition ejecutar_robot (fuel : nat) : M DataFrame :=
  let* _ := call (crear_driver nav) in
  let* r :=
    finally
      (let* _ := call (ir_a_listado nav) in
       paginas fuel 1 [] 0)
      (emit Quit) in
  match r with
  | Returned df => ret df
  | Completed registros => ret registros
  end.

End Run.

(** [df.rename(columns=columnas_export)] and the choice of the columns. *)
Definition columnas_export : list (str * str) :=
  [ (lit "numero_proceso", lit "Número proceso");
    (lit "expediente", lit "Expediente");
    (lit "nombre_proceso", lit "Nombre proceso");
    (lit "tipo_proceso", lit "Tipo de Proceso");
    (lit "fecha_apertura", lit "Fecha de apertura");
    (lit "estado", lit "Estado");
    (lit "unidad_ejecutora", lit "Unidad Ejecutora");
    (lit "saf", lit "Servicio Administrativo Financiero");
    (lit "detalle_productos", lit "Detalle de productos o servicios");
    (lit "pliego_nombre", lit "Pliego N°");
    (lit "url_detalle", lit "LINK");
    (lit "es_tic", lit "Es TIC") ].

Definition exportar (registro : record) : record :=
  dict_of (map (fun c => (c.2, get_value registro c.1)) columnas_export).

Definition scrape_comprar_tics_robot (fuel : nat) (start_date end_date : date)
    (output_dir : str) (progress_callback : bool)
    (is_cancelled : option (nat -> bool)) : M Z :=
  let* df := ejecutar_robot (Some 1) progress_callback is_cancelled fuel in
  match df with
  | [] =>
    let* _ := report progress_callback 100 in
    ret 0
  | _ =>
    let df := map exportar df in
    let output_file :=
      lit "comprar_selenium_" ++ strftime_Ymd (strftime_Y py) start_date ++ lit "_"
      ++ strftime_Ymd (strftime_Y py) end_date ++ lit ".xlsx" in
    let* _ := df_to_excel py output_dir output_file df in
    let* _ := report progress_callback 100 in
    ret (Z.of_nat (length df))
  end.

End Robot.
End ComprarBot.

(** ** [scrapers/boletin_tercera.py]: the gazette adapter *)

Module BoletinTercera.
Import Py Efectos Fechas.

Abbreviation dict := (gmap str (option str)).

(** An entry of the listing of one edition. *)
Record Aviso := {
  titulo_listado : str;
  url : str;
  fecha_edicion : str
}.

(** The gazette: the entries that [_get_listado_avisos(fecha)] finds (it
    catches its own failures and then finds none), and what
    [_parse_aviso(url)] gives for entry [idx] of the edition of [fecha]. *)
Record boletin := {
  _get_listado_avisos : date -> list Aviso;
  _parse_aviso : date -> Z -> str -> reply dict
}.

Section Adapter.
Variable py : python.
Variable sitio : boletin.

Definition round : Q -> Q := float_round py.

(** [min(100, max(0, int(frac * 100)))]. *)
Definition pct_of (frac : Q) : Z :=
  Z.min 100 (Z.max 0 (Float.to_int (Float.mul round frac (Float.of_int round 100)))).

(** [fecha + timedelta(days=1)]. *)
Definition next_day (fecha : date) : M date :=
  if MAXORDINAL <? fecha + 1 then raise OverflowError else ret (fecha + 1).

Section Run.
Variable start_date end_date : date.
Variable output_dir : str.
Variable progress_callback : bool.
Variable is_cancelled : option (nat -> bool).

(** [for idx_aviso, aviso in enumerate(avisos, start=1)]. *)
Fixpoint for_avisos (fecha_actual : date) (day_index total_days n_av : Z)
    (avisos : list (Z * Aviso)) (registros : list record) : M (list record) :=
  match avisos with
  | [] => ret registros
  | (idx_aviso, aviso) :: rest =>
    let* c := cancelled is_cancelled in
    if c then ret registros
    else
      match _parse_aviso sitio fecha_actual idx_aviso (url aviso) with
      | Throws _ => for_avisos fecha_actual day_index total_days n_av rest registros
      | Reply data =>
        let data : record := of_opt <$> data in
        let data := <[lit "titulo_listado" := VStr (titulo_listado aviso)]> data in
        let data := <[lit "fecha_edicion" := VStr (fecha_edicion aviso)]> data in
        let* _ := emit (Append data) in
        let frac :=
          Float.div round
            (Float.add round (Float.of_int round day_index)
               (Float.truediv round idx_aviso n_av))
            (Float.of_int round total_days) in
        let* _ := report progress_callback (pct_of frac) in
        for_avisos fecha_actual day_index total_days n_av rest (registros ++ [data])
      end
  end.

(** [while fecha_actual <= end_date], with [fuel] iterations at most. *)
Fixpoint while_fechas (fuel : nat) (total_days : Z) (fecha_actual : date)
    (day_index : Z) (registros : list record) : M (list record) :=
  match fuel with
  | O => out_of_fuel
  | S fuel =>
    if negb (fecha_actual <=? end_date) then ret registros
    else
      let* c := cancelled is_cancelled in
      if c then ret registros
      else
        let avisos := _get_listado_avisos sitio fecha_actual in
        let n_av := Z.of_nat (length avisos) in
        if n_av =? 0 then
          let day_index := day_index + 1 in
          let frac := Float.truediv round day_index total_days in
          let* _ := report progress_callback (pct_of frac) in
          let* fecha_actual := next_day fecha_actual in
          while_fechas fuel total_days fecha_actual day_index registros
        else
          let* registros :=
            for_avisos fecha_actual day_index total_days n_av
              (enumerate 1 avisos) registros in
          let* c := cancelled is_cancelled in
          if c then ret registros
          else
            let day_index := day_index + 1 in
            let* fecha_actual := next_day fecha_actual in
            while_fechas fuel total_days fecha_actual day_index registros
  end.

Definition scrape_boletin_tercera : M Z :=
  if end_date <? start_date then raise ValueError
  else
    let total_days := (end_date - start_date) + 1 in
    let total_days := if total_days <=? 0 then 1 else total_days in
    let* registros :=
      while_fechas (S (Z.to_nat total_days)) total_days start_date 0 [] in
    match registros with
    | [] => ret 0
    | _ =>
      let df := registros in
      let filename :=
        lit "contrataciones_tercera_" ++ strftime_Ymd (strftime_Y py) start_date
        ++ lit "_" ++ strftime_Ymd (strftime_Y py) end_date ++ lit ".xlsx" in
      (* [try: df.to_excel(...) except Exception as e: ...; raise]: the
         exception of the writer is printed and raised again *)
      let* _ := df_to_excel py output_dir filename df in
      ret (Z.of_nat (length df))
    end.

End Run.
End Adapter.
End BoletinTercera.

(** ** [scrapers/__init__.py]: the registry *)

Module Scrapers.
Import Py Efectos Fechas.

(** The signature that the shell expects:
    [(start_date, end_date, output_dir, progress_callback, is_cancelled)
     -> count]. *)
Definition ScraperFunc : Type :=
  date -> date -> str -> bool -> option (nat -> bool) -> M Z.

(** The world of one run: the runtime, the two sites, the browser, and the
    bound on the iterations of the robot's [while True]. *)
Record mundo := {
  runtime : python;
  gaceta : BoletinTercera.boletin;
  comprar : Comprar.sitio;
  chrome : ComprarBot.navegador;
  fuel : nat
}.

Section Registry.
Variable w : mundo.

Definition scrape_boletin_tercera : ScraperFunc :=
  BoletinTercera.scrape_boletin_tercera (runtime w) (gaceta w).

Definition scrape_comprar_tics : ScraperFunc :=
  Comprar.scrape_comprar_tics (runtime w) (comprar w).

Definition scrape_comprar_tics_robot : ScraperFunc :=
  ComprarBot.scrape_comprar_tics_robot (runtime w) (chrome w) (fuel w).

Definition SCRAPERS_REGISTRY : gmap str ScraperFunc :=
  dict_of
    [ (lit "boletin_tercera", scrape_boletin_tercera);
      (lit "comprar_tics", scrape_comprar_tics);
      (lit "comprar_tics_robot", scrape_comprar_tics_robot) ].

Definition get_scraper (site_key : str) : reply ScraperFunc :=
  match SCRAPERS_REGISTRY !! site_key with
  | Some f => Reply f
  | None => Throws ValueError
  end.

End Registry.
End Scrapers.

(** ** [main.py]: the worker that runs an adapter for the window *)

Module Main.
Import Py Efectos Fechas Scrapers.

(** The signals of [ScraperWorker]. *)
Inductive signal :=
| ProgressChanged (value : Z)
| Finished (count : Z) (cancelled : bool)
| Error (e : exn).

(** [self._cancelled]: [False] at first, and [True] from the first
    [request_cancel()] on.  The main thread may call [request_cancel()] at
    any time; [clicks i] says whether it did so since the worker last read
    the flag, when the worker reads it for the [i]-th time. *)
Fixpoint _cancelled (clicks : nat -> bool) (i : nat) : bool :=
  match i with
  | O => clicks O
  | S j => _cancelled clicks j || clicks i
  end.

Definition is_cancelled (clicks : nat -> bool) : option (nat -> bool) :=
  Some (_cancelled clicks).

(** [ScraperWorker.run]: the signals it emits, in order; [None] when the
    adapter does not come back within the fuel of the world. *)
Definition run (w : mundo) (site_key : str) (start_date end_date : date)
    (output_dir : str) (clicks : nat -> bool) : option (list signal) :=
  match get_scraper w site_key with
  | Throws e => Some [Error e]
  | Reply scraper_func =>
    let o := scraper_func start_date end_date output_dir true (is_cancelled clicks)
               0%nat in
    let emitted :=
      omap (fun e => match e with
                     | Progress p => Some (ProgressChanged p)
                     | _ => None
                     end) (events o) in
    match res o with
    | Returns count =>
      let cancelled := _cancelled clicks (polls o) in
      Some (emitted
            ++ (if negb cancelled && (0 <? count) then [ProgressChanged 100] else [])
            ++ [Finished count cancelled])
    | Raises e => Some (emitted ++ [Error e])
    | OutOfFuel => None
    end
  end.

(** The values that the progress bar receives. *)
Definition progress_values (signals : list signal) : list Z :=
  omap (fun s => match s with ProgressChanged v => Some v | _ => None end) signals.

End Main.

(** ** [scrapers/comprar.py]: the helpers on text *)

Module Texto.
Import Py.

(** [s.split()]: the words between the runs of white space; [cur] is the
    word being read. *)
Fixpoint split_from (cur : str) (s : str) : list str :=
  match s with
  | [] => match cur with [] => [] | _ => [cur] end
  | c :: r =>
    if isspace c then
      match cur with
      | [] => split_from [] r
      | _ => cur :: split_from [] r
      end
    else split_from (cur ++ [c]) r
  end.

Definition split (s : str) : list str := split_from [] s.

(** [re.sub(r"\s+", " ", text or "").strip()]. *)
Definition _clean_text (text : option str) : str :=
  strip (re_sub_spaces (lit " ") (default [] text)).

Section Renglones.

(** [s.lower()], from the Unicode tables. *)
Variable lower : str -> str.

(** The headers of the block of items. *)
Definition es_cabecera (line : str) : bool :=
  let low := lower line in
  contains (lit "detalle de productos o servicios") low
  || contains (lit "detalle de bienes y servicios") low
  || contains (lit "detalle de bienes o servicios") low
  || contains (lit "renglones de la convocatoria") low.

(** [lines[header_idx + 1:]] for the first header, [None] without one. *)
Fixpoint tras_cabecera (lines : list str) : option (list str) :=
  match lines with
  | [] => None
  | line :: rest => if es_cabecera line then Some rest else tras_cabecera rest
  end.

(** The second loop: the lines kept up to the next section or the cross that
    closes the block. *)
Fixpoint detalle_lines (lines : list str) : list str :=
  match lines with
  | [] => []
  | line :: rest =>
    let text := strip line in
    match text with
    | [] => detalle_lines rest
    | _ =>
      if startswith (lit "#### ") text then []
      else if bool_decide (text = lit "×") then []
      else text :: detalle_lines rest
    end
  end.

Definition _extract_renglones_from_text (lines : list str) : option str :=
  match tras_cabecera lines with
  | None => None
  | Some rest =>
    match detalle_lines rest with
    | [] => None
    | detalle => Some (join (lit " | ") detalle)
    end
  end.

End Renglones.

Section Labels.

(** Whether a character of the text matches a character of the pattern
    under [re.I], from the case tables of the regex engine. *)
Variable ieq : N -> N -> bool.

(** [re.compile(rf"^{re.escape(label)}$", re.I).match(line)]: the line is
    the label, up to case, possibly followed by one newline. *)
Fixpoint match_label (label line : str) : bool :=
  match label, line with
  | [], [] => true
  | [], [c] => (c =? 10)%N
  | [], _ => false
  | _ :: _, [] => false
  | a :: label', b :: line' => ieq a b && match_label label' line'
  end.

(** The inner loop over the lines that follow a label: the first one that
    is not blank, unless it opens a section. *)
Fixpoint candidate (following : list str) : option str :=
  match following with
  | [] => None
  | line :: rest =>
    let c := strip line in
    match c with
    | [] => candidate rest
    | _ => if startswith (lit "####") c then None else Some c
    end
  end.

(** [lines[idx + 1 : min(idx + 1 + max_lookahead, len(lines))]]. *)
Definition lookahead (max_lookahead : Z) (following : list str) : list str :=
  take (Z.to_nat max_lookahead) following.

Fixpoint _find_after_label (lines : list str) (label : str) (max_lookahead : Z)
    : option str :=
  match lines with
  | [] => None
  | line :: rest =>
    if match_label label line then
      match candidate (lookahead max_lookahead rest) with
      | Some c => Some c
      | None => _find_after_label rest label max_lookahead
      end
    else _find_after_label rest label max_lookahead
  end.

End Labels.

End Texto.

(** ** [scrapers/comprar.py]: the detail of a process by a postback *)

Module Postback.
Import Py Efectos.

Definition quote : N := 39.

(** The text after the literal [p] at the start of [s]. *)
Fixpoint literal (p s : str) : option str :=
  match p, s with
  | [], _ => Some s
  | _ :: _, [] => None
  | a :: p', b :: s' => if (a =? b)%N then literal p' s' else None
  end.

(** A group of characters other than the quote, as long as can be, and the
    quote after it, at the start of [s]: the group, and the text after the
    quote. *)
Fixpoint until_quote (s : str) : option (str * str) :=
  match s with
  | [] => None
  | c :: r =>
    if (c =? quote)%N then Some ([], r)
    else
      match until_quote r with
      | Some (g, rest) => Some (c :: g, rest)
      | None => None
      end
  end.

(** The pattern of [_parse_postback_from_href] at the start of [s]: the
    name [__doPostBack], and between brackets two quoted groups without
    quotes, separated by a comma. *)
Definition match_postback (s : str) : option (str * str) :=
  match literal (lit "__doPostBack('") s with
  | None => None
  | Some s1 =>
    match until_quote s1 with
    | None => None
    | Some (target, s2) =>
      match literal (lit ",'") s2 with
      | None => None
      | Some s3 =>
        match until_quote s3 with
        | None => None
        | Some (argument, s4) =>
          match literal (lit ")") s4 with
          | None => None
          | Some _ => Some (target, argument)
          end
        end
      end
    end
  end.

(** [re.search]: the leftmost match. *)
Fixpoint search_postback (s : str) : option (str * str) :=
  match match_postback s with
  | Some m => Some m
  | None =>
    match s with
    | [] => None
    | _ :: r => search_postback r
    end
  end.

(** The result stands for the dictionary with the keys [event_target] and
    [event_argument]. *)
Definition _parse_postback_from_href (href : option str) : option (str * str) :=
  if negb (truthy_opt href) then None
  else search_postback (strip (default [] href)).

(** A row of the grid: the texts of its [td] cells and the [href] of its
    first link. *)
Record Tr := {
  tds : list str;
  a_href : option str
}.

(** The listing as this function reads it: the rows of the grid after the
    header, when the grid is found, and the hidden inputs of the form. *)
Record Listado := {
  _find_grid_table : option (list Tr);
  _collect_form_state : gmap str str
}.

(** What comes back from the postback: the text of the page and the fields
    that [extract_convocatoria_fields] reads in it. *)
Record Detalle := {
  html : str;
  extract_convocatoria_fields : Comprar.dict
}.

Record sesion := {
  get_listado : reply Listado;
  post_listado : gmap str str -> reply Detalle
}.

(** The loop over the rows: [None] when no row has the number, otherwise
    the link of the first row that has it. *)
Fixpoint buscar_fila (numero_proceso : str) (rows : list Tr)
    : option (option str) :=
  match rows with
  | [] => None
  | tr :: rest =>
    match tds tr with
    | [] => buscar_fila numero_proceso rest
    | td :: _ =>
      if bool_decide (Texto._clean_text (Some td) = numero_proceso)
      then Some (a_href tr)
      else buscar_fila numero_proceso rest
    end
  end.

(** [data = {...}; data.update(form_state)]. *)
Definition postback_data (event_target event_argument : str)
    (form_state : gmap str str) : gmap str str :=
  form_state ∪
  dict_of [ (lit "__EVENTTARGET", event_target);
            (lit "__EVENTARGUMENT", event_argument);
            (lit "__LASTFOCUS", []) ].

(** The result, and the requests sent. *)
Definition fetch_detalle_proceso_via_postback (ses : sesion) (numero_proceso : str)
    : reply (option Comprar.dict) * list Comprar.request :=
  let sent := [Comprar.GET Comprar.COMPRAS_LIST_URL] in
  match get_listado ses with
  | Throws e => (Throws e, sent)
  | Reply soup =>
    match _find_grid_table soup with
    | None => (Reply None, sent)
    | Some rows =>
      match buscar_fila numero_proceso rows with
      | None => (Reply None, sent)
      | Some None => (Reply None, sent)
      | Some (Some href) =>
        match _parse_postback_from_href (Some href) with
        | None => (Reply None, sent)
        | Some (event_target, event_argument) =>
          let data :=
            postback_data event_target event_argument (_collect_form_state soup) in
          let sent := sent ++ [Comprar.POST Comprar.COMPRAS_LIST_URL data] in
          match post_listado ses data with
          | Throws e => (Throws e, sent)
          | Reply r =>
            if contains (lit "GridListaPliegosAperturaProxima") (html r)
            then (Reply None, sent)
            else (Reply (Some (extract_convocatoria_fields r)), sent)
          end
        end
      end
    end
  end.

End Postback.

(** ** The parsers of the listings *)

Module Listados.
Import Py Efectos Fechas.

(** [d.isoformat()]. *)
Definition isoformat (d : date) : str :=
  let '(y, m, dd) := ord2ymd d in
  zero_pad 4 y ++ lit "-" ++ zero_pad 2 m ++ lit "-" ++ zero_pad 2 dd.

(** *** [boletin_tercera._get_listado_avisos] *)

(** A link of the page of the section: its [href] and
    [a.get_text(strip=True)]. *)
Record Enlace := {
  href : str;
  get_text_strip : str
}.

(** What [requests.get] gives: an exception, or a status code and, from the
    text parsed, the links with an [href], in the order of the page. *)
Inductive respuesta :=
| SinConexion
| Respuesta (status_code : Z) (enlaces : list Enlace).

(** [BASE_URL] of [boletin_tercera.py]. *)
Definition BASE_URL : str := lit "https://www.boletinoficial.gob.ar".

Definition es_aviso (a : Enlace) : bool :=
  contains (lit "/detalleAviso/tercera/") (href a).

Definition aviso_de (fecha : date) (a : Enlace) : BoletinTercera.Aviso :=
  {| BoletinTercera.titulo_listado := join (lit " ") (Texto.split (get_text_strip a));
     BoletinTercera.url :=
       if startswith (lit "http") (href a) then href a else BASE_URL ++ href a;
     BoletinTercera.fecha_edicion := isoformat fecha |}.

(** The loop that drops the entries whose URL was seen. *)
Fixpoint avisos_unicos (vistos : gset str) (avisos : list BoletinTercera.Aviso)
    : list BoletinTercera.Aviso :=
  match avisos with
  | [] => []
  | av :: rest =>
    if bool_decide (BoletinTercera.url av ∈ vistos) then avisos_unicos vistos rest
    else av :: avisos_unicos ({[BoletinTercera.url av]} ∪ vistos) rest
  end.

Definition _get_listado_avisos (fecha : date) (resp : respuesta)
    : list BoletinTercera.Aviso :=
  match resp with
  | SinConexion => []
  | Respuesta status_code enlaces =>
    if negb (status_code =? 200) then []
    else avisos_unicos ∅ (map (aviso_de fecha) (filter (fun a => es_aviso a = true) enlaces))
  end.

(** *** [comprar._parse_simple_pager_links] *)

(** A link of the listing: its [href] and [a.get_text()]. *)
Record Paginador := {
  pager_href : str;
  get_text : str
}.

Section Pager.

(** [c.isdigit()] for one character, and [urljoin]. *)
Variable isdigit : N -> bool.
Variable urljoin : str -> str -> str.

(** [BASE_URL] of [comprar.py]. *)
Definition COMPRAR_BASE_URL : str := lit "https://comprar.gob.ar".

(** [txt.isdigit()]: at least one character, and digits only. *)
Definition str_isdigit (txt : str) : bool :=
  match txt with
  | [] => false
  | _ => forallb isdigit txt
  end.

Definition es_pagina (a : Paginador) : bool :=
  str_isdigit (strip (get_text a)) && contains (lit "Compras.aspx") (pager_href a).

Fixpoint unique_links (seen : gset str) (links : list str) : list str :=
  match links with
  | [] => []
  | u :: rest =>
    if bool_decide (u ∈ seen) then unique_links seen rest
    else u :: unique_links ({[u]} ∪ seen) rest
  end.

Definition _parse_simple_pager_links (anchors : list Paginador) : list str :=
  unique_links ∅
    (map (fun a => urljoin COMPRAR_BASE_URL (pager_href a))
       (filter (fun a => es_pagina a = true) anchors)).

End Pager.

(** *** [comprar._parse_pager_target] *)

(** What [\d] matches. *)
Definition es_digito (c : N) : bool :=
  match Upload.unicode_decimal c with
  | Some _ => true
  | None => false
  end.

(** The longest run of digits at the start of [s], and the text after
    it. *)
Fixpoint digitos (s : str) : str * str :=
  match s with
  | [] => ([], [])
  | c :: r =>
    if es_digito c then
      let '(ds, rest) := digitos r in (c :: ds, rest)
    else ([], s)
  end.

(** The pattern of [_parse_pager_target] at the start of [s]: the name
    [__doPostBack], and between brackets a quoted group of one character or
    more without quotes, a comma, white space, and [Page$] with a number,
    quoted. *)
Definition match_pager (s : str) : option str :=
  match Postback.literal (lit "__doPostBack('") s with
  | None => None
  | Some s1 =>
    match Postback.until_quote s1 with
    | None => None
    | Some ([], _) => None
    | Some (target, s2) =>
      match Postback.literal (lit ",") s2 with
      | None => None
      | Some s3 =>
        match Postback.literal (lit "'Page$") (lstrip s3) with
        | None => None
        | Some s4 =>
          match digitos s4 with
          | ([], _) => None
          | (_, s5) =>
            match Postback.literal (lit "')") s5 with
            | None => None
            | Some _ => Some target
            end
          end
        end
      end
    end
  end.

(** [re.search]: the leftmost match. *)
Fixpoint search_pager (s : str) : option str :=
  match match_pager s with
  | Some target => Some target
  | None =>
    match s with
    | [] => None
    | _ :: r => search_pager r
    end
  end.

(** [hrefs] are the [href]s of the links of the page, in its order. *)
Fixpoint _parse_pager_target (hrefs : list str) : option str :=
  match hrefs with
  | [] => None
  | href :: rest =>
    match search_pager href with
    | Some target => Some target
    | None => _parse_pager_target rest
    end
  end.

(** *** [comprar_bot.obtener_filas_listado] *)

Section Filas.

(** [ch.isalpha()]. *)
Variable isalpha : N -> bool.

(** One [tr] of the body of the grid, given by the texts of its [td] cells
    ([get_text(" ", strip=True)]): the row that it gives, if any. *)
Definition fila_de (cols : list str) : option ComprarBot.Fila :=
  if (length cols <? 4)%nat then None
  else
    let numero := default [] (cols !! 0%nat) in
    if negb (truthy (VStr numero)) then None
    else if negb (existsb isalpha numero) then None
    else
      Some {| ComprarBot.numero_proceso := numero;
              ComprarBot.objeto := cols !! 1%nat;
              ComprarBot.tipo := cols !! 2%nat;
              ComprarBot.fecha_apertura := cols !! 3%nat;
              ComprarBot.estado := cols !! 4%nat;
              ComprarBot.unidad_ejecutora := cols !! 5%nat;
              ComprarBot.saf := cols !! 6%nat |}.

(** [tabla] is [None] when [_find_grid_table] finds no grid, and otherwise
    the rows after the header. *)
Definition obtener_filas_listado (tabla : option (list (list str)))
    : list ComprarBot.Fila :=
  match tabla with
  | None => []
  | Some body_rows => omap fila_de body_rows
  end.

End Filas.

End Listados.

(** ** [proyectos/subir_a_firestore.py]: the upload to Firestore *)

Module Firestore.
Import Py Efectos Upload.

(** A field of a document: a value of the record, or the sentinel
    [SERVER_TIMESTAMP]. *)
Inductive campo :=
| Valor (v : value)
| SERVER_TIMESTAMP.

Abbreviation documento := (gmap str campo).

(** A collection of the database: given the calls of [document(id).set(data)]
    made so far, the last one being the current one, whether the call
    returns or raises. *)
Definition coleccion := list (str * documento) -> reply unit.

Section Subir.
Variable decimal : N -> option N.

Definition preparar_registro_para_firestore (rec : record) : documento :=
  let data : documento := Valor <$> rec in
  let data :=
    match data !! lit "anio" with
    | Some _ => data
    | None =>
      match obtener_anio_desde_fecha decimal (get_value rec (lit "fecha_apertura")) with
      | Some anio => <[lit "anio" := Valor (VInt anio)]> data
      | None => data
      end
    end in
  <[lit "fecha_carga" := SERVER_TIMESTAMP]> data.

(** The identifier of the document of the [idx]-th record. *)
Definition doc_id_de (id_field : str) (idx : Z) (rec : record) : str :=
  let base_id := get_value rec id_field in
  let base_id :=
    match base_id with
    | VNone => VStr (lit "doc_" ++ str_of_Z idx)
    | _ => base_id
    end in
  sanitizar_doc_id base_id.

(** [for idx, rec in enumerate(registros, start=1)], with the calls of [set]
    made so far. *)
Fixpoint for_registros (col_ref : coleccion) (id_field : str)
    (registros : list (Z * record)) (sets : list (str * documento))
    : reply unit * list (str * documento) :=
  match registros with
  | [] => (Reply tt, sets)
  | (idx, rec) :: rest =>
    let doc_id := doc_id_de id_field idx rec in
    let data := preparar_registro_para_firestore rec in
    let sets := sets ++ [(doc_id, data)] in
    match col_ref sets with
    | Throws e => (Throws e, sets)
    | Reply _ => for_registros col_ref id_field rest sets
    end
  end.

Definition subir_registros_a_firestore (db : str -> coleccion)
    (collection_name : str) (registros : list record) (id_field : str)
    : reply unit * list (str * documento) :=
  let col_ref := db collection_name in
  for_registros col_ref id_field (enumerate 1 registros) [].

End Subir.
End Firestore.

(** ** [proyectos/subir_a_bigquery.py]: the rows of the table *)

Module BigQuery.
Import Py Efectos Upload.

Section Filas.
Variable decimal : N -> option N.

(** [Optional[int]] as a value. *)
Definition of_anio (anio : option Z) : value :=
  match anio with Some z => VInt z | None => VNone end.

(** [utcnow_isoformat] is [datetime.utcnow().isoformat()] at the call. *)
Definition preparar_fila (utcnow_isoformat : str) (rec : record) (id_field : str)
    : record :=
  let base_id := or_value (get_value rec id_field) (VStr []) in
  let doc_id := if truthy base_id then VStr (sanitizar_doc_id base_id) else VNone in
  dict_of
    [ (lit "doc_id", doc_id);
      (lit "n", get_value rec (lit "n"));
      (lit "numero_proceso", get_value rec (lit "numero_proceso"));
      (lit "expediente", get_value rec (lit "expediente"));
      (lit "nombre_proceso", get_value rec (lit "nombre_proceso"));
      (lit "tipo_proceso", get_value rec (lit "tipo_proceso"));
      (lit "fecha_apertura", get_value rec (lit "fecha_apertura"));
      (lit "estado", get_value rec (lit "estado"));
      (lit "unidad_ejecutora", get_value rec (lit "unidad_ejecutora"));
      (lit "saf", get_value rec (lit "saf"));
      (lit "detalle_productos_servicios",
       get_value rec (lit "detalle_productos_servicios"));
      (lit "pliego_numero", get_value rec (lit "pliego_numero"));
      (lit "link", get_value rec (lit "link"));
      (lit "origen", get_value rec (lit "origen"));
      (lit "es_tic", get_value rec (lit "es_tic"));
      (lit "anio",
       or_value (get_value rec (lit "anio"))
         (of_anio (obtener_anio_desde_fecha decimal
                     (get_value rec (lit "fecha_apertura")))));
      (lit "fecha_carga", VStr (utcnow_isoformat ++ lit "Z")) ].

End Filas.
End BigQuery.

(** ** [compras_to_bigquery.py]: from the robot to the table *)

Module ComprasToBigQuery.
Import Py Efectos Upload.

(** A cell of the [DataFrame], as [row.get] gives it: a value of the
    records the frame was built from, or the [nan] that pandas puts in the
    place of a missing value.  Which of [None] and [nan] a missing value
    becomes depends on the version of pandas and on the type it infers for
    the column, so a frame is taken as pandas shows it. *)
Inductive celda :=
| Dato (v : value)
| NaN.

(** A row of [df.iterrows()]: the cells by the name of their column. *)
Abbreviation fila := (gmap str celda).

(** [row.get(k)]: [None] for a column that the frame lacks. *)
Definition row_get (row : fila) (k : str) : celda :=
  match row !! k with Some c => c | None => Dato VNone end.

(** Truth value: [nan] is a float other than zero. *)
Definition truthy_celda (c : celda) : bool :=
  match c with Dato v => truthy v | NaN => true end.

Definition or_celda (a b : celda) : celda := if truthy_celda a then a else b.

(** [sanitizar_doc_id(base)]; [str(nan)] is ['nan']. *)
Definition sanitizar_celda (base : celda) : str :=
  match base with
  | Dato v => sanitizar_doc_id v
  | NaN => sanitizar_doc_id (VStr (lit "nan"))
  end.

Section Registros.
Variable decimal : N -> option N.

(** [obtener_anio_desde_fecha(fecha_apertura)]: [nan] is not a [str]. *)
Definition anio_de (fecha_apertura : celda) : option Z :=
  match fecha_apertura with
  | Dato v => obtener_anio_desde_fecha decimal v
  | NaN => None
  end.

(** The row of the table for a row of the [DataFrame] of the robot. *)
Definition registro_de (utcnow_isoformat : str) (row : fila) : fila :=
  let numero_proceso := row_get row (lit "numero_proceso") in
  let doc_id :=
    if truthy_celda numero_proceso then Dato (VStr (sanitizar_celda numero_proceso))
    else Dato VNone in
  let fecha_apertura := row_get row (lit "fecha_apertura") in
  let anio := anio_de fecha_apertura in
  dict_of
    [ (lit "doc_id", doc_id);
      (lit "n", Dato VNone);
      (lit "numero_proceso", numero_proceso);
      (lit "expediente", row_get row (lit "expediente"));
      (lit "nombre_proceso", row_get row (lit "nombre_proceso"));
      (lit "tipo_proceso", row_get row (lit "tipo_proceso"));
      (lit "fecha_apertura", fecha_apertura);
      (lit "estado", row_get row (lit "estado"));
      (lit "unidad_ejecutora", row_get row (lit "unidad_ejecutora"));
      (lit "saf", row_get row (lit "saf"));
      (lit "detalle_productos_servicios", row_get row (lit "detalle_productos"));
      (lit "pliego_numero", row_get row (lit "pliego_nombre"));
      (lit "link",
       or_celda (row_get row (lit "url_detalle")) (row_get row (lit "pliego_url")));
      (lit "origen", Dato (VStr (lit "COMPRAR")));
      (lit "es_tic", Dato (VBool true));
      (lit "anio", Dato (BigQuery.of_anio anio));
      (lit "fecha_carga", Dato (VStr (utcnow_isoformat ++ lit "Z"))) ].

(** [for _, row in df.iterrows()]; [utcnow i] is the clock at the [i]-th
    row. *)
Definition df_a_registros_bigquery (utcnow : nat -> str) (df : list fila)
    : list fila :=
  imap (fun i row => registro_de (utcnow i) row) df.

End Registros.
End ComprasToBigQuery.

(** ** [proyectos/convertir_a_json.py]: the names of the columns *)

Module Convertir.
Import Py Efectos.

Definition rename_map : list (str * str) :=
  [ (lit "N°", lit "n");
    (lit "Nº", lit "n");
    (lit "Número proceso", lit "numero_proceso");
    (lit "Numero proceso", lit "numero_proceso");
    (lit "Expediente", lit "expediente");
    (lit "Nombre proceso", lit "nombre_proceso");
    (lit "Tipo de Proceso", lit "tipo_proceso");
    (lit "Tipo de proceso", lit "tipo_proceso");
    (lit "Fecha de apertura", lit "fecha_apertura");
    (lit "Estado", lit "estado");
    (lit "Unidad Ejecutora", lit "unidad_ejecutora");
    (lit "Servicio Administrativo Financiero", lit "saf");
    (lit "Detalle de productos o servicios", lit "detalle_productos_servicios");
    (lit "Pliego N°", lit "pliego_numero");
    (lit "Pliego No", lit "pliego_numero");
    (lit "LINK", lit "link");
    (lit "BORA/COMPRAR", lit "origen") ].

(** [{col: rename_map[col] for col in df.columns if col in rename_map}]. *)
Definition columnas_presentes (columns : list str) : gmap str str :=
  dict_of (omap (fun col => (fun v => (col, v)) <$> dict_of rename_map !! col) columns).

(** [df.rename(columns=...)], on the names of the columns of [df]. *)
Definition aplicar_modelo_tics (columns : list str) : list str :=
  let columnas_presentes := columnas_presentes columns in
  map (fun col => default col (columnas_presentes !! col)) columns.

End Convertir.

(** ** Scenarios

    Worlds on which the adapters are run: a listing of two pages with 12 and
    3 rows where the detail of row 7 cannot be fetched, a listing with
    simple numbered links, and a gazette over two days. *)

Module Escenario.
Import Py Efectos Fechas.

Definition numero (i : Z) : str := lit "80-0001-LPU25-" ++ str_of_Z i.

Definition enlace (i : Z) : str :=
  lit "https://comprar.gob.ar/PLIEGO/VistaPreviaPliegoCiudadano.aspx?qs="
  ++ str_of_Z i.

Definition row (i : Z) : Comprar.ListRow :=
  {| Comprar.numero_proceso_list := Some (numero i);
     Comprar.nombre_proceso_list := Some (lit "Adquisición de servidores");
     Comprar.tipo_proceso_list := Some (lit "Licitación Pública");
     Comprar.fecha_apertura_list := Some (lit "12/03/2025 10:00 Hrs.");
     Comprar.estado_list := Some (lit "Publicado");
     Comprar.unidad_ejecutora_list := Some (lit "80 - UOC");
     Comprar.saf_list := Some (lit "380");
     Comprar.detalle_url := Some (enlace i) |}.

Definition page (first last : Z) (links : list str) (pager : option str)
    : Comprar.Soup :=
  {| Comprar._parse_total_results := Some 15%N;
     Comprar._extract_list_rows_from_soup := map row (Comprar.range first (last + 1));
     Comprar._parse_simple_pager_links := links;
     Comprar._parse_pager_target := pager;
     Comprar._collect_form_state := {[ lit "__VIEWSTATE" := lit "dDwt" ]} |}.

Definition pager : str := lit "ctl00$CPH1$GridListaPliegosAperturaProxima".

(** Paging by postbacks: 15 results, 12 rows on the first page. *)
Definition page1 : Comprar.Soup := page 1 12 [] (Some pager).
Definition page2 : Comprar.Soup := page 13 15 [] (Some pager).

Definition listado : Comprar.session := fun sent =>
  match sent with
  | [_] => Reply page1
  | _ => Reply page2
  end.

(** Paging by simple links, without a pager target. *)
Definition link2 : str := lit "https://comprar.gob.ar/Compras.aspx?page=2".
Definition page1_links : Comprar.Soup := page 1 12 [link2] None.
Definition page2_links : Comprar.Soup := page 13 15 [] None.

Definition listado_links : Comprar.session := fun sent =>
  match sent with
  | [_] => Reply page1_links
  | _ => Reply page2_links
  end.

Definition detalle (i : Z) : gmap str (option str) :=
  dict_of
    [ (lit "numero_proceso", Some (numero i));
      (lit "expediente", Some (lit "EX-2025-0000" ++ str_of_Z i));
      (lit "nombre_proceso", Some (lit "Adquisición de servidores"));
      (lit "tipo_proceso", Some (lit "Licitación Pública"));
      (lit "fecha_apertura", None);
      (lit "estado", None);
      (lit "unidad_ejecutora", Some (lit "80 - UOC"));
      (lit "saf", Some (lit "380"));
      (lit "detalle_productos", Some (lit "1 | Servidor de rack | 4 unidades"));
      (lit "pliego_nombre", Some (lit "PLIEG-2025-1"));
      (lit "pliego_url", None);
      (lit "url", Some (enlace i)) ].

(** The detail of the seventh row raises; the others are found. *)
Definition web : Comprar.sitio :=
  {| Comprar.listado := listado;
     Comprar.scrape_convocatoria_detail := fun idx _ =>
       if idx =? 7 then Throws ConnectionError else Reply (detalle idx);
     Comprar.fetch_detalle_proceso_via_postback := fun _ _ => Reply None |}.

Definition fila (i : Z) : ComprarBot.Fila :=
  {| ComprarBot.numero_proceso := numero i;
     ComprarBot.objeto := Some (lit "Adquisición de servidores");
     ComprarBot.tipo := Some (lit "Licitación Pública");
     ComprarBot.fecha_apertura := Some (lit "12/03/2025 10:00 Hrs.");
     ComprarBot.estado := Some (lit "Publicado");
     ComprarBot.unidad_ejecutora := Some (lit "80 - UOC");
     ComprarBot.saf := Some (lit "380") |}.

(** The same listing in the browser: 12 rows on page 1, 3 on page 2, and
    the click on the seventh row of page 1 (index 6) raises. *)
Definition chrome : ComprarBot.navegador :=
  {| ComprarBot.crear_driver := Reply tt;
     ComprarBot.ir_a_listado := Reply tt;
     ComprarBot.obtener_filas_listado := fun pagina =>
       if pagina =? 1 then map fila (Comprar.range 1 13)
       else if pagina =? 2 then map fila (Comprar.range 13 16)
       else [];
     ComprarBot.scrapear_detalle_proceso := fun pagina idx _ =>
       if (pagina =? 1) && (idx =? 6) then Throws WebDriverException
       else Reply (Some (detalle (idx + 1 + 12 * (pagina - 1))));
     ComprarBot.ir_a_pagina := fun pagina => pagina <=? 2 |}.

Definition aviso : BoletinTercera.Aviso :=
  {| BoletinTercera.titulo_listado := lit "MINISTERIO DE SALUD";
     BoletinTercera.url :=
       lit "https://www.boletinoficial.gob.ar/detalleAviso/tercera/1";
     BoletinTercera.fecha_edicion := lit "2025-01-02" |}.

(** 2025-01-01 and 2025-01-02 as ordinals. *)
Definition d20250101 : date := 739252.
Definition d20250102 : date := 739253.
Definition d20250131 : date := 739282.

(** A gazette without entries on the first day and with one entry, whose
    page cannot be parsed, on the second. *)
Definition gaceta : BoletinTercera.boletin :=
  {| BoletinTercera._get_listado_avisos := fun fecha =>
       if fecha =? d20250102 then [aviso] else [];
     BoletinTercera._parse_aviso := fun _ _ _ => Throws HTTPError |}.

(** A gazette with one entry, which is parsed, each day. *)
Definition gaceta_diaria : BoletinTercera.boletin :=
  {| BoletinTercera._get_listado_avisos := fun _ => [aviso];
     BoletinTercera._parse_aviso := fun _ _ _ =>
       Reply (dict_of [ (lit "organismo", Some (lit "MINISTERIO DE SALUD"));
                        (lit "proceso", Some (lit "Licitación Pública 1/2025")) ]) |}.

Definition mundo : Scrapers.mundo :=
  {| Scrapers.runtime := latin1_python;
     Scrapers.gaceta := gaceta_diaria;
     Scrapers.comprar := web;
     Scrapers.chrome := chrome;
     Scrapers.fuel := 1 |}.



(** A gazette without entries. *)
Definition gaceta_vacia : BoletinTercera.boletin :=
  {| BoletinTercera._get_listado_avisos := fun _ => [];
     BoletinTercera._parse_aviso := fun _ _ _ => Throws HTTPError |}.

Definition mundo_vacio : Scrapers.mundo :=
  {| Scrapers.runtime := latin1_python;
     Scrapers.gaceta := gaceta_vacia;
     Scrapers.comprar := web;
     Scrapers.chrome := chrome;
     Scrapers.fuel := 1 |}.





End Escenario.

(* ===================================================================== *)
(** * Part II: properties                                                 *)
(* ===================================================================== *)

Import Py.

(** ** Strings *)

Section StrFacts.

Lemma lstrip_no_space (s : str) :
  Forall (fun c => isspace c = false) s -> lstrip s = s.
Proof.
  destruct s as [|c r]; [reflexivity|].
  intros H. inversion H as [|? ? Hc _]; subst. simpl. now rewrite Hc.
Qed.

Lemma strip_no_space (s : str) :
  Forall (fun c => isspace c = false) s -> strip s = s.
Proof.
  intros H. unfold strip, rstrip. rewrite (lstrip_no_space s H).
  rewrite lstrip_no_space.
  - apply rev_involutive.
  - apply Forall_rev. exact H.
Qed.

Lemma replace_absent (a b : N) (s : str) :
  Forall (fun c => c <> a) s -> replace a b s = s.
Proof.
  induction 1 as [|c r Hc _ IH]; [reflexivity|].
  unfold replace in *. simpl. rewrite IH.
  destruct (N.eqb_spec c a); congruence.
Qed.

Lemma replace_Forall (a b : N) (P : N -> Prop) (s : str) :
  P b -> Forall P s -> Forall P (replace a b s).
Proof.
  intros Hb. induction 1 as [|c r Hc _ IH]; [constructor|].
  unfold replace in *. simpl. constructor; [|exact IH].
  destruct (c =? a)%N; assumption.
Qed.

Lemma replace_removes (a b : N) (s : str) :
  b <> a -> Forall (fun c => c <> a) (replace a b s).
Proof.
  intros Hb. induction s as [|c r IH]; [constructor|].
  unfold replace in *. simpl. constructor; [|exact IH].
  destruct (N.eqb_spec c a); congruence.
Qed.

Lemma sub_spaces_no_space (rep : str) (b : bool) (s : str) :
  Forall (fun c => isspace c = false) s -> sub_spaces rep b s = s.
Proof.
  intros H. revert b. induction H as [|c r Hc _ IH]; intros b; [reflexivity|].
  simpl. rewrite Hc. now rewrite IH.
Qed.

Lemma sub_spaces_Forall (P : N -> Prop) (rep : str) (b : bool) (s : str) :
  Forall P rep ->
  Forall P s ->
  Forall (fun c => P c /\ isspace c = false) rep ->
  Forall (fun c => P c /\ isspace c = false) (sub_spaces rep b s).
Proof.
  intros Hrep Hs Hrep'. revert b.
  induction Hs as [|c r Hc _ IH]; intros b; [constructor|].
  simpl. destruct (isspace c) eqn:E.
  - destruct b; [apply IH|]. apply Forall_app. split; [exact Hrep'|apply IH].
  - constructor; [auto|apply IH].
Qed.

Lemma startswith_spec (needle hay : str) :
  startswith needle hay = true <-> exists post, hay = needle ++ post.
Proof.
  revert hay. induction needle as [|a n IH]; intros hay; simpl.
  - split; [intros _; now exists hay|reflexivity].
  - destruct hay as [|b h].
    + split; [discriminate|]. intros [post Hp]. discriminate.
    + rewrite andb_true_iff, N.eqb_eq, IH. split.
      * intros [-> [post ->]]. now exists post.
      * intros [post Hp]. injection Hp as -> ->. split; [reflexivity|now exists post].
Qed.

(** [contains] decides the substring relation. *)
Lemma contains_spec (needle hay : str) :
  contains needle hay = true <-> exists pre post, hay = pre ++ needle ++ post.
Proof.
  induction hay as [|b h IH].
  - simpl. rewrite orb_false_r, startswith_spec. split.
    + intros [post Hp]. now exists [], post.
    + intros [pre [post Hp]]. destruct pre; [now exists post|discriminate].
  - change (contains needle (b :: h))
      with (startswith needle (b :: h) || contains needle h).
    rewrite orb_true_iff, startswith_spec, IH. split.
    + intros [[post Hp]|[pre [post Hp]]].
      * now exists [], post.
      * exists (b :: pre), post. now rewrite Hp.
    + intros [pre [post Hp]]. destruct pre as [|x pre].
      * left. now exists post.
      * right. injection Hp as -> ->. now exists pre, post.
Qed.

End StrFacts.

(** ** C4: [sanitizar_doc_id] *)

Section Sanitizar.
Import Upload.

Definition clean_char (c : N) : Prop :=
  c <> slash /\ c <> backslash /\ isspace c = false.

Lemma sanitizar_clean (base : value) :
  Forall clean_char (sanitizar_doc_id base).
Proof.
  unfold sanitizar_doc_id.
  set (s := strip (str_of base)).
  assert (H1 : Forall (fun c => c <> slash /\ c <> backslash)
                 (replace backslash hyphen (replace slash hyphen s))).
  { apply Forall_and. split.
    - apply replace_Forall; [discriminate|]. apply replace_removes. discriminate.
    - apply replace_removes. discriminate. }
  unfold re_sub_spaces.
  eapply Forall_impl;
    [apply (sub_spaces_Forall (fun c => c <> slash /\ c <> backslash))|].
  - repeat constructor; discriminate.
  - exact H1.
  - repeat constructor; discriminate.
  - intros c [[? ?] ?]. now repeat split.
Qed.

Lemma sanitizar_fixpoint (s : str) :
  Forall clean_char s -> sanitizar_doc_id (VStr s) = s.
Proof.
  intros H. unfold sanitizar_doc_id. simpl str_of.
  assert (Hs : Forall (fun c => isspace c = false) s)
    by (eapply Forall_impl; [exact H|]; intros c (_ & _ & Hc); exact Hc).
  rewrite (strip_no_space s Hs).
  rewrite (replace_absent slash).
  2:{ eapply Forall_impl; [exact H|]. intros c (Hc & _ & _). exact Hc. }
  rewrite (replace_absent backslash).
  2:{ eapply Forall_impl; [exact H|]. intros c (_ & Hc & _). exact Hc. }
  apply sub_spaces_no_space. exact Hs.
Qed.

(** C4. For every string, the sanitized identifier holds no slash, no
    backslash and no white space; sanitizing is idempotent; and
    ["14/1-0026 LPR25"] becomes ["14-1-0026_LPR25"]. *)
Theorem sanitizar_doc_id_spec :
  (forall (s : str) (c : N),
      In c (sanitizar_doc_id (VStr s)) ->
      c <> slash /\ c <> backslash /\ isspace c = false) /\
  (forall s : str,
      sanitizar_doc_id (VStr (sanitizar_doc_id (VStr s))) = sanitizar_doc_id (VStr s)) /\
  sanitizar_doc_id (VStr (lit "14/1-0026 LPR25")) = lit "14-1-0026_LPR25".
Proof.
  split; [|split].
  - intros s c Hc.
    exact (proj1 (List.Forall_forall _ _) (sanitizar_clean (VStr s)) c Hc).
  - intros s. apply sanitizar_fixpoint, sanitizar_clean.
  - reflexivity.
Qed.

End Sanitizar.

(** ** C7: [obtener_anio_desde_fecha] *)

Section Anio.
Import Upload.
Variable decimal : N -> option N.

(** Four decimal digits, of values [ds], stand at position [i] of [s]. *)
Definition digit_run (s : str) (i : nat) (ds : N * N * N * N) : Prop :=
  exists c1 c2 c3 c4 post,
    drop i s = c1 :: c2 :: c3 :: c4 :: post /\
    (decimal c1, decimal c2, decimal c3, decimal c4)
    = (Some ds.1.1.1, Some ds.1.1.2, Some ds.1.2, Some ds.2).

(** What [int] reads from four digits. *)
Definition int_of_digits (ds : N * N * N * N) : Z :=
  Z.of_N (ds.1.1.1 * 1000 + ds.1.1.2 * 100 + ds.1.2 * 10 + ds.2).

Lemma digit_run_cons (c : N) (s : str) (i : nat) ds :
  digit_run (c :: s) (S i) ds <-> digit_run s i ds.
Proof.
  unfold digit_run. simpl. reflexivity.
Qed.

Lemma digit_run_here (s : str) ds :
  digit_run s 0 ds ->
  exists c1 c2 c3 c4 post, s = c1 :: c2 :: c3 :: c4 :: post /\
    decimal c1 = Some ds.1.1.1 /\ decimal c2 = Some ds.1.1.2 /\
    decimal c3 = Some ds.1.2 /\ decimal c4 = Some ds.2.
Proof.
  intros (c1 & c2 & c3 & c4 & post & H1 & H3). simpl in H1.
  exists c1, c2, c3, c4, post. injection H3 as -> -> -> ->. now repeat split.
Qed.

Lemma search_4_digits_spec (s : str) :
  match search_4_digits decimal s with
  | None => forall i ds, ~ digit_run s i ds
  | Some ds =>
    exists i, digit_run s i ds /\ forall j ds', (j < i)%nat -> ~ digit_run s j ds'
  end.
Proof.
  induction s as [|c r IH].
  - simpl. intros i ds (c1 & c2 & c3 & c4 & post & H1 & _).
    rewrite drop_nil in H1. discriminate.
  - assert (Hskip : (forall ds, ~ digit_run (c :: r) 0 ds) ->
        match search_4_digits decimal r with
        | None => forall i ds, ~ digit_run (c :: r) i ds
        | Some ds => exists i, digit_run (c :: r) i ds /\
            forall j ds', (j < i)%nat -> ~ digit_run (c :: r) j ds'
        end).
    { intros H0. destruct (search_4_digits decimal r) as [ds|].
      - destruct IH as (i & Hi & Hmin). exists (S i). split.
        + now apply digit_run_cons.
        + intros [|j] ds' Hj; [apply H0|].
          rewrite digit_run_cons. apply Hmin. lia.
      - intros [|i] ds; [apply H0|]. rewrite digit_run_cons. apply IH. }
    simpl.
    destruct (decimal c) as [d1|] eqn:E1.
    2:{ apply Hskip. intros ds H. apply digit_run_here in H.
        destruct H as (c1 & ? & ? & ? & ? & Heq & H1 & _).
        injection Heq as -> _. congruence. }
    destruct r as [|c2 [|c3 [|c4 post]]].
    1-3: apply Hskip; intros ds H; apply digit_run_here in H;
         destruct H as (? & ? & ? & ? & ? & Heq & _); discriminate.
    destruct (decimal c2) as [d2|] eqn:E2.
    2:{ apply Hskip. intros ds H. apply digit_run_here in H.
        destruct H as (? & ? & ? & ? & ? & Heq & _ & H2 & _).
        injection Heq as _ -> _. congruence. }
    destruct (decimal c3) as [d3|] eqn:E3.
    2:{ apply Hskip. intros ds H. apply digit_run_here in H.
        destruct H as (? & ? & ? & ? & ? & Heq & _ & _ & H3 & _).
        injection Heq as _ _ -> _. congruence. }
    destruct (decimal c4) as [d4|] eqn:E4.
    2:{ apply Hskip. intros ds H. apply digit_run_here in H.
        destruct H as (? & ? & ? & ? & ? & Heq & _ & _ & _ & H4).
        injection Heq as _ _ _ -> _. congruence. }
    exists 0%nat. split.
    + exists c, c2, c3, c4, post. simpl. rewrite E1, E2, E3, E4.
      now split.
    + intros j ds' Hj. lia.
Qed.

Lemma digit_run_functional (s : str) (i : nat) ds ds' :
  digit_run s i ds -> digit_run s i ds' -> ds = ds'.
Proof.
  intros (c1 & c2 & c3 & c4 & post & H1 & H3)
         (c1' & c2' & c3' & c4' & post' & H1' & H3').
  rewrite H1 in H1'. injection H1' as <- <- <- <- _.
  rewrite H3 in H3'. destruct ds as [[[? ?] ?] ?], ds' as [[[? ?] ?] ?].
  simpl in H3'. congruence.
Qed.

(** C7. The year is absent for every input that is not a string and for
    every string without four consecutive decimal digits; otherwise it is
    the integer that the first run of four digits denotes.  No case
    raises: the function is total. *)
Theorem obtener_anio_desde_fecha_spec :
  (forall v : value,
      (forall s, v <> VStr s) -> obtener_anio_desde_fecha decimal v = None) /\
  (forall s : str,
      (forall i ds, ~ digit_run s i ds) ->
      obtener_anio_desde_fecha decimal (VStr s) = None) /\
  (forall (s : str) (i : nat) ds,
      digit_run s i ds ->
      (forall j ds', (j < i)%nat -> ~ digit_run s j ds') ->
      obtener_anio_desde_fecha decimal (VStr s) = Some (int_of_digits ds)).
Proof.
  split; [|split].
  - intros [| | |s] H; try reflexivity. now destruct (H s).
  - intros s H. simpl. pose proof (search_4_digits_spec s) as Hs.
    destruct (search_4_digits decimal s) as [ds|]; [|reflexivity].
    destruct Hs as (i & Hi & _). now destruct (H i ds).
  - intros s i ds Hi Hmin. simpl. pose proof (search_4_digits_spec s) as Hs.
    destruct (search_4_digits decimal s) as [ds'|].
    + destruct Hs as (i' & Hi' & Hmin').
      assert (i' = i) as ->.
      { destruct (lt_eq_lt_dec i' i) as [[Hlt|Heq]|Hlt]; [|exact Heq|].
        - now destruct (Hmin i' ds' Hlt).
        - now destruct (Hmin' i ds Hlt). }
      rewrite (digit_run_functional s i ds ds' Hi Hi').
      destruct ds' as [[[d1 d2] d3] d4]. reflexivity.
    + now destruct (Hs i ds).
Qed.

End Anio.

(** The opening date ["12/03/2025 10:00 Hrs."] gives 2025; a date without a
    year and a non-string give nothing. *)
Lemma obtener_anio_desde_fecha_witness :
  Upload.obtener_anio_desde_fecha Upload.unicode_decimal (VInt 2025) = None /\
  Upload.obtener_anio_desde_fecha Upload.unicode_decimal (VStr (lit "12/03")) = None /\
  Upload.obtener_anio_desde_fecha Upload.unicode_decimal
    (VStr (lit "12/03/2025 10:00 Hrs.")) = Some 2025.
Proof.
  pose proof (obtener_anio_desde_fecha_spec Upload.unicode_decimal) as (H1 & H2 & H3).
  split; [|split].
  - apply H1. intros s. discriminate.
  - apply H2. intros i ds (c1 & c2 & c3 & c4 & post & Hd & He).
    destruct i as [|[|[|[|[|[|i]]]]]]; vm_compute in Hd; try discriminate Hd;
      injection Hd as <- <- <- <- _; vm_compute in He; discriminate He.
  - apply (H3 _ 6%nat (2, 0, 2, 5)%N).
    + exists 50%N, 48%N, 50%N, 53%N, (lit " 10:00 Hrs."). now split.
    + intros j ds' Hj (c1 & c2 & c3 & c4 & post & Hd & He).
      destruct j as [|[|[|[|[|[|j]]]]]]; [..|lia]; vm_compute in Hd;
        injection Hd as <- <- <- <- _; vm_compute in He; discriminate He.
Defined.


(** ** C5: [es_tic] *)

Section EsTic.
Import Clasificacion.
Variable normalize_NFD : str -> str.
Variable combining : N -> N.
Variable lower : str -> str.

(** The normal form under which texts and keywords are compared. *)
Definition normal_form (s : str) : str :=
  lower (_strip_accents normalize_NFD combining s).

Definition keyword_in (kws : list str) (txt : str) : Prop :=
  exists kw pre post,
    In kw kws /\ (2 < length (normal_form kw))%nat /\
    txt = pre ++ normal_form kw ++ post.

Lemma es_tic_keywords_spec (txt : str) (kws : list str) :
  es_tic_keywords normalize_NFD combining lower txt kws = true
  <-> keyword_in kws txt.
Proof.
  induction kws as [|kw rest IH].
  - simpl. split; [discriminate|]. intros (? & ? & ? & [] & _).
  - simpl. fold (normal_form kw).
    destruct (Nat.leb_spec (length (normal_form kw)) 2) as [Hle|Hgt].
    + rewrite IH. split.
      * intros (k & pre & post & Hin & Hlen & Heq).
        exists k, pre, post. split; [now right|now split].
      * intros (k & pre & post & [<-|Hin] & Hlen & Heq); [lia|].
        now exists k, pre, post.
    + destruct (contains (normal_form kw) txt) eqn:E.
      * split; [intros _|reflexivity].
        apply contains_spec in E. destruct E as (pre & post & ->).
        exists kw, pre, post. split; [now left|now split].
      * rewrite IH. split.
        -- intros (k & pre & post & Hin & Hlen & Heq).
           exists k, pre, post. split; [now right|now split].
        -- intros (k & pre & post & [<-|Hin] & Hlen & Heq).
           ++ assert (contains (normal_form kw) txt = true) as Hc
                by (apply contains_spec; now exists pre, post).
              congruence.
           ++ now exists k, pre, post.
Qed.

Lemma keyword_in_empty (kws : list str) : ~ keyword_in kws [].
Proof.
  intros (kw & pre & post & _ & Hlen & Heq).
  symmetry in Heq. apply app_eq_nil in Heq as [_ Heq].
  apply app_eq_nil in Heq as [Heq _]. rewrite Heq in Hlen. simpl in Hlen. lia.
Qed.

Lemma es_tic_iff (s : str) :
  lower [] = [] ->
  es_tic normalize_NFD combining lower (Some s) = true
  <-> keyword_in TIC_KEYWORDS (normal_form s).
Proof.
  intros Hlow. destruct s as [|c r].
  - simpl. unfold normal_form. simpl. rewrite Hlow. split; [discriminate|].
    intros H. now apply keyword_in_empty in H.
  - unfold es_tic. apply es_tic_keywords_spec.
Qed.

End EsTic.

(** C5. [es_tic] answers true exactly when some keyword of [TIC_KEYWORDS]
    whose normal form (accents stripped, lower case) has more than two
    characters is a substring of the normal form of the text; texts with the
    same normal form get the same answer, so the match ignores case and
    accents; [None] and the empty text give false; the text about notebooks
    is classified and the one about paper is not. *)
Theorem es_tic_spec :
  (forall normalize_NFD combining lower,
      lower [] = [] ->
      (forall s : str,
          Clasificacion.es_tic normalize_NFD combining lower (Some s) = true
          <-> keyword_in normalize_NFD combining lower
                Clasificacion.TIC_KEYWORDS
                (normal_form normalize_NFD combining lower s)) /\
      (forall s1 s2 : str,
          normal_form normalize_NFD combining lower s1
          = normal_form normalize_NFD combining lower s2 ->
          Clasificacion.es_tic normalize_NFD combining lower (Some s1)
          = Clasificacion.es_tic normalize_NFD combining lower (Some s2)) /\
      Clasificacion.es_tic normalize_NFD combining lower None = false /\
      Clasificacion.es_tic normalize_NFD combining lower (Some []) = false) /\
  Clasificacion.es_tic_latin1
    (Some (lit "Provisión de NOTEBOOKS para oficinas")) = true /\
  Clasificacion.es_tic_latin1 (Some (lit "Compra de resmas de papel")) = false.
Proof.
  split; [|split; vm_compute; reflexivity].
  intros nfd comb low Hlow. split; [|split; [|split; reflexivity]].
  - intros s. now apply es_tic_iff.
  - intros s1 s2 Heq.
    pose proof (es_tic_iff nfd comb low s1 Hlow) as H1.
    pose proof (es_tic_iff nfd comb low s2 Hlow) as H2.
    rewrite Heq in H1.
    destruct (Clasificacion.es_tic nfd comb low (Some s1)),
             (Clasificacion.es_tic nfd comb low (Some s2)); try reflexivity.
    + symmetry. apply H2, H1. reflexivity.
    + apply H1, H2. reflexivity.
Qed.

(** With the Latin-1 tables: upper case and accents do not change the
    answer for ["Servidor"]. *)
Lemma es_tic_witness :
  Clasificacion.es_tic_latin1 (Some (lit "SERVIDÓR"))
  = Clasificacion.es_tic_latin1 (Some (lit "servidor")) /\
  (Clasificacion.es_tic_latin1 (Some (lit "SERVIDÓR")) = true
   <-> keyword_in Clasificacion.latin1_NFD Clasificacion.latin1_combining
         Clasificacion.latin1_lower Clasificacion.TIC_KEYWORDS (lit "servidor")).
Proof.
  pose proof (proj1 es_tic_spec Clasificacion.latin1_NFD
                Clasificacion.latin1_combining Clasificacion.latin1_lower
                eq_refl) as (H1 & H2 & _).
  split.
  - apply H2. vm_compute. reflexivity.
  - exact (H1 (lit "SERVIDÓR")).
Defined.

(** ** C8: [_iter_compras_pages] *)

Section IterPages.
Import Efectos Comprar.

Lemma total_pages_ceiling (n : N) (page_size : Z) :
  0 < page_size ->
  exists count,
    total_pages_of (Some n) page_size = Some count /\
    count = (Z.of_N n + page_size - 1) / page_size /\
    (count - 1) * page_size < Z.of_N n <= count * page_size.
Proof.
  intros Hp. exists ((Z.of_N n + page_size - 1) / page_size).
  unfold total_pages_of.
  destruct (Z.eqb_spec page_size 0) as [->|_]; [lia|].
  split; [reflexivity|]. split; [reflexivity|].
  pose proof (Z.div_mod (Z.of_N n + page_size - 1) page_size ltac:(lia)) as Hdm.
  pose proof (Z.mod_pos_bound (Z.of_N n + page_size - 1) page_size Hp) as Hm.
  nia.
Qed.

Lemma range_nil (a b : Z) : b <= a -> range a b = [].
Proof.
  intros H. unfold range. replace (Z.to_nat (b - a)) with 0%nat by lia. reflexivity.
Qed.

Lemma range_cons (a b : Z) : a < b -> range a b = a :: range (a + 1) b.
Proof.
  intros H. unfold range.
  replace (Z.to_nat (b - a)) with (S (Z.to_nat (b - (a + 1)))) by lia.
  simpl. f_equal; [lia|].
  rewrite <- seq_shift, map_map. apply map_ext. intros i. lia.
Qed.

(** The pages that the loop asks for: those before the first one beyond
    [max_pages]. *)
Fixpoint within (max_pages : option Z) (pages : list Z) : list Z :=
  match pages with
  | [] => []
  | page :: rest =>
    if beyond max_pages page then [] else page :: within max_pages rest
  end.

Lemma within_range (max_pages : option Z) (k : nat) (a b : Z) :
  Z.to_nat (b - a) = k ->
  within max_pages (range a b)
  = range a (match max_pages with Some m => Z.min (b - 1) m | None => b - 1 end + 1).
Proof.
  revert a. induction k as [|k IH]; intros a Hk.
  - rewrite (range_nil a b) by lia. simpl. rewrite range_nil; [reflexivity|].
    destruct max_pages; lia.
  - rewrite (range_cons a b) by lia. simpl.
    destruct max_pages as [m|]; simpl.
    + destruct (Z.ltb_spec m a).
      * rewrite range_nil; [reflexivity|lia].
      * rewrite (range_cons a (Z.min (b - 1) m + 1)) by lia. f_equal.
        apply (IH (a + 1)). lia.
    + rewrite (range_cons a (b - 1 + 1)) by lia. f_equal.
      apply (IH (a + 1)). lia.
Qed.

(** Request [r] is the postback that asks the pager [target] for [page]. *)
Definition asks_page (target : Py.str) (page : Z) (r : request) : Prop :=
  exists data,
    r = POST COMPRAS_LIST_URL data /\
    data !! lit "__EVENTTARGET" = Some target /\
    data !! lit "__EVENTARGUMENT" = Some (lit "Page$" ++ str_of_Z page).

Lemma postback_form_asks (current_soup : Soup) (target : Py.str) (page : Z) :
  asks_page target page (POST COMPRAS_LIST_URL (postback_form current_soup target page)).
Proof.
  eexists. split; [reflexivity|]. unfold postback_form. split.
  - rewrite lookup_insert_ne.
    + apply lookup_insert_eq.
    + intros H. vm_compute in H. discriminate H.
  - apply lookup_insert_eq.
Qed.

Lemma postback_loop_spec (ses : session) (max_pages : option Z) (target : Py.str)
    (pages : list Z) (current_soup : Soup) (soups : list Soup) (sent : list request) :
  (forall h, exists sp, ses h = Reply sp) ->
  exists more reqs,
    postback_loop ses max_pages target pages current_soup soups sent
    = (Reply (soups ++ more), sent ++ reqs) /\
    length more = length reqs /\
    Forall2 (asks_page target) (within max_pages pages) reqs.
Proof.
  intros Hok. revert current_soup soups sent.
  induction pages as [|page rest IH]; intros current_soup soups sent; simpl.
  - exists [], []. rewrite !app_nil_r. repeat split. constructor.
  - destruct (beyond max_pages page).
    + exists [], []. rewrite !app_nil_r. repeat split. constructor.
    + destruct (Hok (sent ++ [POST COMPRAS_LIST_URL
                                 (postback_form current_soup target page)]))
        as [sp Hsp].
      rewrite Hsp.
      destruct (IH sp (soups ++ [sp])
                  (sent ++ [POST COMPRAS_LIST_URL
                              (postback_form current_soup target page)]))
        as (more & reqs & Heq & Hlen & Hall).
      exists (sp :: more),
        (POST COMPRAS_LIST_URL (postback_form current_soup target page) :: reqs).
      rewrite Heq, <- !app_assoc. simpl. repeat split.
      * now rewrite Hlen.
      * constructor; [apply postback_form_asks|exact Hall].
Qed.

(** C8, as the code has it.  When page 1 shows no simple numbered links, a
    total of [n] results and [P > 0] rows: the expected number of pages is
    the ceiling of [n / P], computed as [(n + P - 1) // P]; without a pager
    target, or with at most one expected page, only page 1 is returned and
    nothing else is requested; otherwise, on a site that answers, pages 2
    to the expected count are requested in order by postbacks to the pager
    target, each giving one more page, and the walk stops before the first
    page beyond [max_pages]. *)
Theorem iter_compras_pages_spec (ses : session) (max_pages : option Z)
    (soup : Soup) (n : N) :
  ses [GET COMPRAS_LIST_URL] = Reply soup ->
  _parse_total_results soup = Some n ->
  _extract_list_rows_from_soup soup <> [] ->
  _parse_simple_pager_links soup = [] ->
  let page_size := Z.of_nat (length (_extract_list_rows_from_soup soup)) in
  let count := (Z.of_N n + page_size - 1) / page_size in
  (count - 1) * page_size < Z.of_N n <= count * page_size /\
  (_parse_pager_target soup = None \/ _parse_pager_target soup = Some []
   \/ count <= 1 ->
   _iter_compras_pages ses max_pages = (Reply [soup], [GET COMPRAS_LIST_URL])) /\
  (forall target,
      _parse_pager_target soup = Some target -> target <> [] -> 1 < count ->
      (forall h, exists sp, ses h = Reply sp) ->
      let last := match max_pages with Some m => Z.min count m | None => count end in
      exists more reqs,
        _iter_compras_pages ses max_pages
        = (Reply (soup :: more), GET COMPRAS_LIST_URL :: reqs) /\
        length more = length reqs /\
        Forall2 (asks_page target) (range 2 (last + 1)) reqs).
Proof.
  intros Hget Hn Hrows Hlinks page_size count.
  assert (Hp : 0 < page_size).
  { subst page_size. destruct (_extract_list_rows_from_soup soup); [congruence|].
    simpl. lia. }
  destruct (total_pages_ceiling n page_size Hp) as (c & Htp & Hc & Hceil).
  fold count in Hc. subst c.
  split; [exact Hceil|]. split.
  - intros Hcase. unfold _iter_compras_pages. rewrite Hget, Hlinks.
    fold page_size. rewrite Hn, Htp.
    destruct (_parse_pager_target soup) as [t|] eqn:Ht; [|reflexivity].
    destruct Hcase as [Hc|[Hc|Hc]]; [discriminate Hc| |].
    + injection Hc as ->. reflexivity.
    + destruct (negb (Py.truthy (VStr t))); [reflexivity|]. simpl.
      destruct (Z.eqb_spec count 0); [reflexivity|].
      destruct (Z.leb_spec count 1); [reflexivity|lia].
  - intros target Ht Hne Hcount Hok last.
    unfold _iter_compras_pages. rewrite Hget, Hlinks.
    fold page_size. rewrite Hn, Htp, Ht.
    assert (negb (Py.truthy (VStr target)) = false) as ->
      by (destruct target; [congruence|reflexivity]).
    destruct (Z.eqb_spec count 0); [lia|].
    destruct (Z.leb_spec count 1); [lia|]. simpl.
    destruct (postback_loop_spec ses max_pages target (range 2 (count + 1)) soup
                [soup] [GET COMPRAS_LIST_URL] Hok) as (more & reqs & Heq & Hlen & Hall).
    exists more, reqs. split; [exact Heq|]. split; [exact Hlen|].
    rewrite (within_range max_pages (Z.to_nat (count + 1 - 2))) in Hall
      by reflexivity.
    replace (count + 1 - 1) with count in Hall by lia. exact Hall.
Qed.

End IterPages.

(** ** Floats *)

Section FloatFacts.

(** What the properties ask of the rounding: it is monotone, and the
    integers up to [2^53] are floats. *)
Definition rounds_well (round : Q -> Q) : Prop :=
  (forall x y, (x <= y)%Q -> (round x <= round y)%Q) /\
  (forall z, 0 <= z <= 2 ^ 53 -> (round (inject_Z z) == inject_Z z)%Q).

Lemma exact_rounds_well : rounds_well Float.exact.
Proof.
  split.
  - intros x y H. exact H.
  - intros z _. unfold Float.exact. reflexivity.
Qed.

Lemma inject_Z_nonneg (z : Z) : 0 <= z -> (0 <= inject_Z z)%Q.
Proof. intros H. unfold Qle. simpl. lia. Qed.

Lemma inject_Z_pos (z : Z) : 0 < z -> (0 < inject_Z z)%Q.
Proof. intros H. unfold Qlt. simpl. lia. Qed.

Lemma to_int_floor (x : Q) : (0 <= x)%Q -> Float.to_int x = Qfloor x.
Proof.
  destruct x as [a b]. unfold Float.to_int, Qfloor, Qle. simpl. intros H.
  apply Z.quot_div_nonneg; lia.
Qed.

Lemma to_int_mono (x y : Q) :
  (0 <= x)%Q -> (x <= y)%Q -> Float.to_int x <= Float.to_int y.
Proof.
  intros Hx Hxy. rewrite !to_int_floor.
  - now apply Qfloor_resp_le.
  - now apply Qle_trans with x.
  - exact Hx.
Qed.

Lemma to_int_inject (z : Z) (x : Q) :
  0 <= z -> (x == inject_Z z)%Q -> Float.to_int x = z.
Proof.
  intros Hz Hx. rewrite to_int_floor.
  - rewrite (Qfloor_comp _ _ Hx). apply Qfloor_Z.
  - rewrite Hx. now apply inject_Z_nonneg.
Qed.

Variable round : Q -> Q.
Hypothesis Hround : rounds_well round.

Lemma round_mono (x y : Q) : (x <= y)%Q -> (round x <= round y)%Q.
Proof. apply Hround. Qed.

Lemma round_int (z : Z) : 0 <= z <= 2 ^ 53 -> (round (inject_Z z) == inject_Z z)%Q.
Proof. apply Hround. Qed.

Lemma round_ge_int (z : Z) (x : Q) :
  0 <= z <= 2 ^ 53 -> (inject_Z z <= x)%Q -> (inject_Z z <= round x)%Q.
Proof.
  intros Hz Hx. rewrite <- (round_int z Hz). now apply round_mono.
Qed.

Lemma round_le_int (z : Z) (x : Q) :
  0 <= z <= 2 ^ 53 -> (x <= inject_Z z)%Q -> (round x <= inject_Z z)%Q.
Proof.
  intros Hz Hx. rewrite <- (round_int z Hz). now apply round_mono.
Qed.

Lemma Qdiv_int_nonneg (a b : Z) : 0 <= a -> 0 < b -> (0 <= inject_Z a / inject_Z b)%Q.
Proof.
  intros Ha Hb. apply Qle_shift_div_l.
  - now apply inject_Z_pos.
  - rewrite Qmult_0_l. now apply inject_Z_nonneg.
Qed.

Lemma Qdiv_int_mono (a a' b : Z) :
  a <= a' -> 0 < b -> (inject_Z a / inject_Z b <= inject_Z a' / inject_Z b)%Q.
Proof.
  intros Ha Hb. unfold Qdiv. apply Qmult_le_compat_r.
  - now rewrite <- Zle_Qle.
  - apply Qinv_le_0_compat. apply inject_Z_nonneg. lia.
Qed.

Lemma Qdiv_int_le (a b c : Z) :
  a <= c * b -> 0 < b -> (inject_Z a / inject_Z b <= inject_Z c)%Q.
Proof.
  intros Ha Hb. apply Qle_shift_div_r.
  - now apply inject_Z_pos.
  - rewrite <- inject_Z_mult. now rewrite <- Zle_Qle.
Qed.

(** The percentage that [scrape_comprar_tics] reports after row [idx] of
    [total]. *)
Definition progress_at (total idx : Z) : Z :=
  Float.to_int (Float.truediv round (idx * 100) total).

Lemma progress_at_mono (total i j : Z) :
  0 < total -> 0 <= i <= j -> progress_at total i <= progress_at total j.
Proof.
  intros Ht Hij. unfold progress_at, Float.truediv. apply to_int_mono.
  - apply (round_ge_int 0); [lia|]. apply Qdiv_int_nonneg; lia.
  - apply round_mono. apply Qdiv_int_mono; lia.
Qed.

Lemma progress_at_bounds (total i : Z) :
  0 < total -> 0 <= i <= total -> 0 <= progress_at total i <= 100.
Proof.
  intros Ht Hi. unfold progress_at, Float.truediv.
  assert (H0 : (inject_Z 0 <= round (inject_Z (i * 100) / inject_Z total))%Q).
  { apply (round_ge_int 0); [lia|]. apply Qdiv_int_nonneg; lia. }
  split.
  - rewrite <- (to_int_inject 0 (inject_Z 0)) by (lia || reflexivity).
    apply to_int_mono; [apply Qle_refl|exact H0].
  - rewrite <- (to_int_inject 100 (inject_Z 100)) at 2 by (lia || reflexivity).
    apply to_int_mono; [exact H0|].
    apply (round_le_int 100); [lia|]. apply Qdiv_int_le; lia.
Qed.

End FloatFacts.

(** ** Traces *)

Section Traces.
Import Efectos.

(** The integers passed to [progress_callback], in order. *)
Definition progress_of (evs : list event) : list Z :=
  omap (fun e => match e with Progress p => Some p | _ => None end) evs.

(** The records appended, in order. *)
Definition appended (evs : list event) : list record :=
  omap (fun e => match e with Append r => Some r | _ => None end) evs.

(** The spreadsheets written: directory, file name and rows. *)
Definition written (evs : list event) : list (Py.str * Py.str * list record) :=
  omap (fun e => match e with ToExcel d f rows => Some (d, f, rows) | _ => None end) evs.

(** The answers of the cancel predicate. *)
Definition polled (evs : list event) : list bool :=
  omap (fun e => match e with Poll b => Some b | _ => None end) evs.

(** The listing pages that the robot read and those it asked the pager for. *)
Definition pages_read (evs : list event) : list Z :=
  omap (fun e => match e with PageSource p => Some p | _ => None end) evs.

Definition pages_asked (evs : list event) : list Z :=
  omap (fun e => match e with GoToPage p => Some p | _ => None end) evs.

(** The trace up to the first time the cancel predicate answered true, and
    the trace after it. *)
Fixpoint before_cancel (evs : list event) : list event :=
  match evs with
  | [] => []
  | Poll true :: _ => []
  | e :: rest => e :: before_cancel rest
  end.

Fixpoint after_cancel (evs : list event) : list event :=
  match evs with
  | [] => []
  | Poll true :: rest => rest
  | _ :: rest => after_cancel rest
  end.

Definition cancel_seen (evs : list event) : Prop := true ∈ polled evs.

(** Monotonically non-decreasing, every value between 0 and 100. *)
Definition progress_ok (ps : list Z) : Prop :=
  StronglySorted Z.le ps /\ Forall (fun p => 0 <= p <= 100) ps.

Lemma sorted_app (l1 l2 : list Z) :
  StronglySorted Z.le l1 -> StronglySorted Z.le l2 ->
  (forall a b, In a l1 -> In b l2 -> a <= b) ->
  StronglySorted Z.le (l1 ++ l2).
Proof.
  intros H1 H2 H12. induction H1 as [|a l1 H1 IH Ha]; [exact H2|].
  simpl. constructor.
  - apply IH. intros x y Hx Hy. apply H12; [now right|exact Hy].
  - apply Forall_app. split; [exact Ha|].
    apply List.Forall_forall. intros y Hy. apply H12; [now left|exact Hy].
Qed.

(** Reports that stay within [lo, hi] and do not decrease. *)
Definition climbs (lo hi : Z) (ps : list Z) : Prop :=
  StronglySorted Z.le ps /\ Forall (fun p => lo <= p <= hi) ps.

Lemma climbs_nil (lo hi : Z) : climbs lo hi [].
Proof. split; constructor. Qed.

Lemma climbs_app (lo mid hi : Z) (l1 l2 : list Z) :
  climbs lo mid l1 -> climbs mid hi l2 -> lo <= mid <= hi ->
  climbs lo hi (l1 ++ l2).
Proof.
  intros [S1 F1] [S2 F2] Hm. split.
  - apply sorted_app; [exact S1|exact S2|].
    intros a b Ha Hb.
    pose proof (proj1 (List.Forall_forall _ _) F1 a Ha) as Ha'.
    pose proof (proj1 (List.Forall_forall _ _) F2 b Hb) as Hb'.
    simpl in Ha', Hb'. lia.
  - apply Forall_app. split.
    + eapply Forall_impl; [exact F1|]. simpl. intros; lia.
    + eapply Forall_impl; [exact F2|]. simpl. intros; lia.
Qed.

Lemma climbs_join (lo1 hi1 lo2 hi2 : Z) (l1 l2 : list Z) :
  climbs lo1 hi1 l1 -> climbs lo2 hi2 l2 -> hi1 <= lo2 ->
  climbs (Z.min lo1 lo2) (Z.max hi1 hi2) (l1 ++ l2).
Proof.
  intros [S1 F1] [S2 F2] Hm. split.
  - apply sorted_app; [exact S1|exact S2|].
    intros a b Ha Hb.
    pose proof (proj1 (List.Forall_forall _ _) F1 a Ha) as Ha'.
    pose proof (proj1 (List.Forall_forall _ _) F2 b Hb) as Hb'.
    simpl in Ha', Hb'. lia.
  - apply Forall_app. split.
    + eapply Forall_impl; [exact F1|]. simpl. intros; lia.
    + eapply Forall_impl; [exact F2|]. simpl. intros; lia.
Qed.

Lemma climbs_weaken (lo lo' hi hi' : Z) (ps : list Z) :
  climbs lo hi ps -> lo' <= lo -> hi <= hi' -> climbs lo' hi' ps.
Proof.
  intros [S F] Hlo Hhi. split; [exact S|].
  eapply Forall_impl; [exact F|]. simpl. intros; lia.
Qed.

Lemma climbs_one (lo hi p : Z) : lo <= p <= hi -> climbs lo hi [p].
Proof. intros H. split; repeat constructor; lia. Qed.

Lemma climbs_ok (lo hi : Z) (ps : list Z) :
  0 <= lo -> hi <= 100 -> climbs lo hi ps -> progress_ok ps.
Proof. intros Hlo Hhi H. exact (climbs_weaken _ 0 _ 100 _ H Hlo Hhi). Qed.

Lemma polled_cons_other (e : event) (evs : list event) :
  (forall b, e <> Poll b) -> polled (e :: evs) = polled evs.
Proof. intros H. destruct e; try reflexivity. now destruct (H answer). Qed.

Lemma after_cancel_seen (a b : list event) :
  true ∈ polled a -> after_cancel (a ++ b) = after_cancel a ++ b.
Proof.
  induction a as [|e a IH]; intros H.
  - apply elem_of_nil in H. destruct H.
  - destruct e as [[|]| | | | | |]; try (exact (IH H)); [reflexivity|].
    apply IH. change (true ∈ false :: polled a) in H.
    apply elem_of_cons in H as [H|H]; [discriminate H|exact H].
Qed.

Lemma after_cancel_unseen (a b : list event) :
  true ∉ polled a -> after_cancel (a ++ b) = after_cancel b.
Proof.
  induction a as [|e a IH]; intros H; [reflexivity|].
  destruct e as [[|]| | | | | |]; try (exact (IH H)).
  - destruct H. apply list_elem_of_here.
  - apply IH. intros H'. apply H. now apply list_elem_of_further.
Qed.


Lemma before_cancel_unseen (a b : list event) :
  true ∉ polled a -> before_cancel (a ++ b) = a ++ before_cancel b.
Proof.
  induction a as [|e a IH]; intros H; [reflexivity|].
  destruct e as [[|]| | | | | |]; try (simpl; f_equal; exact (IH H)).
  - destruct H. apply list_elem_of_here.
  - simpl. f_equal. apply IH. intros H'. apply H. now apply list_elem_of_further.
Qed.

Lemma after_cancel_none (a : list event) : true ∉ polled a -> after_cancel a = [].
Proof.
  intros H. rewrite <- (app_nil_r a). now rewrite after_cancel_unseen.
Qed.

Lemma polled_app (a b : list event) : polled (a ++ b) = polled a ++ polled b.
Proof. apply omap_app. Qed.

Lemma appended_app (a b : list event) : appended (a ++ b) = appended a ++ appended b.
Proof. apply omap_app. Qed.

Lemma progress_of_app (a b : list event) :
  progress_of (a ++ b) = progress_of a ++ progress_of b.
Proof. apply omap_app. Qed.

Lemma written_app (a b : list event) : written (a ++ b) = written a ++ written b.
Proof. apply omap_app. Qed.


End Traces.

(** ** The effects of the small steps *)

Section EffectFacts.
Import Efectos.

Definition poll_answer (ic : option (nat -> bool)) (n : nat) : bool :=
  match ic with Some answers => answers n | None => false end.

Definition poll_next (ic : option (nat -> bool)) (n : nat) : nat :=
  match ic with Some _ => S n | None => n end.

Definition poll_events (ic : option (nat -> bool)) (n : nat) : list event :=
  match ic with Some answers => [Poll (answers n)] | None => [] end.

Definition report_events (cb : bool) (p : Z) : list event :=
  if cb then [Progress p] else [].

Lemma bind_eq {A B : Type} (m : M A) (k : A -> M B) (n : nat) :
  bind m k n
  = match res (m n) with
    | Returns a =>
      let o' := k a (polls (m n)) in
      Out (res o') (polls o') (events (m n) ++ events o')
    | Raises e => Out (Raises e) (polls (m n)) (events (m n))
    | OutOfFuel => Out OutOfFuel (polls (m n)) (events (m n))
    end.
Proof. reflexivity. Qed.

Lemma cancelled_eq (ic : option (nat -> bool)) (n : nat) :
  cancelled ic n = Out (Returns (poll_answer ic n)) (poll_next ic n) (poll_events ic n).
Proof. destruct ic; reflexivity. Qed.

Lemma report_eq (cb : bool) (p : Z) (n : nat) :
  report cb p n = Out (Returns tt) n (report_events cb p).
Proof. destruct cb; reflexivity. Qed.

Lemma poll_next_le (ic : option (nat -> bool)) (n : nat) : (n <= poll_next ic n)%nat.
Proof. destruct ic; simpl; lia. Qed.

Lemma polled_poll_events (ic : option (nat -> bool)) (n : nat) :
  polled (poll_events ic n) = map (poll_answer ic) (seq n (poll_next ic n - n)).
Proof.
  destruct ic as [a|]; simpl.
  - replace (S n - n)%nat with 1%nat by lia. reflexivity.
  - replace (n - n)%nat with 0%nat by lia. reflexivity.
Qed.

Lemma polled_chain (ic : option (nat -> bool)) (n n1 n2 : nat) :
  (n <= n1 <= n2)%nat ->
  map (poll_answer ic) (seq n (n1 - n)) ++ map (poll_answer ic) (seq n1 (n2 - n1))
  = map (poll_answer ic) (seq n (n2 - n)).
Proof.
  intros H. rewrite <- map_app. f_equal.
  replace (n2 - n)%nat with ((n1 - n) + (n2 - n1))%nat by lia.
  rewrite seq_app. do 2 f_equal. lia.
Qed.

Lemma appended_poll_events (ic : option (nat -> bool)) (n : nat) :
  appended (poll_events ic n) = [].
Proof. destruct ic; reflexivity. Qed.

Lemma progress_poll_events (ic : option (nat -> bool)) (n : nat) :
  progress_of (poll_events ic n) = [].
Proof. destruct ic; reflexivity. Qed.

Lemma written_poll_events (ic : option (nat -> bool)) (n : nat) :
  written (poll_events ic n) = [].
Proof. destruct ic; reflexivity. Qed.

Lemma appended_report_events (cb : bool) (p : Z) : appended (report_events cb p) = [].
Proof. destruct cb; reflexivity. Qed.

Lemma polled_report_events (cb : bool) (p : Z) : polled (report_events cb p) = [].
Proof. destruct cb; reflexivity. Qed.

Lemma written_report_events (cb : bool) (p : Z) : written (report_events cb p) = [].
Proof. destruct cb; reflexivity. Qed.

Lemma progress_report_events (cb : bool) (p : Z) :
  progress_of (report_events cb p) = if cb then [p] else [].
Proof. destruct cb; reflexivity. Qed.

Lemma unseen_poll_events (ic : option (nat -> bool)) (n : nat) :
  poll_answer ic n = false -> true ∉ polled (poll_events ic n).
Proof.
  destruct ic as [a|]; simpl; intros H.
  - rewrite H. intros H'. apply elem_of_cons in H' as [H'|H']; [discriminate|].
    apply elem_of_nil in H'. exact H'.
  - apply not_elem_of_nil.
Qed.

Lemma after_cancel_poll_events (ic : option (nat -> bool)) (n : nat) :
  after_cancel (poll_events ic n) = [].
Proof. destruct ic as [a|]; simpl; [destruct (a n)|]; reflexivity. Qed.

Lemma climbs_report (cb : bool) (p : Z) : climbs p p (progress_of (report_events cb p)).
Proof.
  rewrite progress_report_events. destruct cb; [apply climbs_one; lia|apply climbs_nil].
Qed.

(** A cancel predicate that stays true once it has answered true. *)
Definition stays_true (ic : option (nat -> bool)) : Prop :=
  forall i j, (i <= j)%nat -> poll_answer ic i = true -> poll_answer ic j = true.

(** A cancel predicate that never answers true. *)
Definition never_cancelled (ic : option (nat -> bool)) : Prop :=
  forall i, poll_answer ic i = false.

End EffectFacts.

(** ** The loop of [scrape_comprar_tics] *)

Section ComprarLoop.
Import Efectos Comprar.
Variable py : python.
Variable web : sitio.
Variable cb : bool.
Variable ic : option (nat -> bool).

(** The record that row [idx] gives. *)
Definition record_of (idx : Z) (row : ListRow) : record :=
  marcar_tic py (merge row (detail_of web idx row)).

Lemma for_rows_cons (total idx : Z) (row : ListRow) (rest : list (Z * ListRow))
    (records : list record) (n : nat) :
  for_rows py web cb ic total ((idx, row) :: rest) records n
  = if poll_answer ic n
    then Out (Returns records) (poll_next ic n) (poll_events ic n)
    else
      let o := for_rows py web cb ic total rest (records ++ [record_of idx row])
                 (poll_next ic n) in
      Out (res o) (polls o)
        (poll_events ic n ++ Append (record_of idx row)
           :: report_events cb (progress_at (float_round py) total idx) ++ events o).
Proof.
  simpl. unfold bind. rewrite cancelled_eq. simpl.
  destruct (poll_answer ic n).
  - simpl. now rewrite app_nil_r.
  - simpl. rewrite report_eq. simpl. reflexivity.
Qed.

Lemma for_rows_res (total : Z) (rows : list (Z * ListRow)) (records : list record)
    (n : nat) :
  let o := for_rows py web cb ic total rows records n in
  res o = Returns (records ++ appended (events o)).
Proof.
  revert records n. induction rows as [|[idx row] rest IH]; intros records n.
  - simpl. now rewrite app_nil_r.
  - cbv zeta. rewrite for_rows_cons. destruct (poll_answer ic n); simpl.
    + now rewrite appended_poll_events, app_nil_r.
    + rewrite IH. rewrite appended_app, appended_poll_events. simpl.
      rewrite appended_app, appended_report_events. simpl.
      now rewrite <- app_assoc.
Qed.

Lemma for_rows_quiet (total : Z) (rows : list (Z * ListRow)) (records : list record)
    (n : nat) :
  appended (after_cancel (events (for_rows py web cb ic total rows records n))) = [].
Proof.
  revert records n. induction rows as [|[idx row] rest IH]; intros records n.
  - reflexivity.
  - rewrite for_rows_cons. destruct (poll_answer ic n) eqn:E; simpl.
    + now rewrite after_cancel_poll_events.
    + rewrite after_cancel_unseen by now apply unseen_poll_events.
      simpl. rewrite after_cancel_unseen.
      * apply IH.
      * rewrite polled_report_events. apply not_elem_of_nil.
Qed.

Lemma for_rows_written (total : Z) (rows : list (Z * ListRow)) (records : list record)
    (n : nat) :
  written (events (for_rows py web cb ic total rows records n)) = [].
Proof.
  revert records n. induction rows as [|[idx row] rest IH]; intros records n.
  - reflexivity.
  - rewrite for_rows_cons. destruct (poll_answer ic n); simpl.
    + apply written_poll_events.
    + rewrite written_app, written_poll_events. simpl.
      rewrite written_app, written_report_events. apply IH.
Qed.

Lemma for_rows_silent (total : Z) (rows : list (Z * ListRow)) (records : list record)
    (n : nat) :
  let o := for_rows py web cb ic total rows records n in
  appended (events o) = [] -> progress_of (events o) = [].
Proof.
  destruct rows as [|[idx row] rest]; [reflexivity|].
  cbv zeta. rewrite for_rows_cons. destruct (poll_answer ic n); simpl.
  - intros _. apply progress_poll_events.
  - rewrite appended_app, appended_poll_events. simpl. discriminate.
Qed.


Hypothesis Hround : rounds_well (float_round py).

Lemma for_rows_climbs (total start : Z) (l : list ListRow) (records : list record)
    (n : nat) :
  0 < total -> 1 <= start -> start + Z.of_nat (length l) - 1 <= total ->
  climbs (progress_at (float_round py) total start) 100
    (progress_of (events (for_rows py web cb ic total (enumerate start l) records n))).
Proof.
  intros Ht. revert start records n.
  induction l as [|row rest IH]; intros start records n Hs Hlen.
  - apply climbs_nil.
  - simpl enumerate. rewrite for_rows_cons.
    simpl length in Hlen.
    destruct (poll_answer ic n); simpl.
    + rewrite progress_poll_events. apply climbs_nil.
    + rewrite progress_of_app, progress_poll_events. simpl.
      rewrite progress_of_app.
      pose proof (progress_at_bounds _ Hround total start Ht ltac:(lia)) as Hb.
      eapply climbs_app; [apply climbs_report| |].
      * eapply climbs_weaken; [apply (IH (start + 1)); lia| |lia].
        apply progress_at_mono; [exact Hround|lia|lia].
      * lia.
Qed.

End ComprarLoop.

(** ** The runs of [scrape_comprar_tics] *)

Section ComprarRun.
Import Efectos Comprar Fechas.
Variable py : python.
Variable web : sitio.
Variable cb : bool.
Variable ic : option (nat -> bool).
Variable start_date end_date : date.
Variable output_dir : Py.str.

(** The exception of the export: there is one when there are rows to
    write and the writer raises. *)
Definition export_error (rows : list record) : option exn :=
  match rows, to_excel py with
  | _ :: _, Throws e => Some e
  | _, _ => None
  end.

(** A spreadsheet is written when there are rows to write and the writer
    does not raise. *)
Definition export_events (dir file : Py.str) (rows : list record) : list event :=
  match rows, to_excel py with
  | _ :: _, Reply _ => [ToExcel dir file rows]
  | _, _ => []
  end.

(** How a run ends after the export of [rows], and what it reports last. *)
Definition export_result (rows : list record) : result Z :=
  match export_error rows with
  | Some e => Raises e
  | None => Returns (Z.of_nat (length rows))
  end.

Definition last_report (rows : list record) : list event :=
  match export_error rows with
  | Some _ => []
  | None => report_events cb 100
  end.

Lemma df_to_excel_eq (dir file : Py.str) (r : record) (rows : list record) (n : nat) :
  df_to_excel py dir file (r :: rows) n
  = Out (match export_error (r :: rows) with
         | Some e => Raises e
         | None => Returns tt
         end) n (export_events dir file (r :: rows)).
Proof.
  unfold df_to_excel, export_error, export_events, bind, call.
  destruct (to_excel py) as [[]|e]; reflexivity.
Qed.

Definition comprar_filename : Py.str :=
  lit "comprar_tics_" ++ strftime_Ymd (strftime_Y py) start_date ++ lit "_"
  ++ strftime_Ymd (strftime_Y py) end_date ++ lit ".xlsx".

(** The rows of all the pages of the listing, when the walk succeeds. *)
Definition listed_rows (soups : list Soup) : list ListRow :=
  flat_map _extract_list_rows_from_soup soups.

(** A run is the walk of the listing, the loop over its rows, the export
    and the last report. *)
Lemma scrape_comprar_tics_run (n : nat) :
  let o := scrape_comprar_tics py web start_date end_date output_dir cb ic n in
  match (_iter_compras_pages (listado web) None).1 with
  | Throws e => o = Out (Raises e) n []
  | Reply soups =>
    let rows := listed_rows soups in
    let lo := for_rows py web cb ic (Z.of_nat (length rows)) (enumerate 1 rows) [] n in
    res o = export_result (appended (events lo)) /\
    events o
    = events lo
      ++ export_events output_dir comprar_filename (appended (events lo))
      ++ last_report (appended (events lo))
  end.
Proof.
  cbv zeta. unfold scrape_comprar_tics, bind.
  destruct (_iter_compras_pages (listado web) None).1 as [soups|e]; [|reflexivity].
  simpl. fold (listed_rows soups).
  destruct (listed_rows soups) as [|r rows] eqn:Hrows.
  - simpl. rewrite report_eq. simpl. now rewrite app_nil_r.
  - replace (Z.of_nat (length (r :: rows)) =? 0) with false
      by (symmetry; apply Z.eqb_neq; simpl; lia).
    set (lo := for_rows py web cb ic _ _ [] n).
    pose proof (for_rows_res py web cb ic (Z.of_nat (length (r :: rows)))
                  (enumerate 1 (r :: rows)) [] n) as Hres.
    cbv zeta in Hres. fold lo in Hres. simpl app in Hres. rewrite Hres.
    destruct (appended (events lo)) as [|m ms].
    + simpl. rewrite report_eq. simpl. now rewrite app_nil_r.
    + cbv iota beta zeta. fold comprar_filename.
      unfold bind. rewrite df_to_excel_eq.
      unfold export_result, last_report.
      destruct (export_error (m :: ms)) as [e|]; cbn [res polls events].
      * now rewrite app_nil_r.
      * rewrite report_eq. cbn [res polls events]. now rewrite app_nil_r.
Qed.

End ComprarRun.

(** ** The export *)

Section ExportFacts.
Import Efectos.
Variable py : python.

Lemma export_error_nil : export_error py [] = None.
Proof. reflexivity. Qed.





Lemma last_report_ok (cb : bool) (rows : list record) :
  export_error py rows = None -> last_report py cb rows = report_events cb 100.
Proof. unfold last_report. now intros ->. Qed.

Lemma progress_export_events (d f : Py.str) (rows : list record) :
  progress_of (export_events py d f rows) = [].
Proof. unfold export_events. now destruct rows, (to_excel py). Qed.

Lemma appended_export_events (d f : Py.str) (rows : list record) :
  appended (export_events py d f rows) = [].
Proof. unfold export_events. now destruct rows, (to_excel py). Qed.


Lemma written_export_events (d f : Py.str) (rows : list record) :
  written (export_events py d f rows)
  = match rows, export_error py rows with
    | _ :: _, None => [(d, f, rows)]
    | _, _ => []
    end.
Proof.
  unfold export_events, export_error. destruct rows; [reflexivity|].
  now destruct (to_excel py).
Qed.

Lemma appended_last_report (cb : bool) (rows : list record) :
  appended (last_report py cb rows) = [].
Proof.
  unfold last_report. destruct (export_error py rows); [reflexivity|].
  apply appended_report_events.
Qed.

Lemma polled_last_report (cb : bool) (rows : list record) :
  polled (last_report py cb rows) = [].
Proof.
  unfold last_report. destruct (export_error py rows); [reflexivity|].
  apply polled_report_events.
Qed.

Lemma written_last_report (cb : bool) (rows : list record) :
  written (last_report py cb rows) = [].
Proof.
  unfold last_report. destruct (export_error py rows); [reflexivity|].
  apply written_report_events.
Qed.

Lemma climbs_last_report (cb : bool) (rows : list record) :
  climbs 100 100 (progress_of (last_report py cb rows)).
Proof.
  unfold last_report. destruct (export_error py rows); [apply climbs_nil|].
  apply climbs_report.
Qed.

End ExportFacts.

(** ** The loops of [ejecutar_robot] *)

Section RobotLoop.
Import Efectos ComprarBot.
Variable py : python.
Variable nav : navegador.
Variable max_paginas : option Z.
Variable cb : bool.
Variable ic : option (nat -> bool).

(** The record that row [idx] of page [pagina] gives, if its detail can be
    had. *)
Definition registro_de (pagina idx : Z) (fila : Fila) : option record :=
  let detalle := detalle_de nav pagina idx fila in
  if sin_detalle detalle then None
  else Some (marcar_tic py (merge fila (default ∅ detalle))).

Lemma for_filas_cons (pagina idx : Z) (fila : Fila) (rest : list (Z * Fila))
    (registros : list record) (total : Z) (n : nat) :
  for_filas py nav cb ic pagina ((idx, fila) :: rest) registros total n
  = if poll_answer ic n
    then Out (Returns (Returned registros)) (poll_next ic n) (poll_events ic n)
    else
      match registro_de pagina idx fila with
      | None =>
        let o := for_filas py nav cb ic pagina rest registros total (poll_next ic n) in
        Out (res o) (polls o) (poll_events ic n ++ events o)
      | Some registro =>
        let o := for_filas py nav cb ic pagina rest (registros ++ [registro])
                   (total + 1) (poll_next ic n) in
        Out (res o) (polls o)
          (poll_events ic n ++ Append registro
             :: report_events cb (Z.min (total + 1) 99) ++ events o)
      end.
Proof.
  simpl. unfold bind. rewrite cancelled_eq. simpl.
  destruct (poll_answer ic n).
  - simpl. now rewrite app_nil_r.
  - unfold registro_de. simpl.
    destruct (sin_detalle (detalle_de nav pagina idx fila)).
    + reflexivity.
    + simpl. rewrite report_eq. simpl. reflexivity.
Qed.

(** The loop over a page ends by [return] exactly when the cancel predicate
    answered true, and in both cases holds the records appended so far. *)
Lemma for_filas_res (pagina : Z) (filas : list (Z * Fila)) (registros : list record)
    (total : Z) (n : nat) :
  let o := for_filas py nav cb ic pagina filas registros total n in
  ((true ∈ polled (events o)) /\
   res o = Returns (Returned (registros ++ appended (events o)))) \/
  ((true ∉ polled (events o)) /\
   res o = Returns (Completed (registros ++ appended (events o),
                               total + Z.of_nat (length (appended (events o)))))).
Proof.
  revert registros total n.
  induction filas as [|[idx fila] rest IH]; intros registros total n.
  - right. simpl. split; [apply not_elem_of_nil|].
    now rewrite app_nil_r, Z.add_0_r.
  - cbv zeta. rewrite for_filas_cons. destruct (poll_answer ic n) eqn:E.
    + left. simpl. rewrite appended_poll_events, app_nil_r. split; [|reflexivity].
      destruct ic as [a|]; [|discriminate E]. simpl in *. rewrite E.
      apply list_elem_of_here.
    + pose proof (unseen_poll_events ic n E) as Hun.
      destruct (registro_de pagina idx fila) as [registro|].
      * specialize (IH (registros ++ [registro]) (total + 1) (poll_next ic n)).
        cbv zeta in IH. simpl.
        rewrite polled_app, appended_app, appended_poll_events. simpl.
        rewrite polled_app, appended_app, polled_report_events,
          appended_report_events. simpl.
        rewrite <- app_assoc in IH. simpl in IH.
        destruct IH as [[H1 H2]|[H1 H2]]; [left|right]; rewrite H2.
        -- split; [|reflexivity]. apply elem_of_app. now right.
        -- split.
           ++ intros H. apply elem_of_app in H as [H|H]; tauto.
           ++ do 3 f_equal. simpl length. lia.
      * specialize (IH registros total (poll_next ic n)). cbv zeta in IH. simpl.
        rewrite polled_app, appended_app, appended_poll_events. simpl.
        destruct IH as [[H1 H2]|[H1 H2]]; [left|right]; rewrite H2.
        -- split; [|reflexivity]. apply elem_of_app. now right.
        -- split; [|reflexivity].
           intros H. apply elem_of_app in H as [H|H]; tauto.
Qed.

Lemma for_filas_quiet (pagina : Z) (filas : list (Z * Fila)) (registros : list record)
    (total : Z) (n : nat) :
  appended (after_cancel
              (events (for_filas py nav cb ic pagina filas registros total n))) = [].
Proof.
  revert registros total n.
  induction filas as [|[idx fila] rest IH]; intros registros total n;
    [reflexivity|].
  rewrite for_filas_cons. destruct (poll_answer ic n) eqn:E; simpl.
  - now rewrite after_cancel_poll_events.
  - destruct (registro_de pagina idx fila) as [registro|]; simpl;
      rewrite after_cancel_unseen by now apply unseen_poll_events.
    + simpl. rewrite after_cancel_unseen; [apply IH|].
      rewrite polled_report_events. apply not_elem_of_nil.
    + apply IH.
Qed.

(** Nothing but polls, appends and reports happens in the loop over a page. *)
Definition plain (e : event) : Prop :=
  match e with
  | Poll _ | Progress _ | Append _ => True
  | _ => False
  end.

Lemma plain_poll_events (n : nat) : Forall plain (poll_events ic n).
Proof. destruct ic; repeat constructor. Qed.

Lemma plain_report_events (p : Z) : Forall plain (report_events cb p).
Proof. destruct cb; repeat constructor. Qed.

Lemma for_filas_plain (pagina : Z) (filas : list (Z * Fila)) (registros : list record)
    (total : Z) (n : nat) :
  Forall plain (events (for_filas py nav cb ic pagina filas registros total n)).
Proof.
  revert registros total n.
  induction filas as [|[idx fila] rest IH]; intros registros total n;
    [constructor|].
  rewrite for_filas_cons. destruct (poll_answer ic n); simpl.
  - apply plain_poll_events.
  - destruct (registro_de pagina idx fila) as [registro|]; simpl.
    + apply Forall_app. split; [apply plain_poll_events|].
      constructor; [exact I|]. apply Forall_app.
      split; [apply plain_report_events|apply IH].
    + apply Forall_app. split; [apply plain_poll_events|apply IH].
Qed.

Lemma for_filas_silent (pagina : Z) (filas : list (Z * Fila)) (registros : list record)
    (total : Z) (n : nat) :
  let o := for_filas py nav cb ic pagina filas registros total n in
  appended (events o) = [] -> progress_of (events o) = [].
Proof.
  revert registros total n.
  induction filas as [|[idx fila] rest IH]; intros registros total n;
    [reflexivity|].
  cbv zeta. rewrite for_filas_cons. destruct (poll_answer ic n); simpl.
  - intros _. apply progress_poll_events.
  - destruct (registro_de pagina idx fila) as [registro|]; simpl.
    + rewrite appended_app, appended_poll_events. simpl. discriminate.
    + rewrite appended_app, progress_of_app, appended_poll_events,
        progress_poll_events. simpl. apply IH.
Qed.


Lemma for_filas_climbs (pagina : Z) (filas : list (Z * Fila)) (registros : list record)
    (total : Z) (n : nat) :
  let o := for_filas py nav cb ic pagina filas registros total n in
  climbs (Z.min (total + 1) 99)
    (Z.min (total + Z.of_nat (length (appended (events o)))) 99)
    (progress_of (events o)).
Proof.
  revert registros total n.
  induction filas as [|[idx fila] rest IH]; intros registros total n;
    [apply climbs_nil|].
  cbv zeta. rewrite for_filas_cons. destruct (poll_answer ic n); simpl.
  - rewrite progress_poll_events. apply climbs_nil.
  - destruct (registro_de pagina idx fila) as [registro|]; simpl;
      rewrite progress_of_app, progress_poll_events, appended_app,
        appended_poll_events; simpl.
    + rewrite progress_of_app, appended_app, appended_report_events.
      simpl app. simpl length.
      eapply climbs_weaken;
        [eapply climbs_join;
           [apply climbs_report
           |apply (IH (registros ++ [registro]) (total + 1) (poll_next ic n))
           |lia]
        |lia|lia].
    + apply IH.
Qed.

(** One turn of [while True]: it stops on a cancellation seen in the page,
    or after the page (on an empty page, beyond [max_paginas], or when the
    pager does not follow), or goes on with the next page. *)
Lemma paginas_S (fuel : nat) (pagina : Z) (registros : list record) (total : Z)
    (n : nat) :
  let fo := for_filas py nav cb ic pagina
              (enumerate 0 (obtener_filas_listado nav pagina)) registros total n in
  let o := paginas py nav max_paginas cb ic (S fuel) pagina registros total n in
  let registros' := registros ++ appended (events fo) in
  (res o = Returns (Returned registros') /\ (true ∈ polled (events fo)) /\
   events o = PageSource pagina :: events fo) \/
  (res o = Returns (Completed registros') /\ (true ∉ polled (events fo)) /\
   (events o = PageSource pagina :: events fo \/
    events o = PageSource pagina :: events fo ++ [GoToPage (pagina + 1)] /\
    Comprar.beyond max_paginas (pagina + 1) = false)) \/
  ((true ∉ polled (events fo)) /\
   Comprar.beyond max_paginas (pagina + 1) = false /\
   let po := paginas py nav max_paginas cb ic fuel (pagina + 1) registros'
               (total + Z.of_nat (length (appended (events fo)))) (polls fo) in
   res o = res po /\
   events o = PageSource pagina :: events fo ++ GoToPage (pagina + 1) :: events po).
Proof.
  cbv zeta.
  change (paginas py nav max_paginas cb ic (S fuel) pagina registros total)
    with (let* _ := emit (PageSource pagina) in
          match obtener_filas_listado nav pagina with
          | [] => ret (Completed registros)
          | _ =>
            let* r := for_filas py nav cb ic pagina
                        (enumerate 0 (obtener_filas_listado nav pagina))
                        registros total in
            match r with
            | Returned df => ret (Returned df)
            | Completed (registros, total_procesos) =>
              if Comprar.beyond max_paginas (pagina + 1)
              then ret (Completed registros)
              else
                let* _ := emit (GoToPage (pagina + 1)) in
                if negb (ir_a_pagina nav (pagina + 1)) then ret (Completed registros)
                else paginas py nav max_paginas cb ic fuel (pagina + 1) registros
                       total_procesos
            end
          end).
  set (fo := for_filas py nav cb ic pagina
               (enumerate 0 (obtener_filas_listado nav pagina)) registros total n).
  destruct (for_filas_res pagina (enumerate 0 (obtener_filas_listado nav pagina))
              registros total n) as [[Hseen Hres]|[Hun Hres]];
    cbv zeta in Hres; fold fo in Hseen, Hres || fold fo in Hun, Hres.
  - left. assert (Hne : obtener_filas_listado nav pagina <> []).
    { intros H. subst fo. rewrite H in Hseen. simpl in Hseen.
      now apply elem_of_nil in Hseen. }
    unfold bind, emit, ret. cbn [res polls events].
    destruct (obtener_filas_listado nav pagina) as [|f0 fs]; [congruence|].
    fold fo. rewrite Hres. cbn [res polls events app].
    rewrite app_nil_r. split; [reflexivity|]. split; [exact Hseen|reflexivity].
  - unfold bind, emit, ret. cbn [res polls events].
    destruct (obtener_filas_listado nav pagina) as [|f0 fs] eqn:Hf.
    + right. left. subst fo. simpl. rewrite app_nil_r.
      split; [reflexivity|]. split; [apply not_elem_of_nil|]. now left.
    + fold fo. rewrite Hres. cbn [res polls events app].
      destruct (Comprar.beyond max_paginas (pagina + 1)) eqn:Hb;
        cbn [res polls events app].
      * right. left. rewrite app_nil_r.
        split; [reflexivity|]. split; [exact Hun|]. now left.
      * destruct (ir_a_pagina nav (pagina + 1)); cbn [negb res polls events app].
        -- right. right. split; [exact Hun|]. split; [reflexivity|].
           set (po := paginas _ _ _ _ _ fuel _ _ _ _).
           destruct (res po); split; reflexivity.
        -- right. left. split; [reflexivity|]. split; [exact Hun|].
           right. split; reflexivity.
Qed.

End RobotLoop.

Section RobotPages.
Import Efectos ComprarBot.
Variable py : python.
Variable nav : navegador.
Variable max_paginas : option Z.
Variable cb : bool.
Variable ic : option (nat -> bool).

Local Abbreviation paginas_ := (paginas py nav max_paginas cb ic).

(** However the pages end, the records held are those appended. *)
Lemma paginas_res (fuel : nat) (pagina : Z) (registros : list record) (total : Z)
    (n : nat) :
  let o := paginas_ fuel pagina registros total n in
  res o = OutOfFuel \/
  res o = Returns (Returned (registros ++ appended (events o))) \/
  res o = Returns (Completed (registros ++ appended (events o))).
Proof.
  revert pagina registros total n.
  induction fuel as [|fuel IH]; intros pagina registros total n; [now left|].
  destruct (paginas_S py nav max_paginas cb ic fuel pagina registros total n)
    as [(Hres & _ & Hev)|[(Hres & _ & Hev)|(_ & _ & Hres & Hev)]];
    cbv zeta in *.
  - right. left. now rewrite Hres, Hev.
  - right. right. rewrite Hres.
    destruct Hev as [->|[-> _]]; simpl; [reflexivity|].
    now rewrite appended_app, app_nil_r.
  - rewrite Hres, Hev. simpl. rewrite appended_app. simpl. rewrite app_assoc.
    apply IH.
Qed.

Lemma paginas_quiet (fuel : nat) (pagina : Z) (registros : list record) (total : Z)
    (n : nat) :
  appended (after_cancel (events (paginas_ fuel pagina registros total n))) = [].
Proof.
  revert pagina registros total n.
  induction fuel as [|fuel IH]; intros pagina registros total n; [reflexivity|].
  destruct (paginas_S py nav max_paginas cb ic fuel pagina registros total n)
    as [(_ & _ & Hev)|[(_ & Hun & Hev)|(Hun & _ & _ & Hev)]];
    cbv zeta in *.
  - rewrite Hev. simpl. apply for_filas_quiet.
  - destruct Hev as [->|[-> _]]; simpl; [apply for_filas_quiet|].
    now rewrite after_cancel_unseen.
  - rewrite Hev. simpl. rewrite after_cancel_unseen by exact Hun. simpl. apply IH.
Qed.

Lemma written_plain (evs : list event) : Forall plain evs -> written evs = [].
Proof.
  induction 1 as [|e evs He _ IH]; [reflexivity|].
  destruct e; simpl in *; try exact IH; destruct He.
Qed.

Lemma pages_plain (evs : list event) :
  Forall plain evs -> pages_read evs = [] /\ pages_asked evs = [].
Proof.
  induction 1 as [|e evs He _ IH]; [now split|].
  destruct e; simpl in *; try exact IH; destruct He.
Qed.

Lemma paginas_written (fuel : nat) (pagina : Z) (registros : list record) (total : Z)
    (n : nat) :
  written (events (paginas_ fuel pagina registros total n)) = [].
Proof.
  revert pagina registros total n.
  induction fuel as [|fuel IH]; intros pagina registros total n; [reflexivity|].
  pose proof (written_plain _ (for_filas_plain py nav cb ic pagina
    (enumerate 0 (obtener_filas_listado nav pagina)) registros total n)) as Hw.
  destruct (paginas_S py nav max_paginas cb ic fuel pagina registros total n)
    as [(_ & _ & Hev)|[(_ & _ & Hev)|(_ & _ & _ & Hev)]];
    cbv zeta in *.
  - now rewrite Hev.
  - destruct Hev as [->|[-> _]]; simpl; [exact Hw|].
    now rewrite written_app, Hw.
  - rewrite Hev. simpl. rewrite written_app, Hw. simpl. apply IH.
Qed.

Lemma paginas_silent (fuel : nat) (pagina : Z) (registros : list record) (total : Z)
    (n : nat) :
  let o := paginas_ fuel pagina registros total n in
  appended (events o) = [] -> progress_of (events o) = [].
Proof.
  revert pagina registros total n.
  induction fuel as [|fuel IH]; intros pagina registros total n; [reflexivity|].
  pose proof (for_filas_silent py nav cb ic pagina
    (enumerate 0 (obtener_filas_listado nav pagina)) registros total n) as Hs.
  destruct (paginas_S py nav max_paginas cb ic fuel pagina registros total n)
    as [(_ & _ & Hev)|[(_ & _ & Hev)|(_ & _ & _ & Hev)]];
    cbv zeta in *.
  - rewrite Hev. exact Hs.
  - destruct Hev as [->|[-> _]]; simpl; [exact Hs|].
    rewrite appended_app, progress_of_app, !app_nil_r. exact Hs.
  - rewrite Hev. simpl. rewrite appended_app, progress_of_app. simpl.
    intros H. apply app_eq_nil in H as [H1 H2].
    rewrite (Hs H1). simpl. apply IH. exact H2.
Qed.

Lemma paginas_climbs (fuel : nat) (pagina : Z) (registros : list record) (total : Z)
    (n : nat) :
  climbs (Z.min (total + 1) 99) 99
    (progress_of (events (paginas_ fuel pagina registros total n))).
Proof.
  revert pagina registros total n.
  induction fuel as [|fuel IH]; intros pagina registros total n;
    [apply climbs_nil|].
  pose proof (for_filas_climbs py nav cb ic pagina
    (enumerate 0 (obtener_filas_listado nav pagina)) registros total n) as Hc.
  cbv zeta in Hc.
  destruct (paginas_S py nav max_paginas cb ic fuel pagina registros total n)
    as [(_ & _ & Hev)|[(_ & _ & Hev)|(_ & _ & _ & Hev)]];
    cbv zeta in *.
  - rewrite Hev. simpl. eapply climbs_weaken; [exact Hc|lia|lia].
  - destruct Hev as [->|[-> _]]; simpl.
    + eapply climbs_weaken; [exact Hc|lia|lia].
    + rewrite progress_of_app, app_nil_r.
      eapply climbs_weaken; [exact Hc|lia|lia].
  - rewrite Hev. simpl. rewrite progress_of_app. simpl.
    eapply climbs_weaken; [eapply climbs_join; [exact Hc|apply IH|lia]|lia|lia].
Qed.

End RobotPages.

(** ** The runs of the robot *)

Section RobotRun.
Import Efectos ComprarBot Fechas.
Variable py : python.
Variable nav : navegador.
Variable cb : bool.
Variable ic : option (nat -> bool).

(** With [max_paginas = 1] the loop reads the first page and stops, whatever
    the fuel, as long as there is some. *)
Lemma paginas_first_only (fuel : nat) (registros : list record) (total : Z) (n : nat) :
  let fo := for_filas py nav cb ic 1 (enumerate 0 (obtener_filas_listado nav 1))
              registros total n in
  let o := paginas py nav (Some 1) cb ic (S fuel) 1 registros total n in
  events o = PageSource 1 :: events fo /\
  (res o = Returns (Returned (registros ++ appended (events fo))) \/
   res o = Returns (Completed (registros ++ appended (events fo)))).
Proof.
  cbv zeta.
  destruct (paginas_S py nav (Some 1) cb ic fuel 1 registros total n)
    as [(Hres & _ & Hev)|[(Hres & _ & Hev)|(_ & Hb & _)]];
    cbv zeta in *; [| |discriminate Hb].
  - split; [exact Hev|now left].
  - split; [|now right]. destruct Hev as [Hev|[_ Hb]]; [exact Hev|discriminate Hb].
Qed.

Variable start_date end_date : date.
Variable output_dir : Py.str.

Definition robot_filename : Py.str :=
  lit "comprar_selenium_" ++ strftime_Ymd (strftime_Y py) start_date ++ lit "_"
  ++ strftime_Ymd (strftime_Y py) end_date ++ lit ".xlsx".

(** [ejecutar_robot]: the driver, the listing, the pages, and [driver.quit()]
    whatever happened once the driver was there. *)
Lemma ejecutar_robot_run (max_paginas : option Z) (fuel : nat) (n : nat) :
  let o := ejecutar_robot py nav max_paginas cb ic fuel n in
  match crear_driver nav, ir_a_listado nav with
  | Throws e, _ => o = Out (Raises e) n []
  | Reply _, Throws e => o = Out (Raises e) n [Quit]
  | Reply _, Reply _ =>
    let po := paginas py nav max_paginas cb ic fuel 1 [] 0 n in
    o = Out (match res po with
             | Returns (Returned df) => Returns df
             | Returns (Completed registros) => Returns registros
             | Raises e => Raises e
             | OutOfFuel => OutOfFuel
             end) (polls po) (events po ++ [Quit])
  end.
Proof.
  cbv zeta. unfold ejecutar_robot, bind, finally, call, emit, ret, raise.
  destruct (crear_driver nav) as [[]|e]; [|reflexivity].
  destruct (ir_a_listado nav) as [[]|e]; [|reflexivity].
  cbn [res polls events app].
  destruct (res (paginas py nav max_paginas cb ic fuel 1 [] 0 n)) as [[r|df]|e|];
    cbn [res polls events app]; now rewrite ?app_nil_r.
Qed.

(** The export and the last report of [scrape_comprar_tics_robot]. *)
Lemma scrape_comprar_tics_robot_tail (fuel : nat) (n : nat) :
  let eo := ejecutar_robot py nav (Some 1) cb ic fuel n in
  let o := scrape_comprar_tics_robot py nav fuel start_date end_date
             output_dir cb ic n in
  match res eo with
  | Returns df =>
    res o = export_result py (map exportar df) /\
    events o
    = events eo ++ export_events py output_dir robot_filename (map exportar df)
      ++ last_report py cb (map exportar df)
  | Raises e => res o = Raises e /\ events o = events eo
  | OutOfFuel => res o = OutOfFuel /\ events o = events eo
  end.
Proof.
  cbv zeta. unfold scrape_comprar_tics_robot. rewrite bind_eq.
  destruct (res (ejecutar_robot py nav (Some 1) cb ic fuel n)) as [df|e|];
    [|split; reflexivity..].
  unfold robot_filename. destruct df as [|r df]; cbv zeta.
  - unfold bind. rewrite report_eq. cbn [ret res polls events app].
    rewrite ?app_nil_r. split; reflexivity.
  - cbn [map]. unfold bind. rewrite df_to_excel_eq.
    unfold export_result, last_report.
    destruct (export_error py (exportar r :: map exportar df)) as [e|];
      cbn [res polls events].
    + rewrite ?app_nil_r. split; reflexivity.
    + rewrite report_eq. cbn [ret res polls events app]. rewrite ?app_nil_r.
      split; reflexivity.
Qed.

(** A run of the adapter: it fails before the listing is shown, or it reads
    the first page, closes the browser, exports and reports. *)
Lemma scrape_comprar_tics_robot_run (fuel : nat) (n : nat) :
  let o := scrape_comprar_tics_robot py nav (S fuel) start_date end_date
             output_dir cb ic n in
  match crear_driver nav, ir_a_listado nav with
  | Throws e, _ => res o = Raises e /\ events o = []
  | Reply _, Throws e => res o = Raises e /\ events o = [Quit]
  | Reply _, Reply _ =>
    let fo := for_filas py nav cb ic 1 (enumerate 0 (obtener_filas_listado nav 1))
                [] 0 n in
    res o = export_result py (map exportar (appended (events fo))) /\
    events o
    = PageSource 1 :: events fo
      ++ Quit :: export_events py output_dir robot_filename
                   (map exportar (appended (events fo)))
      ++ last_report py cb (map exportar (appended (events fo)))
  end.
Proof.
  cbv zeta.
  pose proof (scrape_comprar_tics_robot_tail (S fuel) n) as Ht.
  pose proof (ejecutar_robot_run (Some 1) (S fuel) n) as He.
  cbv zeta in Ht, He.
  destruct (crear_driver nav) as [[]|e].
  2:{ rewrite He in Ht. exact Ht. }
  destruct (ir_a_listado nav) as [[]|e].
  2:{ rewrite He in Ht. exact Ht. }
  destruct (paginas_first_only fuel [] 0 n) as (Hev & Hres). cbv zeta in *.
  simpl app in Hres. rewrite He in Ht. cbn [res polls events] in Ht.
  rewrite Hev in Ht.
  destruct Hres as [Hres|Hres]; rewrite Hres in Ht; destruct Ht as [H1 H2];
    (split; [exact H1|]); rewrite H2; simpl; now rewrite <- !app_assoc.
Qed.

End RobotRun.

(** ** The percentages of [scrape_boletin_tercera] *)

Section BoletinProgress.
Import Efectos BoletinTercera.
Variable py : python.
Hypothesis Hround : rounds_well (float_round py).

Local Abbreviation rnd := (float_round py).

(** [day_index / total_days] and
    [(day_index + (idx_aviso / n_av)) / total_days]. *)
Definition frac_dia (day_index total_days : Z) : Q :=
  Float.truediv rnd day_index total_days.

Definition frac_aviso (day_index idx_aviso n_av total_days : Z) : Q :=
  Float.div rnd
    (Float.add rnd (Float.of_int rnd day_index) (Float.truediv rnd idx_aviso n_av))
    (Float.of_int rnd total_days).

Definition pct_dia (day_index total_days : Z) : Z :=
  pct_of py (frac_dia day_index total_days).

Definition pct_aviso (day_index idx_aviso n_av total_days : Z) : Z :=
  pct_of py (frac_aviso day_index idx_aviso n_av total_days).

Lemma pct_of_bounds (frac : Q) : 0 <= pct_of py frac <= 100.
Proof. unfold pct_of. lia. Qed.

Lemma pct_of_mono (x y : Q) : (0 <= x)%Q -> (x <= y)%Q -> pct_of py x <= pct_of py y.
Proof.
  intros Hx Hxy. unfold pct_of.
  assert (Hc : (0 <= Float.of_int (BoletinTercera.round py) 100)%Q).
  { apply (round_ge_int rnd Hround 0); [lia|]. now apply inject_Z_nonneg. }
  assert (Float.to_int (Float.mul (BoletinTercera.round py) x
                          (Float.of_int (BoletinTercera.round py) 100))
          <= Float.to_int (Float.mul (BoletinTercera.round py) y
                             (Float.of_int (BoletinTercera.round py) 100))); [|lia].
  apply to_int_mono.
  - apply (round_ge_int rnd Hround 0); [lia|]. now apply Qmult_le_0_compat.
  - apply (round_mono rnd Hround). now apply Qmult_le_compat_r.
Qed.

Section Bounds.
Variables day_index total_days n_av : Z.
Hypothesis Hd : 0 <= day_index /\ day_index + 1 <= 2 ^ 53.
Hypothesis Ht : 0 < total_days <= 2 ^ 53.
Hypothesis Hn : 0 < n_av.

Lemma frac_dia_nonneg : (0 <= frac_dia day_index total_days)%Q.
Proof.
  apply (round_ge_int rnd Hround 0); [lia|]. apply Qdiv_int_nonneg; lia.
Qed.

Lemma frac_dia_next :
  (frac_dia day_index total_days <= frac_dia (day_index + 1) total_days)%Q.
Proof. apply (round_mono rnd Hround). apply Qdiv_int_mono; lia. Qed.

Lemma div_total_mono (x y : Q) :
  (x <= y)%Q -> (x / Float.of_int rnd total_days <= y / Float.of_int rnd total_days)%Q.
Proof.
  intros H. unfold Qdiv. apply Qmult_le_compat_r; [exact H|].
  apply Qinv_le_0_compat. apply (round_ge_int rnd Hround 0); [lia|].
  apply inject_Z_nonneg. lia.
Qed.

Lemma of_int_total : (Float.of_int rnd total_days == inject_Z total_days)%Q.
Proof. apply (round_int rnd Hround). lia. Qed.

Lemma sum_ge (idx : Z) :
  0 <= idx ->
  (inject_Z day_index
   <= Float.add rnd (Float.of_int rnd day_index) (Float.truediv rnd idx n_av))%Q.
Proof.
  intros Hi. apply (round_ge_int rnd Hround); [lia|].
  rewrite <- (Qplus_0_r (inject_Z day_index)) at 1.
  apply Qplus_le_compat.
  - unfold Float.of_int. rewrite (round_int rnd Hround) by lia. apply Qle_refl.
  - apply (round_ge_int rnd Hround 0); [lia|]. apply Qdiv_int_nonneg; lia.
Qed.

Lemma sum_le (idx : Z) :
  idx <= n_av ->
  (Float.add rnd (Float.of_int rnd day_index) (Float.truediv rnd idx n_av)
   <= inject_Z (day_index + 1))%Q.
Proof.
  intros Hi. apply (round_le_int rnd Hround); [lia|].
  rewrite inject_Z_plus. apply Qplus_le_compat.
  - unfold Float.of_int. rewrite (round_int rnd Hround) by lia. apply Qle_refl.
  - apply (round_le_int rnd Hround 1); [lia|]. apply Qdiv_int_le; lia.
Qed.

Lemma frac_aviso_ge (idx : Z) :
  0 <= idx ->
  (frac_dia day_index total_days <= frac_aviso day_index idx n_av total_days)%Q.
Proof.
  intros Hi. unfold frac_dia, frac_aviso, Float.truediv, Float.div.
  apply (round_mono rnd Hround).
  eapply Qle_trans; [|apply div_total_mono, (sum_ge idx Hi)].
  rewrite of_int_total. apply Qle_refl.
Qed.

Lemma frac_aviso_le (idx : Z) :
  idx <= n_av ->
  (frac_aviso day_index idx n_av total_days <= frac_dia (day_index + 1) total_days)%Q.
Proof.
  intros Hi. unfold frac_dia, frac_aviso, Float.truediv, Float.div.
  apply (round_mono rnd Hround).
  eapply Qle_trans; [apply div_total_mono, (sum_le idx Hi)|].
  rewrite of_int_total. apply Qle_refl.
Qed.

Lemma frac_aviso_mono (i j : Z) :
  i <= j ->
  (frac_aviso day_index i n_av total_days <= frac_aviso day_index j n_av total_days)%Q.
Proof.
  intros Hij. unfold frac_aviso, Float.div, Float.add, Float.truediv.
  apply (round_mono rnd Hround). apply div_total_mono.
  apply (round_mono rnd Hround). apply Qplus_le_compat; [apply Qle_refl|].
  apply (round_mono rnd Hround). apply Qdiv_int_mono; lia.
Qed.

Lemma pct_dia_next : pct_dia day_index total_days <= pct_dia (day_index + 1) total_days.
Proof. apply pct_of_mono; [apply frac_dia_nonneg|apply frac_dia_next]. Qed.

Lemma pct_aviso_ge (idx : Z) :
  0 <= idx -> pct_dia day_index total_days <= pct_aviso day_index idx n_av total_days.
Proof. intros Hi. apply pct_of_mono; [apply frac_dia_nonneg|now apply frac_aviso_ge]. Qed.

Lemma pct_aviso_le (idx : Z) :
  0 <= idx <= n_av ->
  pct_aviso day_index idx n_av total_days <= pct_dia (day_index + 1) total_days.
Proof.
  intros Hi. apply pct_of_mono; [|apply frac_aviso_le; lia].
  eapply Qle_trans; [apply frac_dia_nonneg|apply frac_aviso_ge; lia].
Qed.

Lemma pct_aviso_mono (i j : Z) :
  0 <= i <= j ->
  pct_aviso day_index i n_av total_days <= pct_aviso day_index j n_av total_days.
Proof.
  intros Hij. apply pct_of_mono; [|apply frac_aviso_mono; lia].
  eapply Qle_trans; [apply frac_dia_nonneg|apply frac_aviso_ge; lia].
Qed.

End Bounds.
End BoletinProgress.

(** ** The loops of [scrape_boletin_tercera] *)

Section BoletinLoop.
Import Efectos BoletinTercera Fechas.
Variable py : python.
Variable sitio : boletin.
Variable cb : bool.
Variable ic : option (nat -> bool).

(** The record that entry [idx] of the edition of [fecha] gives, if its page
    can be parsed. *)
Definition dato_de (fecha : date) (idx : Z) (aviso : Aviso) : option record :=
  match _parse_aviso sitio fecha idx (url aviso) with
  | Throws _ => None
  | Reply data =>
    Some (<[lit "fecha_edicion" := VStr (fecha_edicion aviso)]>
            (<[lit "titulo_listado" := VStr (titulo_listado aviso)]>
               (of_opt <$> data)))
  end.

Lemma for_avisos_cons (fecha : date) (d T n_av idx : Z) (aviso : Aviso)
    (rest : list (Z * Aviso)) (registros : list record) (n : nat) :
  for_avisos py sitio cb ic fecha d T n_av ((idx, aviso) :: rest) registros n
  = if poll_answer ic n
    then Out (Returns registros) (poll_next ic n) (poll_events ic n)
    else
      match dato_de fecha idx aviso with
      | None =>
        let o := for_avisos py sitio cb ic fecha d T n_av rest registros
                   (poll_next ic n) in
        Out (res o) (polls o) (poll_events ic n ++ events o)
      | Some data =>
        let o := for_avisos py sitio cb ic fecha d T n_av rest (registros ++ [data])
                   (poll_next ic n) in
        Out (res o) (polls o)
          (poll_events ic n ++ Append data
             :: report_events cb (pct_aviso py d idx n_av T) ++ events o)
      end.
Proof.
  simpl. unfold bind. rewrite cancelled_eq. simpl.
  destruct (poll_answer ic n).
  - simpl. now rewrite app_nil_r.
  - unfold dato_de. destruct (_parse_aviso sitio fecha idx (url aviso)).
    + simpl. rewrite report_eq. simpl. reflexivity.
    + reflexivity.
Qed.

Section Avisos.
Variable fecha : date.
Variables d T n_av : Z.

Local Abbreviation loop := (for_avisos py sitio cb ic fecha d T n_av).

Lemma for_avisos_res (avisos : list (Z * Aviso)) (registros : list record) (n : nat) :
  res (loop avisos registros n)
  = Returns (registros ++ appended (events (loop avisos registros n))).
Proof.
  revert registros n.
  induction avisos as [|[idx aviso] rest IH]; intros registros n.
  - simpl. now rewrite app_nil_r.
  - rewrite for_avisos_cons. destruct (poll_answer ic n); simpl.
    + now rewrite appended_poll_events, app_nil_r.
    + destruct (dato_de fecha idx aviso) as [data|]; simpl;
        rewrite IH, appended_app, appended_poll_events; simpl.
      * rewrite appended_app, appended_report_events. simpl.
        now rewrite <- app_assoc.
      * reflexivity.
Qed.

Lemma for_avisos_quiet (avisos : list (Z * Aviso)) (registros : list record) (n : nat) :
  appended (after_cancel (events (loop avisos registros n))) = [].
Proof.
  revert registros n.
  induction avisos as [|[idx aviso] rest IH]; intros registros n; [reflexivity|].
  rewrite for_avisos_cons. destruct (poll_answer ic n) eqn:E; simpl.
  - now rewrite after_cancel_poll_events.
  - destruct (dato_de fecha idx aviso) as [data|]; simpl;
      rewrite after_cancel_unseen by now apply unseen_poll_events.
    + simpl. rewrite after_cancel_unseen; [apply IH|].
      rewrite polled_report_events. apply not_elem_of_nil.
    + apply IH.
Qed.

Lemma for_avisos_plain (avisos : list (Z * Aviso)) (registros : list record) (n : nat) :
  Forall plain (events (loop avisos registros n)).
Proof.
  revert registros n.
  induction avisos as [|[idx aviso] rest IH]; intros registros n; [constructor|].
  rewrite for_avisos_cons. destruct (poll_answer ic n); simpl.
  - apply plain_poll_events.
  - destruct (dato_de fecha idx aviso) as [data|]; simpl.
    + apply Forall_app. split; [apply plain_poll_events|].
      constructor; [exact I|]. apply Forall_app.
      split; [apply plain_report_events|apply IH].
    + apply Forall_app. split; [apply plain_poll_events|apply IH].
Qed.

(** The polls of the loop are the answers of the predicate from the [n]-th
    on. *)
Lemma for_avisos_polls (avisos : list (Z * Aviso)) (registros : list record) (n : nat) :
  let o := loop avisos registros n in
  (n <= polls o)%nat /\
  polled (events o) = map (poll_answer ic) (seq n (polls o - n)).
Proof.
  revert registros n.
  induction avisos as [|[idx aviso] rest IH]; intros registros n.
  - simpl. split; [lia|]. now replace (n - n)%nat with 0%nat by lia.
  - cbv zeta. rewrite for_avisos_cons.
    pose proof (poll_next_le ic n) as Hle.
    destruct (poll_answer ic n); simpl.
    + split; [exact Hle|apply polled_poll_events].
    + destruct (dato_de fecha idx aviso) as [data|]; simpl;
        [destruct (IH (registros ++ [data]) (poll_next ic n)) as [H1 H2]
        |destruct (IH registros (poll_next ic n)) as [H1 H2]];
        cbv zeta in H1, H2; (split; [lia|]);
        rewrite polled_app, polled_poll_events.
      * change (polled (Append data :: ?x)) with (polled x).
        rewrite polled_app, polled_report_events. simpl app. rewrite H2.
        apply polled_chain. lia.
      * rewrite H2. apply polled_chain. lia.
Qed.

(** A cancellation seen in the loop is still there at the next poll, when
    the predicate stays true. *)
Lemma for_avisos_seen (avisos : list (Z * Aviso)) (registros : list record) (n : nat) :
  stays_true ic ->
  let o := loop avisos registros n in
  true ∈ polled (events o) -> poll_answer ic (polls o) = true.
Proof.
  intros Hst o Hin. destruct (for_avisos_polls avisos registros n) as [Hle Hp].
  fold o in Hle, Hp. rewrite Hp in Hin.
  apply list_elem_of_fmap in Hin as (i & Hi & Hin).
  apply list_elem_of_In, in_seq in Hin.
  apply (Hst i); [lia|now symmetry].
Qed.

Hypothesis Hround : rounds_well (float_round py).
Hypothesis Hd : 0 <= d /\ d + 1 <= 2 ^ 53.
Hypothesis Ht : 0 < T <= 2 ^ 53.
Hypothesis Hn : 0 < n_av.

Lemma for_avisos_climbs (start : Z) (l : list Aviso) (registros : list record)
    (n : nat) :
  0 <= start -> start + Z.of_nat (length l) - 1 <= n_av ->
  climbs (pct_aviso py d start n_av T) (pct_dia py (d + 1) T)
    (progress_of (events (loop (enumerate start l) registros n))).
Proof.
  revert start registros n.
  induction l as [|aviso rest IH]; intros start registros n Hs Hlen;
    [apply climbs_nil|].
  simpl enumerate. rewrite for_avisos_cons. simpl length in Hlen.
  pose proof (pct_aviso_mono py Hround d T n_av Hd Ht Hn start (start + 1)
                ltac:(lia)) as Hm.
  pose proof (pct_aviso_le py Hround d T n_av Hd Ht Hn start ltac:(lia)) as Hle.
  destruct (poll_answer ic n); simpl.
  - rewrite progress_poll_events. apply climbs_nil.
  - destruct (dato_de fecha start aviso) as [data|]; simpl;
      rewrite progress_of_app, progress_poll_events; simpl.
    + rewrite progress_of_app.
      eapply climbs_weaken;
        [eapply climbs_join;
           [apply climbs_report|apply (IH (start + 1)); lia|exact Hm]
        |lia|lia].
    + eapply climbs_weaken; [apply (IH (start + 1)); lia|exact Hm|lia].
Qed.

End Avisos.
End BoletinLoop.

Section BoletinTurn.
Import Efectos BoletinTercera Fechas.
Variable py : python.
Variable sitio : boletin.
Variable end_date : date.
Variable cb : bool.
Variable ic : option (nat -> bool).

Local Abbreviation while_ := (while_fechas py sitio end_date cb ic).

(** One turn of [while fecha_actual <= end_date]. *)
Lemma while_fechas_S (fuel : nat) (T : Z) (fecha : date) (d : Z)
    (registros : list record) (n : nat) :
  while_ (S fuel) T fecha d registros n
  = if negb (fecha <=? end_date) then Out (Returns registros) n []
    else if poll_answer ic n
    then Out (Returns registros) (poll_next ic n) (poll_events ic n)
    else
      let n1 := poll_next ic n in
      let avisos := _get_listado_avisos sitio fecha in
      match avisos with
      | [] =>
        let evs := poll_events ic n ++ report_events cb (pct_dia py (d + 1) T) in
        if MAXORDINAL <? fecha + 1 then Out (Raises OverflowError) n1 evs
        else
          let o := while_ fuel T (fecha + 1) (d + 1) registros n1 in
          Out (res o) (polls o) (evs ++ events o)
      | _ =>
        let fo := for_avisos py sitio cb ic fecha d T (Z.of_nat (length avisos))
                    (enumerate 1 avisos) registros n1 in
        let registros' := registros ++ appended (events fo) in
        let n2 := polls fo in
        let evs := poll_events ic n ++ events fo ++ poll_events ic n2 in
        if poll_answer ic n2 then Out (Returns registros') (poll_next ic n2) evs
        else if MAXORDINAL <? fecha + 1
        then Out (Raises OverflowError) (poll_next ic n2) evs
        else
          let o := while_ fuel T (fecha + 1) (d + 1) registros' (poll_next ic n2) in
          Out (res o) (polls o) (evs ++ events o)
      end.
Proof.
  cbn [while_fechas].
  destruct (negb (fecha <=? end_date)); [reflexivity|].
  rewrite bind_eq, cancelled_eq. cbn [res polls events].
  destruct (poll_answer ic n); [cbn [ret res polls events]; now rewrite app_nil_r|].
  cbv zeta.
  destruct (_get_listado_avisos sitio fecha) as [|a avisos] eqn:Hav.
  - change (Z.of_nat (length (@nil Aviso)) =? 0) with true. cbv iota.
    rewrite bind_eq, report_eq. cbn [res polls events].
    rewrite bind_eq. unfold next_day.
    destruct (MAXORDINAL <? fecha + 1); cbn [raise ret res polls events].
    + now rewrite !app_nil_r.
    + fold (pct_dia py (d + 1) T).
      set (o := while_ fuel T (fecha + 1) (d + 1) registros (poll_next ic n)).
      destruct (res o); simpl; now rewrite ?app_assoc.
  - replace (Z.of_nat (length (a :: avisos)) =? 0) with false
      by (symmetry; apply Z.eqb_neq; simpl length; lia).
    cbv iota. rewrite bind_eq.
    set (fo := for_avisos py sitio cb ic fecha d T (Z.of_nat (length (a :: avisos)))
                 (enumerate 1 (a :: avisos)) registros (poll_next ic n)).
    pose proof (for_avisos_res py sitio cb ic fecha d T
                  (Z.of_nat (length (a :: avisos))) (enumerate 1 (a :: avisos))
                  registros (poll_next ic n)) as Hres.
    fold fo in Hres. rewrite Hres. cbv zeta.
    rewrite bind_eq, cancelled_eq. cbn [res polls events].
    destruct (poll_answer ic (polls fo)); cbn [ret res polls events].
    + now rewrite !app_nil_r.
    + rewrite bind_eq. unfold next_day.
      destruct (MAXORDINAL <? fecha + 1); cbn [raise ret res polls events].
      * now rewrite !app_nil_r.
      * set (o := while_ fuel T (fecha + 1) (d + 1) _ _).
        destruct (res o); simpl; now rewrite <- ?app_assoc.
Qed.

End BoletinTurn.

Ltac while_turn sitio end_date ic fecha n fo :=
  rewrite while_fechas_S;
  destruct (negb (fecha <=? end_date)) eqn:Hc;
    [|destruct (poll_answer ic n) eqn:Hp;
      [|cbv zeta;
        destruct (BoletinTercera._get_listado_avisos sitio fecha) as [|a avs] eqn:Hav;
        [destruct (Fechas.MAXORDINAL <? fecha + 1) eqn:Hmax
        |match goal with
         | |- context [BoletinTercera.for_avisos ?py ?s ?cb ?ic ?f ?d ?T ?k ?l ?r ?m] =>
           set (fo := BoletinTercera.for_avisos py s cb ic f d T k l r m) in *
         end;
         destruct (poll_answer ic (Efectos.polls fo)) eqn:Hp2;
           [|destruct (Fechas.MAXORDINAL <? fecha + 1) eqn:Hmax]]]];
  cbn [Efectos.res Efectos.polls Efectos.events].

Section BoletinWhile.
Import Efectos BoletinTercera Fechas.
Variable py : python.
Variable sitio : boletin.
Variable end_date : date.
Variable cb : bool.
Variable ic : option (nat -> bool).

Local Abbreviation while_ := (while_fechas py sitio end_date cb ic).

Lemma while_res (fuel : nat) (T : Z) (fecha : date) (d : Z) (registros : list record)
    (n : nat) :
  let o := while_ fuel T fecha d registros n in
  res o = OutOfFuel \/ res o = Raises OverflowError \/
  res o = Returns (registros ++ appended (events o)).
Proof.
  revert fecha d registros n.
  induction fuel as [|fuel IH]; intros fecha d registros n; [now left|].
  cbv zeta. while_turn sitio end_date ic fecha n fo;
    rewrite ?appended_app, ?appended_poll_events, ?appended_report_events,
      ?app_nil_r; simpl app.
  - right. right. now rewrite ?app_nil_r.
  - right. right. now rewrite ?app_nil_r.
  - right. now left.
  - apply IH.
  - right. right. reflexivity.
  - right. now left.
  - rewrite app_assoc. apply IH.
Qed.

Lemma while_plain (fuel : nat) (T : Z) (fecha : date) (d : Z) (registros : list record)
    (n : nat) :
  Forall plain (events (while_ fuel T fecha d registros n)).
Proof.
  revert fecha d registros n.
  induction fuel as [|fuel IH]; intros fecha d registros n; [constructor|].
  while_turn sitio end_date ic fecha n fo; try subst fo;
    repeat (apply Forall_app; split);
    auto using Forall_nil, plain_poll_events, plain_report_events, for_avisos_plain.
Qed.

Lemma while_fuel (fuel : nat) (T : Z) (fecha : date) (d : Z) (registros : list record)
    (n : nat) :
  (Z.to_nat (end_date - fecha + 1) < fuel)%nat ->
  res (while_ fuel T fecha d registros n) <> OutOfFuel.
Proof.
  revert fecha d registros n.
  induction fuel as [|fuel IH]; intros fecha d registros n Hfuel; [lia|].
  while_turn sitio end_date ic fecha n fo; try discriminate;
    apply negb_false_iff, Z.leb_le in Hc; apply IH; lia.
Qed.

Hypothesis Hstay : stays_true ic.

Lemma unseen_false (n : nat) (evs : list event) :
  poll_answer ic n = false -> true ∉ polled evs ->
  true ∉ polled (poll_events ic n ++ evs).
Proof.
  intros Hp Hun H. rewrite polled_app in H.
  apply elem_of_app in H as [H|H]; [|tauto].
  now apply (unseen_poll_events ic n Hp).
Qed.

Lemma unseen_report (p : Z) (evs : list event) :
  true ∉ polled evs -> true ∉ polled (report_events cb p ++ evs).
Proof. intros H. now rewrite polled_app, polled_report_events. Qed.

(** After a cancellation nothing is appended, and the loop returns. *)
Lemma while_quiet (fuel : nat) (T : Z) (fecha : date) (d : Z) (registros : list record)
    (n : nat) :
  let o := while_ fuel T fecha d registros n in
  appended (after_cancel (events o)) = [] /\
  (true ∈ polled (events o) -> res o = Returns (registros ++ appended (events o))).
Proof.
  revert fecha d registros n.
  induction fuel as [|fuel IH]; intros fecha d registros n.
  { split; [reflexivity|]. intros H. now apply elem_of_nil in H. }
  cbv zeta. while_turn sitio end_date ic fecha n fo.
  - split; [reflexivity|]. intros H. now apply elem_of_nil in H.
  - rewrite after_cancel_poll_events, appended_poll_events, app_nil_r.
    split; reflexivity.
  - assert (Hun : true ∉ polled (poll_events ic n
                                  ++ report_events cb (pct_dia py (d + 1) T))).
    { rewrite <- (app_nil_r (report_events _ _)).
      apply unseen_false; [exact Hp|]. apply unseen_report, not_elem_of_nil. }
    rewrite (after_cancel_none _ Hun). split; [reflexivity|tauto].
  - destruct (IH (fecha + 1) (d + 1) registros (poll_next ic n)) as [IH1 IH2].
    assert (Hun : true ∉ polled (poll_events ic n
                                  ++ report_events cb (pct_dia py (d + 1) T))).
    { rewrite <- (app_nil_r (report_events _ _)).
      apply unseen_false; [exact Hp|]. apply unseen_report, not_elem_of_nil. }
    rewrite (after_cancel_unseen _ _ Hun). split; [exact IH1|].
    intros H. rewrite polled_app in H. apply elem_of_app in H as [H|H]; [tauto|].
    rewrite (IH2 H).
    now rewrite !appended_app, appended_poll_events, appended_report_events.
  - rewrite (after_cancel_unseen _ _ (unseen_poll_events ic n Hp)).
    split.
    + destruct (decide (true ∈ polled (events fo))) as [Hin|Hout].
      * rewrite (after_cancel_seen _ _ Hin), appended_app, appended_poll_events,
          app_nil_r. apply for_avisos_quiet.
      * rewrite (after_cancel_unseen _ _ Hout).
        now rewrite after_cancel_poll_events.
    + intros _. rewrite !appended_app, !appended_poll_events, app_nil_r.
      reflexivity.
  - assert (Hout : true ∉ polled (events fo)).
    { intros Hin. apply (for_avisos_seen py sitio cb ic) in Hin; [|exact Hstay].
      fold fo in Hin. congruence. }
    assert (Hun : true ∉ polled (poll_events ic n ++ events fo
                                  ++ poll_events ic (polls fo))).
    { apply unseen_false; [exact Hp|]. rewrite polled_app.
      intros H. apply elem_of_app in H as [H|H]; [tauto|].
      now apply (unseen_poll_events ic _ Hp2). }
    rewrite (after_cancel_none _ Hun). split; [reflexivity|tauto].
  - assert (Hout : true ∉ polled (events fo)).
    { intros Hin. apply (for_avisos_seen py sitio cb ic) in Hin; [|exact Hstay].
      fold fo in Hin. congruence. }
    assert (Hun : true ∉ polled (poll_events ic n ++ events fo
                                  ++ poll_events ic (polls fo))).
    { apply unseen_false; [exact Hp|]. rewrite polled_app.
      intros H. apply elem_of_app in H as [H|H]; [tauto|].
      now apply (unseen_poll_events ic _ Hp2). }
    destruct (IH (fecha + 1) (d + 1) (registros ++ appended (events fo))
                (poll_next ic (polls fo))) as [IH1 IH2].
    rewrite (after_cancel_unseen _ _ Hun). split; [exact IH1|].
    intros H. rewrite polled_app in H. apply elem_of_app in H as [H|H]; [tauto|].
    rewrite (IH2 H).
    rewrite !appended_app, !appended_poll_events, app_nil_r. simpl app.
    now rewrite app_assoc.
Qed.

End BoletinWhile.

Section BoletinRun.
Import Efectos BoletinTercera Fechas.
Variable py : python.
Variable sitio : boletin.
Variable cb : bool.
Variable ic : option (nat -> bool).

Section Climbs.
Variable end_date : date.
Hypothesis Hround : rounds_well (float_round py).

Lemma while_climbs (fuel : nat) (T : Z) (fecha : date) (d : Z)
    (registros : list record) (n : nat) :
  0 <= d -> d + (end_date - fecha) + 1 <= 2 ^ 53 -> 0 < T <= 2 ^ 53 ->
  climbs (pct_dia py d T) 100
    (progress_of (events (while_fechas py sitio end_date cb ic fuel T fecha d
                            registros n))).
Proof.
  intros Hd0 Hd1 Ht. revert fecha d registros n Hd0 Hd1.
  induction fuel as [|fuel IH]; intros fecha d registros n Hd0 Hd1;
    [apply climbs_nil|].
  while_turn sitio end_date ic fecha n fo;
    try (apply negb_false_iff, Z.leb_le in Hc);
    rewrite ?progress_of_app, ?progress_poll_events, ?app_nil_r; simpl app;
    try apply climbs_nil.
  all: assert (Hd : 0 <= d /\ d + 1 <= 2 ^ 53) by lia.
  all: pose proof (pct_dia_next py Hround d T Hd Ht) as Hnext.
  all: pose proof (pct_of_bounds py (frac_dia py (d + 1) T)) as Hb;
    fold (pct_dia py (d + 1) T) in Hb.
  1: { eapply climbs_weaken; [apply climbs_report|lia|lia]. }
  1: { eapply climbs_weaken;
         [eapply climbs_join;
            [apply climbs_report|apply (IH (fecha + 1) (d + 1)); lia|lia]
         |lia|lia]. }
  all: assert (Hn : 0 < Z.of_nat (length (a :: avs))) by (simpl length; lia).
  all: pose proof (for_avisos_climbs py sitio cb ic fecha d T
                     (Z.of_nat (length (a :: avs))) Hround Hd Ht Hn 1 (a :: avs)
                     registros (poll_next ic n) ltac:(lia) ltac:(lia)) as Hfo;
    fold fo in Hfo.
  all: pose proof (pct_aviso_ge py Hround d T (Z.of_nat (length (a :: avs)))
                     Hd Ht Hn 1 ltac:(lia)) as Hge.
  - eapply climbs_weaken; [exact Hfo|lia|lia].
  - eapply climbs_weaken; [exact Hfo|lia|lia].
  - eapply climbs_weaken;
      [eapply climbs_join; [exact Hfo|apply (IH (fecha + 1) (d + 1)); lia|lia]
      |lia|lia].
Qed.

End Climbs.

Variable start_date end_date : date.
Variable output_dir : Py.str.

Definition boletin_filename : Py.str :=
  lit "contrataciones_tercera_" ++ strftime_Ymd (strftime_Y py) start_date
  ++ lit "_" ++ strftime_Ymd (strftime_Y py) end_date ++ lit ".xlsx".

(** A run: the check of the range, the loop over the days, the export. *)
Lemma scrape_boletin_tercera_run (n : nat) :
  let o := scrape_boletin_tercera py sitio start_date end_date output_dir cb ic n in
  if end_date <? start_date then o = Out (Raises ValueError) n []
  else
    let T := end_date - start_date + 1 in
    let wo := while_fechas py sitio end_date cb ic (S (Z.to_nat T)) T start_date 0
                [] n in
    (res wo = Raises OverflowError /\ res o = Raises OverflowError /\
     events o = events wo) \/
    (res wo = Returns (appended (events wo)) /\
     res o = export_result py (appended (events wo)) /\
     events o
     = events wo
       ++ export_events py output_dir boletin_filename (appended (events wo))).
Proof.
  cbv zeta. unfold scrape_boletin_tercera.
  destruct (end_date <? start_date) eqn:Hlt; [reflexivity|].
  apply Z.ltb_ge in Hlt.
  replace (end_date - start_date + 1 <=? 0) with false
    by (symmetry; apply Z.leb_gt; lia).
  rewrite bind_eq.
  set (wo := while_fechas py sitio end_date cb ic _ _ start_date 0 [] n).
  pose proof (while_res py sitio end_date cb ic
                (S (Z.to_nat (end_date - start_date + 1)))
                (end_date - start_date + 1) start_date 0 [] n) as Hres.
  pose proof (while_fuel py sitio end_date cb ic
                (S (Z.to_nat (end_date - start_date + 1)))
                (end_date - start_date + 1) start_date 0 [] n ltac:(lia)) as Hfuel.
  cbv zeta in Hres. fold wo in Hres, Hfuel. simpl app in Hres.
  destruct Hres as [Hres|[Hres|Hres]]; [congruence| |]; rewrite Hres.
  - left. repeat split.
  - right. split; [reflexivity|]. unfold boletin_filename.
    destruct (appended (events wo)) as [|r rs]; cbv zeta.
    + cbn [ret res polls events app]. rewrite ?app_nil_r. split; reflexivity.
    + unfold bind. rewrite df_to_excel_eq.
      unfold export_result.
      destruct (export_error py (r :: rs)) as [e|];
        cbn [ret res polls events app]; rewrite ?app_nil_r; split; reflexivity.
Qed.

End BoletinRun.

(** ** C1: a row whose detail cannot be had *)

Section DetailFailure.
Import Efectos.











End DetailFailure.







(** ** The registered adapters *)

Section Registry.
Import Efectos Scrapers.
Variable w : mundo.

Lemma registry_keys_differ :
  lit "boletin_tercera" <> lit "comprar_tics" /\
  lit "boletin_tercera" <> lit "comprar_tics_robot" /\
  lit "comprar_tics" <> lit "comprar_tics_robot".
Proof. repeat split; intros H; vm_compute in H; discriminate H. Qed.

Lemma registry_lookup :
  SCRAPERS_REGISTRY w !! lit "boletin_tercera" = Some (scrape_boletin_tercera w) /\
  SCRAPERS_REGISTRY w !! lit "comprar_tics" = Some (scrape_comprar_tics w) /\
  SCRAPERS_REGISTRY w !! lit "comprar_tics_robot" = Some (scrape_comprar_tics_robot w).
Proof.
  destruct registry_keys_differ as (H12 & H13 & H23).
  unfold SCRAPERS_REGISTRY, dict_of. cbn [fold_left fst snd]. split; [|split].
  - rewrite lookup_insert_ne by congruence. rewrite lookup_insert_ne by congruence.
    apply lookup_insert_eq.
  - rewrite lookup_insert_ne by congruence. apply lookup_insert_eq.
  - apply lookup_insert_eq.
Qed.

(** The registry holds the three adapters and nothing else. *)
Lemma registry_cases (key : Py.str) (f : ScraperFunc) :
  SCRAPERS_REGISTRY w !! key = Some f ->
  (key = lit "boletin_tercera" /\ f = scrape_boletin_tercera w) \/
  (key = lit "comprar_tics" /\ f = scrape_comprar_tics w) \/
  (key = lit "comprar_tics_robot" /\ f = scrape_comprar_tics_robot w).
Proof.
  unfold SCRAPERS_REGISTRY, dict_of. cbn [fold_left fst snd].
  rewrite !lookup_insert_Some, lookup_empty.
  intros [[<- <-]|[_ [[<- <-]|[_ [[<- <-]|[_ H]]]]]];
    [right; right|right; left|left|discriminate H]; split; reflexivity.
Qed.

End Registry.

(** ** What follows the loops *)

Section Tails.
Import Efectos.


End Tails.

(** ** Displays *)

Section DictFacts.
Import Efectos.
Context {V : Type}.

Lemma fold_insert_notin (items : list (str * V)) (k : str) :
  forall m : gmap str V,
    k ∉ items.*1 ->
    fold_left (fun m kv => <[kv.1 := kv.2]> m) items m !! k = m !! k.
Proof.
  induction items as [|[k' v'] items IH]; intros m Hk; [reflexivity|].
  cbn [fold_left fst snd]. cbn [fmap list_fmap fst] in Hk.
  apply not_elem_of_cons in Hk as [Hne Hk].
  rewrite (IH _ Hk). now apply lookup_insert_ne.
Qed.

(** A display with distinct keys maps each key to its value. *)
Lemma dict_of_lookup (items : list (str * V)) (i : nat) (k : str) (v : V) :
  NoDup items.*1 -> items !! i = Some (k, v) -> dict_of items !! k = Some v.
Proof.
  unfold dict_of. generalize (∅ : gmap str V). revert i.
  induction items as [|[k' v'] items IH]; intros i m Hnd Hi; [discriminate Hi|].
  cbn [fmap list_fmap fst] in Hnd. apply NoDup_cons in Hnd as [Hk' Hnd].
  cbn [fold_left fst snd]. destruct i as [|i].
  - injection Hi as -> ->. rewrite (fold_insert_notin _ _ _ Hk').
    apply lookup_insert_eq.
  - exact (IH i _ Hnd Hi).
Qed.

Lemma dict_of_dom (items : list (str * V)) :
  dom (dict_of items) = (list_to_set items.*1 : gset str).
Proof.
  unfold dict_of.
  assert (H : forall m : gmap str V,
             dom (fold_left (fun m kv => <[kv.1 := kv.2]> m) items m)
             = (list_to_set items.*1 ∪ dom m : gset str)).
  { induction items as [|[k v] items IH]; intros m.
    - cbn [fold_left fmap list_fmap list_to_set]. set_solver.
    - cbn [fold_left fst snd fmap list_fmap list_to_set].
      rewrite IH, dom_insert_L. set_solver. }
  rewrite H, dom_empty_L. set_solver.
Qed.

(** A display whose values are given by their keys. *)
Lemma fold_insert_functional (f : str -> option V) (items : list (str * V)) (k : str) :
  forall m : gmap str V,
    (forall k v, (k, v) ∈ items -> f k = Some v) ->
    fold_left (fun m kv => <[kv.1 := kv.2]> m) items m !! k
    = if decide (k ∈ items.*1) then f k else m !! k.
Proof.
  induction items as [|[k' v'] items IH]; intros m Hf.
  - cbn [fold_left]. rewrite decide_False; [reflexivity|apply not_elem_of_nil].
  - cbn [fold_left fst snd]. rewrite IH.
    2:{ intros k0 v0 H0. apply Hf. now right. }
    cbn [fmap list_fmap fst].
    destruct (decide (k ∈ items.*1)) as [Hin|Hin].
    + rewrite decide_True; [reflexivity|now right].
    + destruct (decide (k = k')) as [->|Hne].
      * rewrite decide_True by now left. rewrite lookup_insert_eq.
        symmetry. apply Hf. now left.
      * rewrite decide_False.
        -- now rewrite lookup_insert_ne.
        -- intros H. apply elem_of_cons in H as [H|H]; contradiction.
Qed.

Lemma dict_of_functional (f : str -> option V) (items : list (str * V)) (k : str) :
  (forall k v, (k, v) ∈ items -> f k = Some v) ->
  dict_of items !! k = if decide (k ∈ items.*1) then f k else None.
Proof.
  intros Hf. unfold dict_of. now rewrite (fold_insert_functional f items k ∅ Hf).
Qed.

Lemma dict_of_lookup_elem (items : list (str * V)) (k : str) (v : V) :
  dict_of items !! k = Some v -> (k, v) ∈ items.
Proof.
  unfold dict_of.
  assert (H : forall m : gmap str V,
             fold_left (fun m kv => <[kv.1 := kv.2]> m) items m !! k = Some v ->
             (k, v) ∈ items \/ m !! k = Some v).
  { induction items as [|[k' v'] items IH]; intros m Hm; [now right|].
    cbn [fold_left fst snd] in Hm. destruct (IH _ Hm) as [Hin|Hin].
    - left. now right.
    - destruct (decide (k = k')) as [->|Hne].
      + rewrite lookup_insert_eq in Hin. injection Hin as ->. left. now left.
      + rewrite lookup_insert_ne in Hin by congruence. now right. }
  intros Hk. destruct (H _ Hk) as [Hin|Hin]; [exact Hin|].
  rewrite lookup_empty in Hin. discriminate Hin.
Qed.

End DictFacts.

(** ** The polls of a run *)

Section Accounting.
Import Efectos.
Variable ic : option (nat -> bool).

(** A computation accounts for its polls when the answers in its trace are
    those of the cancel predicate, one after the other, from the poll it
    started at to the poll it ended at. *)
Definition accounts {A : Type} (m : M A) : Prop :=
  forall n,
    (n <= polls (m n))%nat /\
    polled (events (m n)) = map (poll_answer ic) (seq n (polls (m n) - n)).

Lemma accounts_still {A : Type} (r : result A) (evs : list event) :
  polled evs = [] -> accounts (fun n => Out r n evs).
Proof.
  intros H n. simpl. split; [lia|].
  now replace (n - n)%nat with 0%nat by lia.
Qed.

Lemma accounts_ret {A : Type} (a : A) : accounts (ret a).
Proof. now apply accounts_still. Qed.

Lemma accounts_raise {A : Type} (e : Py.exn) : accounts (@raise A e).
Proof. now apply accounts_still. Qed.

Lemma accounts_out_of_fuel {A : Type} : accounts (@out_of_fuel A).
Proof. now apply accounts_still. Qed.

Lemma accounts_call {A : Type} (r : reply A) : accounts (call r).
Proof. destruct r; [apply accounts_ret|apply accounts_raise]. Qed.

Lemma accounts_emit (e : event) :
  match e with Poll _ => False | _ => True end -> accounts (emit e).
Proof. intros H. apply accounts_still. now destruct e. Qed.

Lemma accounts_report (cb : bool) (p : Z) : accounts (report cb p).
Proof. destruct cb; [now apply accounts_emit|apply accounts_ret]. Qed.

Lemma accounts_df_to_excel (py : python) (dir file : Py.str) (df : list record) :
  accounts (df_to_excel py dir file df).
Proof.
  unfold df_to_excel, bind, call.
  destruct (to_excel py); now apply accounts_still.
Qed.

Lemma accounts_cancelled : accounts (cancelled ic).
Proof.
  intros n. rewrite cancelled_eq. simpl.
  split; [apply poll_next_le|apply polled_poll_events].
Qed.

Lemma accounts_bind {A B : Type} (m : M A) (k : A -> M B) :
  accounts m -> (forall a, accounts (k a)) -> accounts (bind m k).
Proof.
  intros Hm Hk n. rewrite bind_eq. destruct (Hm n) as [H1 H2].
  destruct (res (m n)) as [a|e|]; cbn [res polls events]; [|now split..].
  destruct (Hk a (polls (m n))) as [H3 H4]. split; [lia|].
  rewrite polled_app, H2, H4. apply polled_chain. lia.
Qed.

Lemma accounts_finally {A : Type} (body : M A) (cleanup : M unit) :
  accounts body -> accounts cleanup -> accounts (finally body cleanup).
Proof.
  intros Hb Hc n. unfold finally. cbn [res polls events].
  destruct (Hb n) as [H1 H2]. destruct (Hc (polls (body n))) as [H3 H4].
  split; [lia|]. rewrite polled_app, H2, H4. apply polled_chain. lia.
Qed.

End Accounting.

Ltac accounting known :=
  repeat first
    [ known
    | apply accounts_ret | apply accounts_raise | apply accounts_out_of_fuel
    | apply accounts_call | apply accounts_report | apply accounts_cancelled
    | apply accounts_df_to_excel
    | apply accounts_emit; exact I
    | apply accounts_bind; [|intros ?]
    | apply accounts_finally
    | match goal with
      | |- accounts _ (if ?b then _ else _) => destruct b
      | |- accounts _ (match ?x with _ => _ end) => destruct x
      end ].

Section AdaptersAccount.
Import Efectos Fechas.
Variable py : python.
Variable cb : bool.
Variable ic : option (nat -> bool).

Lemma for_rows_accounts (web : Comprar.sitio) (total : Z)
    (rows : list (Z * Comprar.ListRow)) (records : list record) :
  accounts ic (Comprar.for_rows py web cb ic total rows records).
Proof.
  revert records. induction rows as [|[idx row] rest IH]; intros records;
    cbn [Comprar.for_rows]; accounting ltac:(apply IH).
Qed.

Lemma scrape_comprar_tics_accounts (web : Comprar.sitio) (start_date end_date : date)
    (output_dir : Py.str) :
  accounts ic (Comprar.scrape_comprar_tics py web start_date end_date output_dir cb ic).
Proof.
  unfold Comprar.scrape_comprar_tics. accounting ltac:(apply for_rows_accounts).
Qed.

Lemma for_filas_accounts (nav : ComprarBot.navegador) (pagina : Z)
    (filas : list (Z * ComprarBot.Fila)) (registros : list record) (total : Z) :
  accounts ic (ComprarBot.for_filas py nav cb ic pagina filas registros total).
Proof.
  revert registros total. induction filas as [|[idx fila] rest IH];
    intros registros total; cbn [ComprarBot.for_filas]; accounting ltac:(apply IH).
Qed.

Lemma paginas_accounts (nav : ComprarBot.navegador) (max_paginas : option Z)
    (fuel : nat) (pagina : Z) (registros : list record) (total : Z) :
  accounts ic (ComprarBot.paginas py nav max_paginas cb ic fuel pagina registros total).
Proof.
  revert pagina registros total. induction fuel as [|fuel IH];
    intros pagina registros total; cbn [ComprarBot.paginas];
    accounting ltac:(first [apply for_filas_accounts|apply IH]).
Qed.

Lemma scrape_comprar_tics_robot_accounts (nav : ComprarBot.navegador) (fuel : nat)
    (start_date end_date : date) (output_dir : Py.str) :
  accounts ic (ComprarBot.scrape_comprar_tics_robot py nav fuel start_date end_date
                 output_dir cb ic).
Proof.
  unfold ComprarBot.scrape_comprar_tics_robot, ComprarBot.ejecutar_robot.
  accounting ltac:(apply paginas_accounts).
Qed.

Lemma for_avisos_accounts (sitio : BoletinTercera.boletin) (fecha : date)
    (d T n_av : Z) (avisos : list (Z * BoletinTercera.Aviso)) (registros : list record) :
  accounts ic (BoletinTercera.for_avisos py sitio cb ic fecha d T n_av avisos registros).
Proof.
  revert registros. induction avisos as [|[idx aviso] rest IH]; intros registros;
    cbn [BoletinTercera.for_avisos]; accounting ltac:(apply IH).
Qed.

Lemma while_fechas_accounts (sitio : BoletinTercera.boletin) (end_date : date)
    (fuel : nat) (T : Z) (fecha : date) (d : Z) (registros : list record) :
  accounts ic (BoletinTercera.while_fechas py sitio end_date cb ic fuel T fecha d
                 registros).
Proof.
  revert fecha d registros. induction fuel as [|fuel IH]; intros fecha d registros;
    cbn [BoletinTercera.while_fechas]; unfold BoletinTercera.next_day;
    accounting ltac:(first [apply for_avisos_accounts|apply IH]).
Qed.

Lemma scrape_boletin_tercera_accounts (sitio : BoletinTercera.boletin)
    (start_date end_date : date) (output_dir : Py.str) :
  accounts ic (BoletinTercera.scrape_boletin_tercera py sitio start_date end_date
                 output_dir cb ic).
Proof.
  unfold BoletinTercera.scrape_boletin_tercera.
  accounting ltac:(apply while_fechas_accounts).
Qed.

End AdaptersAccount.

(** Every registered adapter accounts for its polls. *)
Lemma registered_accounts (w : Scrapers.mundo) (key : Py.str) (f : Scrapers.ScraperFunc)
    (start_date end_date : Fechas.date) (output_dir : Py.str) (cb : bool)
    (ic : option (nat -> bool)) :
  Scrapers.SCRAPERS_REGISTRY w !! key = Some f ->
  accounts ic (f start_date end_date output_dir cb ic).
Proof.
  intros Hf. destruct (registry_cases w key f Hf) as [[_ ->]|[[_ ->]|[_ ->]]].
  - apply scrape_boletin_tercera_accounts.
  - apply scrape_comprar_tics_accounts.
  - apply scrape_comprar_tics_robot_accounts.
Qed.

(** ** The polls before the records *)

Section Guards.
Import Efectos.







Variable answers : nat -> bool.
















End Guards.


Section AdaptersAsk.
Import Efectos Fechas.
Variable py : python.
Variable cb : bool.
Variable answers : nat -> bool.

Local Abbreviation ic := (Some answers).









End AdaptersAsk.


(** ** The spreadsheet and its name *)

Section Names.
Import Efectos Fechas.

(** Two decimal digits that read [n]. *)
Definition two_digits (n : Z) (s : Py.str) : Prop :=
  exists a b, 0 <= a <= 9 /\ 0 <= b <= 9 /\ n = 10 * a + b /\
              s = [Z.to_N (48 + a); Z.to_N (48 + b)].

(** The text of a date: the year as the C library writes [%Y], then the
    month and the day of the date in two digits each. *)
Definition date_text (py : python) (d : date) (s : Py.str) : Prop :=
  exists y m dd M D,
    ord2ymd d = (y, m, dd) /\ 1 <= m <= 12 /\ 1 <= dd <= 31 /\
    two_digits m M /\ two_digits dd D /\ s = strftime_Y py y ++ M ++ D.

(** The stems of the names of the spreadsheets, by the key of the adapter. *)
Definition nombres : list (Py.str * Py.str) :=
  [ (lit "boletin_tercera", lit "contrataciones_tercera_");
    (lit "comprar_tics", lit "comprar_tics_");
    (lit "comprar_tics_robot", lit "comprar_selenium_") ].

(** The name of the spreadsheet of the adapter [key]: its stem, the first
    date of the range, an underscore, the last date, and [.xlsx]. *)
Definition names_range (py : python) (key : Py.str) (start_date end_date : date)
    (file : Py.str) : Prop :=
  exists stem desde hasta,
    (key, stem) ∈ nombres /\
    date_text py start_date desde /\ date_text py end_date hasta /\
    file = stem ++ desde ++ lit "_" ++ hasta ++ lit ".xlsx".

(** The columns of the spreadsheet of the robot, each with the field of the
    record that it shows. *)
Definition columnas_planilla : list (Py.str * Py.str) :=
  [ (lit "Número proceso", lit "numero_proceso");
    (lit "Expediente", lit "expediente");
    (lit "Nombre proceso", lit "nombre_proceso");
    (lit "Tipo de Proceso", lit "tipo_proceso");
    (lit "Fecha de apertura", lit "fecha_apertura");
    (lit "Estado", lit "estado");
    (lit "Unidad Ejecutora", lit "unidad_ejecutora");
    (lit "Servicio Administrativo Financiero", lit "saf");
    (lit "Detalle de productos o servicios", lit "detalle_productos");
    (lit "Pliego N°", lit "pliego_nombre");
    (lit "LINK", lit "url_detalle");
    (lit "Es TIC", lit "es_tic") ].

(** A row of the spreadsheet of the robot: these columns and no other, each
    with the value that the record has in its field, [None] when it has
    none. *)
Definition robot_row (registro fila : record) : Prop :=
  (forall col, is_Some (fila !! col) <-> col ∈ columnas_planilla.*1) /\
  (forall col campo, (col, campo) ∈ columnas_planilla ->
     fila !! col = Some (default VNone (registro !! campo))).

(** The rows of the spreadsheet of the adapter [key]: the records, shown
    in the columns above by the robot and as they are by the others. *)
Definition sheet_rows (key : Py.str) (records rows : list record) : Prop :=
  (key = lit "comprar_tics_robot" -> Forall2 robot_row records rows) /\
  (key <> lit "comprar_tics_robot" -> rows = records).

(** The month and the day of the year, given the day in the year and whether
    the year is a leap year, as [_ord2ymd] finds them. *)
Definition month_day (n : Z) (leapyear : bool) : Z * Z :=
  let month := Z.shiftr (n + 50) 5 in
  let preceding :=
    nth (Z.to_nat month) DAYS_BEFORE_MONTH 0
    + (if (2 <? month) && leapyear then 1 else 0) in
  if n <? preceding then
    let month := month - 1 in
    let preceding :=
      preceding - (nth (Z.to_nat month) DAYS_IN_MONTH 0
                   + (if (month =? 2) && leapyear then 1 else 0)) in
    (month, n - preceding + 1)
  else (month, n - preceding + 1).

Definition in_calendar (md : Z * Z) : bool :=
  (1 <=? md.1) && (md.1 <=? 12) && (1 <=? md.2) && (md.2 <=? 31).

Lemma month_day_in_calendar (n : Z) (leapyear : bool) :
  0 <= n < 365 -> in_calendar (month_day n leapyear) = true.
Proof.
  intros Hn.
  assert (Hall : forallb (fun k => in_calendar (month_day (Z.of_nat k) true)
                                   && in_calendar (month_day (Z.of_nat k) false))
                         (seq 0 365) = true) by (vm_compute; reflexivity).
  rewrite forallb_forall in Hall.
  specialize (Hall (Z.to_nat n)). rewrite Z2Nat.id in Hall by lia.
  assert (Hin : In (Z.to_nat n) (seq 0 365)) by (apply in_seq; lia).
  apply Hall in Hin. apply andb_true_iff in Hin as [Ht Hf].
  now destruct leapyear.
Qed.

(** The month and the day that [_ord2ymd] gives are those of a calendar,
    whatever the ordinal. *)
Lemma ord2ymd_in_calendar (d : date) :
  exists y m dd, ord2ymd d = (y, m, dd) /\ 1 <= m <= 12 /\ 1 <= dd <= 31.
Proof.
  unfold ord2ymd. cbv zeta.
  set (n0 := (d - 1) mod 146097).
  set (n1 := n0 mod 36524).
  set (n2 := n1 mod 1461).
  set (n := n2 mod 365).
  destruct ((n2 / 365 =? 4) || (n0 / 36524 =? 4)).
  { eexists _, _, _. split; [reflexivity|lia]. }
  set (leap := (n2 / 365 =? 3) && (negb (n1 / 1461 =? 24) || (n0 / 36524 =? 3))).
  assert (Hn : 0 <= n < 365) by (apply Z.mod_pos_bound; lia).
  pose proof (month_day_in_calendar n leap Hn) as Hc.
  unfold month_day in Hc. cbv zeta in Hc.
  set (year := (d - 1) / 146097 * 400 + 1 + n0 / 36524 * 100 + n1 / 1461 * 4
               + n2 / 365).
  destruct (n <? _).
  - eexists _, _, _. split; [reflexivity|].
    unfold in_calendar in Hc. cbn [fst snd] in Hc. lia.
  - eexists _, _, _. split; [reflexivity|].
    unfold in_calendar in Hc. cbn [fst snd] in Hc. lia.
Qed.

Definition reads_two_digits (k : nat) : bool :=
  match zero_pad 2 (Z.of_nat k) with
  | [a; b] =>
    (a =? Z.to_N (48 + Z.of_nat k / 10))%N && (b =? Z.to_N (48 + Z.of_nat k mod 10))%N
  | _ => false
  end.

(** A number below 100, padded to two digits. *)
Lemma zero_pad_two_digits (n : Z) : 0 <= n <= 99 -> two_digits n (zero_pad 2 n).
Proof.
  intros Hn.
  assert (Hall : forallb reads_two_digits (seq 0 100) = true)
    by (vm_compute; reflexivity).
  rewrite forallb_forall in Hall.
  assert (Hin : In (Z.to_nat n) (seq 0 100)) by (apply in_seq; lia).
  apply Hall in Hin. unfold reads_two_digits in Hin.
  rewrite Z2Nat.id in Hin by lia.
  exists (n / 10), (n mod 10).
  pose proof (Z.div_mod n 10) as Hdm. pose proof (Z.mod_pos_bound n 10) as Hmod.
  split; [lia|]. split; [lia|]. split; [lia|].
  destruct (zero_pad 2 n) as [|a [|b [|c rest]]]; try discriminate Hin.
  apply andb_true_iff in Hin as [Ha Hb].
  apply N.eqb_eq in Ha, Hb. now subst.
Qed.

(** [strftime("%Y%m%d")] writes the text of the date. *)
Lemma strftime_Ymd_text (py : python) (d : date) :
  date_text py d (strftime_Ymd (strftime_Y py) d).
Proof.
  destruct (ord2ymd_in_calendar d) as (y & m & dd & Hd & Hm & Hdd).
  exists y, m, dd, (zero_pad 2 m), (zero_pad 2 dd).
  split; [exact Hd|]. split; [exact Hm|]. split; [exact Hdd|].
  split; [apply zero_pad_two_digits; lia|].
  split; [apply zero_pad_two_digits; lia|].
  unfold strftime_Ymd. now rewrite Hd.
Qed.

Lemma columnas_planilla_NoDup : NoDup columnas_planilla.*1.
Proof. apply (bool_decide_unpack _). vm_compute. exact I. Qed.

(** [df.rename(columns=columnas_export)[list(columnas_export.values())]]
    shows each record in a row of the spreadsheet. *)
Lemma exportar_items (registro : record) :
  map (fun c : Py.str * Py.str => (c.2, get_value registro c.1))
      ComprarBot.columnas_export
  = map (fun c : Py.str * Py.str => (c.1, default VNone (registro !! c.2)))
        columnas_planilla.
Proof.
  unfold ComprarBot.columnas_export, columnas_planilla, get_value.
  cbn [map fst snd]. reflexivity.
Qed.

Lemma exportar_row (registro : record) : robot_row registro (ComprarBot.exportar registro).
Proof.
  unfold ComprarBot.exportar. rewrite exportar_items. split.
  - intros col. rewrite <- elem_of_dom, dict_of_dom, elem_of_list_to_set.
    rewrite <- list_fmap_compose. reflexivity.
  - intros col campo Hin. apply list_elem_of_lookup_1 in Hin as [i Hi].
    apply (dict_of_lookup _ i).
    + rewrite <- list_fmap_compose. exact columnas_planilla_NoDup.
    + rewrite list_lookup_fmap, Hi. reflexivity.
Qed.

Lemma exportar_rows (records : list record) :
  Forall2 robot_row records (map ComprarBot.exportar records).
Proof.
  induction records as [|r records IH]; constructor; [apply exportar_row|exact IH].
Qed.

End Names.

(** ** The shape of a run of a registered adapter *)

Section Runs.
Import Efectos Scrapers Fechas.

(** A run either raises without a spreadsheet, and then no cancellation was
    seen, or it is a loop [L] in which all the records are appended, the
    export of the rows [sheet] makes of these records to [file], and at most
    a last report. *)
Definition adapter_run (py : python) (file : Py.str)
    (sheet : list record -> list record) (output_dir : Py.str)
    (ic : option (nat -> bool)) (o : out Z) : Prop :=
  (exists e, res o = Raises e /\ written (events o) = [] /\
             (stays_true ic -> true ∉ polled (events o))) \/
  (exists L R,
      let rows := sheet (appended L) in
      events o = L ++ export_events py output_dir file rows ++ R /\
      res o = export_result py rows /\
      written L = [] /\
      (stays_true ic -> appended (after_cancel L) = []) /\
      appended R = [] /\ polled R = [] /\ written R = []).

(** The spreadsheet of a registered adapter: its name holds the range, and
    its rows show the records, one row for each record. *)
Definition adapter_sheet (py : python) (key : Py.str) (start_date end_date : date)
    (file : Py.str) (sheet : list record -> list record) : Prop :=
  names_range py key start_date end_date file /\
  forall records,
    sheet_rows key records (sheet records) /\
    length (sheet records) = length records.

Variable w : mundo.
Variable start_date end_date : date.
Variable output_dir : Py.str.
Variable cb : bool.
Variable ic : option (nat -> bool).

Lemma comprar_adapter_run :
  adapter_run (runtime w) (comprar_filename (runtime w) start_date end_date) id
    output_dir ic
    (scrape_comprar_tics w start_date end_date output_dir cb ic 0%nat).
Proof.
  unfold scrape_comprar_tics.
  pose proof (scrape_comprar_tics_run (runtime w) (comprar w) cb ic start_date
                end_date output_dir 0%nat) as Hrun.
  cbv zeta in Hrun.
  destruct (Comprar._iter_compras_pages (Comprar.listado (comprar w)) None).1
    as [soups|e].
  - right. destruct Hrun as [Hres Hev].
    eexists _, _. cbv zeta. unfold id.
    split; [exact Hev|]. split; [exact Hres|].
    split; [apply for_rows_written|]. split; [intros _; apply for_rows_quiet|].
    split; [apply appended_last_report|].
    split; [apply polled_last_report|apply written_last_report].
  - left. exists e. rewrite Hrun. split; [reflexivity|]. split; [reflexivity|].
    intros _. apply not_elem_of_nil.
Qed.

Lemma robot_adapter_run :
  (1 <= fuel w)%nat ->
  adapter_run (runtime w) (robot_filename (runtime w) start_date end_date)
    (map ComprarBot.exportar) output_dir ic
    (scrape_comprar_tics_robot w start_date end_date output_dir cb ic 0%nat).
Proof.
  intros Hfuel. unfold scrape_comprar_tics_robot.
  destruct (fuel w) as [|fuel']; [lia|].
  pose proof (scrape_comprar_tics_robot_run (runtime w) (chrome w) cb ic start_date
                end_date output_dir fuel' 0%nat) as Hrun.
  cbv zeta in Hrun.
  destruct (ComprarBot.crear_driver (chrome w)) as [[]|e].
  2:{ left. exists e. destruct Hrun as [-> ->]. split; [reflexivity|].
      split; [reflexivity|]. intros _. apply not_elem_of_nil. }
  destruct (ComprarBot.ir_a_listado (chrome w)) as [[]|e].
  2:{ left. exists e. destruct Hrun as [-> ->]. split; [reflexivity|].
      split; [reflexivity|]. intros _. apply not_elem_of_nil. }
  right. destruct Hrun as [Hres Hev].
  set (fo := ComprarBot.for_filas _ _ _ _ 1 _ [] 0 0%nat) in *.
  exists (PageSource 1 :: events fo ++ [Quit]),
    (last_report (runtime w) cb (map ComprarBot.exportar (appended (events fo)))).
  cbv zeta.
  assert (Happ : appended (PageSource 1 :: events fo ++ [Quit]) = appended (events fo)).
  { simpl. now rewrite appended_app, app_nil_r. }
  rewrite Happ.
  split; [rewrite Hev; simpl; now rewrite <- app_assoc|]. split; [exact Hres|].
  split.
  { simpl. rewrite written_app, app_nil_r. apply written_plain, for_filas_plain. }
  split.
  { intros _. simpl.
    destruct (decide (true ∈ polled (events fo))) as [Hin|Hout].
    - rewrite (after_cancel_seen _ _ Hin), appended_app, app_nil_r.
      apply for_filas_quiet.
    - now rewrite (after_cancel_unseen _ _ Hout). }
  split; [apply appended_last_report|].
  split; [apply polled_last_report|apply written_last_report].
Qed.

Lemma boletin_adapter_run :
  adapter_run (runtime w) (boletin_filename (runtime w) start_date end_date) id
    output_dir ic
    (scrape_boletin_tercera w start_date end_date output_dir cb ic 0%nat).
Proof.
  unfold scrape_boletin_tercera.
  pose proof (scrape_boletin_tercera_run (runtime w) (gaceta w) cb ic start_date
                end_date output_dir 0%nat) as Hrun.
  cbv zeta in Hrun.
  destruct (end_date <? start_date).
  { left. exists ValueError. rewrite Hrun. split; [reflexivity|].
    split; [reflexivity|]. intros _. apply not_elem_of_nil. }
  set (wo := BoletinTercera.while_fechas _ _ _ _ _ _ _ _ _ _ _) in *.
  destruct Hrun as [(Hwo & Hres & Hev)|(Hwo & Hres & Hev)].
  - left. exists OverflowError. split; [exact Hres|].
    split; [rewrite Hev; apply written_plain, while_plain|].
    intros Hst Hin. rewrite Hev in Hin.
    destruct (while_quiet (runtime w) (gaceta w) end_date cb ic Hst
                (S (Z.to_nat (end_date - start_date + 1)))
                (end_date - start_date + 1) start_date 0 [] 0%nat) as [_ Hq].
    cbv zeta in Hq. fold wo in Hq. rewrite (Hq Hin) in Hwo. discriminate Hwo.
  - right. exists (events wo), []. cbv zeta. unfold id.
    split; [now rewrite app_nil_r|]. split; [exact Hres|].
    split; [apply written_plain, while_plain|].
    split.
    { intros Hst.
      now destruct (while_quiet (runtime w) (gaceta w) end_date cb ic Hst
                      (S (Z.to_nat (end_date - start_date + 1)))
                      (end_date - start_date + 1) start_date 0 [] 0%nat). }
    repeat split.
Qed.

Lemma key_not_robot (key : Py.str) :
  key = lit "boletin_tercera" \/ key = lit "comprar_tics" ->
  key <> lit "comprar_tics_robot".
Proof. intros [->| ->] H; vm_compute in H; discriminate H. Qed.

Lemma plain_sheet (py : python) (key stem : Py.str) :
  (key, stem) ∈ nombres ->
  key = lit "boletin_tercera" \/ key = lit "comprar_tics" ->
  adapter_sheet py key start_date end_date
    (stem ++ strftime_Ymd (strftime_Y py) start_date ++ lit "_"
     ++ strftime_Ymd (strftime_Y py) end_date ++ lit ".xlsx") id.
Proof.
  intros Hin Hkey. split.
  - exists stem, (strftime_Ymd (strftime_Y py) start_date),
      (strftime_Ymd (strftime_Y py) end_date).
    split; [exact Hin|]. split; [apply strftime_Ymd_text|].
    split; [apply strftime_Ymd_text|reflexivity].
  - intros records. split; [|reflexivity]. split; [|reflexivity].
    intros Hk. now apply key_not_robot in Hkey.
Qed.

Lemma robot_sheet (py : python) :
  adapter_sheet py (lit "comprar_tics_robot") start_date end_date
    (robot_filename py start_date end_date) (map ComprarBot.exportar).
Proof.
  split.
  - exists (lit "comprar_selenium_"), (strftime_Ymd (strftime_Y py) start_date),
      (strftime_Ymd (strftime_Y py) end_date).
    split; [do 2 right; left|]. split; [apply strftime_Ymd_text|].
    split; [apply strftime_Ymd_text|reflexivity].
  - intros records. split; [|apply length_map]. split.
    + intros _. apply exportar_rows.
    + intros Hk. now contradiction Hk.
Qed.

(** Every registered adapter runs in this shape. *)
Lemma registered_run (key : Py.str) (f : ScraperFunc) :
  SCRAPERS_REGISTRY w !! key = Some f ->
  (1 <= fuel w)%nat ->
  exists file sheet,
    adapter_sheet (runtime w) key start_date end_date file sheet /\
    adapter_run (runtime w) file sheet output_dir ic
      (f start_date end_date output_dir cb ic 0%nat).
Proof.
  intros Hf Hfuel.
  destruct (registry_cases w key f Hf) as [[-> ->]|[[-> ->]|[-> ->]]].
  - eexists _, _. split; [|apply boletin_adapter_run].
    apply (plain_sheet _ _ (lit "contrataciones_tercera_")); [left|now left].
  - eexists _, _. split; [|apply comprar_adapter_run].
    apply (plain_sheet _ _ (lit "comprar_tics_")); [right; left|now right].
  - eexists _, _. split; [|now apply robot_adapter_run]. apply robot_sheet.
Qed.

(** What a run gives, from its shape. *)
Lemma adapter_run_result (py : python) (file : Py.str)
    (sheet : list record -> list record) (o : out Z) :
  (forall records, length (sheet records) = length records) ->
  adapter_run py file sheet output_dir ic o ->
  (exists e, res o = Raises e /\ written (events o) = []) \/
  (res o = Returns (Z.of_nat (length (appended (events o)))) /\
   written (events o)
   = match appended (events o) with
     | [] => []
     | _ => [(output_dir, file, sheet (appended (events o)))]
     end).
Proof.
  intros Hlen [(e & He & Hw & _)|(L & R & Hev & Hres & Hw & _ & HaR & _ & HwR)].
  { left. now exists e. }
  cbv zeta in Hev, Hres.
  assert (Happ : appended (events o) = appended L).
  { now rewrite Hev, !appended_app, appended_export_events, HaR, !app_nil_r. }
  assert (Hwr : written (events o)
                = written (export_events py output_dir file (sheet (appended L)))).
  { now rewrite Hev, !written_app, Hw, HwR, app_nil_r. }
  rewrite Happ, Hwr, Hres, written_export_events. unfold export_result.
  pose proof (Hlen (appended L)) as HL.
  destruct (export_error py (sheet (appended L))) as [e|] eqn:He.
  - left. exists e. split; [reflexivity|].
    destruct (sheet (appended L)); [reflexivity|now rewrite He].
  - right. rewrite HL. split; [reflexivity|].
    destruct (appended L) as [|r rs], (sheet _) as [|r' rs'] eqn:Hs;
      try discriminate HL; [reflexivity|now rewrite He].
Qed.

End Runs.

(** ** C2: the progress reports *)

Section EmptyDays.
Import Efectos BoletinTercera Fechas.
Variable py : python.
Variable sitio : boletin.
Variable cb : bool.
Variable ic : option (nat -> bool).

(** What is reported for the days [first], [first + 1], ... ([count] days,
    counted from 0 at [start_date]) of a range of [total_days] days: for a
    day without entries, [min(100, max(0, int(frac * 100)))] with
    [frac = day_index / total_days] in floats and [day_index] the number of
    the day, counted from 1; for a day with entries, nothing. *)
Definition empty_day_reports (start_date : date) (total_days : Z)
    (first count : nat) : list Z :=
  flat_map
    (fun i : nat =>
       match _get_listado_avisos sitio (start_date + Z.of_nat i) with
       | [] =>
         [pct_of py (Float.truediv (float_round py) (Z.of_nat i + 1) total_days)]
       | _ :: _ => []
       end)
    (seq first count).

(** Entries that give no record give no report. *)
Lemma for_avisos_silent (fecha : date) (d T n_av : Z) (avisos : list (Z * Aviso))
    (registros : list record) (n : nat) :
  let o := for_avisos py sitio cb ic fecha d T n_av avisos registros n in
  appended (events o) = [] -> progress_of (events o) = [].
Proof.
  cbv zeta. revert registros n.
  induction avisos as [|[idx aviso] rest IH]; intros registros n; [reflexivity|].
  rewrite for_avisos_cons. destruct (poll_answer ic n); cbn [events].
  { intros _. apply progress_poll_events. }
  destruct (dato_de sitio fecha idx aviso) as [data|]; cbv zeta; cbn [events];
    rewrite appended_app, progress_of_app, appended_poll_events,
      progress_poll_events; simpl app.
  - discriminate.
  - apply IH.
Qed.

Variable start_date end_date : date.

(** The reports of a loop over the days that ends without a record. *)
Lemma while_empty_days (fuel : nat) (T : Z) :
  forall (i : nat) (n : nat),
    let o := while_fechas py sitio end_date cb ic fuel T
               (start_date + Z.of_nat i) (Z.of_nat i) [] n in
    res o = Returns [] ->
    exists k : nat,
      Z.of_nat k <= Z.max 0 (end_date - (start_date + Z.of_nat i) + 1) /\
      (never_cancelled ic ->
       Z.of_nat k = Z.max 0 (end_date - (start_date + Z.of_nat i) + 1)) /\
      progress_of (events o)
      = if cb then empty_day_reports start_date T i k else [].
Proof.
  assert (Hnone : (if cb then empty_day_reports start_date T 0 0 else []) = [])
    by now destruct cb.
  induction fuel as [|fuel IH]; intros i n; cbv zeta; [discriminate|].
  assert (Hnext : start_date + Z.of_nat i + 1 = start_date + Z.of_nat (S i)) by lia.
  assert (Hidx : Z.of_nat i + 1 = Z.of_nat (S i)) by lia.
  while_turn sitio end_date ic (start_date + Z.of_nat i) n fo; intros Hres;
    try discriminate Hres.
  - apply negb_true_iff, Z.leb_gt in Hc.
    exists 0%nat. split; [lia|]. split; [lia|]. now destruct cb.
  - exists 0%nat. split; [lia|]. split.
    { intros Hn. rewrite (Hn n) in Hp. discriminate Hp. }
    rewrite progress_poll_events. now destruct cb.
  - apply negb_false_iff, Z.leb_le in Hc. rewrite Hnext, Hidx in Hres |- *.
    destruct (IH (S i) (poll_next ic n) Hres) as (k & Hk & Hall & Hev).
    exists (S k). split; [lia|]. split; [intros Hn; specialize (Hall Hn); lia|].
    rewrite !progress_of_app, progress_poll_events, progress_report_events, Hev.
    unfold empty_day_reports. cbn [seq flat_map]. rewrite Hav.
    unfold pct_dia, frac_dia, BoletinTercera.round. rewrite Hidx.
    now destruct cb.
  - exists 0%nat. split; [lia|]. split.
    { intros Hn. rewrite (Hn (polls fo)) in Hp2. discriminate Hp2. }
    injection Hres as Hres.
    rewrite !progress_of_app, !progress_poll_events, app_nil_r. simpl app.
    subst fo. rewrite for_avisos_silent by exact Hres. now destruct cb.
  - apply negb_false_iff, Z.leb_le in Hc. rewrite Hnext, Hidx in Hres |- *.
    simpl app in Hres |- *.
    set (o := while_fechas _ _ _ _ _ _ _ _ _ _ _) in *.
    assert (Hfo : appended (events fo) = []).
    { destruct (while_res py sitio end_date cb ic fuel T
                  (start_date + Z.of_nat (S i)) (Z.of_nat (S i))
                  (appended (events fo)) (poll_next ic (polls fo)))
        as [H|[H|H]]; cbv zeta in H; fold o in H; rewrite H in Hres;
        try discriminate Hres.
      injection Hres as Hres. now apply app_eq_nil in Hres as [Hres _]. }
    subst o. rewrite Hfo in Hres |- *.
    destruct (IH (S i) (poll_next ic (polls fo)) Hres) as (k & Hk & Hall & Hev).
    exists (S k). split; [lia|]. split; [intros Hn; specialize (Hall Hn); lia|].
    rewrite !progress_of_app, !progress_poll_events, Hev. simpl app.
    subst fo. rewrite for_avisos_silent by exact Hfo.
    unfold empty_day_reports. cbn [seq flat_map]. rewrite Hav.
    now destruct cb.
Qed.

End EmptyDays.

Section Progress.
Import Efectos Scrapers Fechas.
Variable w : mundo.
Variable start_date end_date : date.
Variable output_dir : Py.str.
Variable cb : bool.
Variable ic : option (nat -> bool).
Hypothesis Hround : rounds_well (float_round (runtime w)).

Lemma length_zero {A : Type} (l : list A) :
  Returns (Z.of_nat (length l)) = Returns 0 -> l = [].
Proof. intros H. injection H as H. destruct l; [reflexivity|simpl in H; lia]. Qed.

Lemma export_result_zero (py : python) (rows : list record) :
  export_result py rows = Returns 0 -> rows = [].
Proof.
  unfold export_result. destruct (export_error py rows); [discriminate|].
  apply length_zero.
Qed.

Lemma progress_ok_then_last (lo : Z) (ps : list Z) (py : python)
    (rows : list record) :
  climbs lo 100 ps -> 0 <= lo ->
  progress_ok (ps ++ progress_of (last_report py cb rows)).
Proof.
  intros Hc Hlo.
  eapply (climbs_ok (Z.min lo 100) (Z.max 100 100)); [lia|lia|].
  eapply climbs_join; [exact Hc|apply climbs_last_report|lia].
Qed.

(** The reports of the HTTP adapter: those of the rows, then 100. *)
Lemma comprar_progress :
  let o := scrape_comprar_tics w start_date end_date output_dir cb ic 0%nat in
  progress_ok (progress_of (events o)) /\
  (res o = Returns 0 -> progress_of (events o) = if cb then [100] else []).
Proof.
  cbv zeta. unfold scrape_comprar_tics.
  pose proof (scrape_comprar_tics_run (runtime w) (comprar w) cb ic start_date
                end_date output_dir 0%nat) as Hrun.
  cbv zeta in Hrun.
  destruct (Comprar._iter_compras_pages (Comprar.listado (comprar w)) None).1
    as [soups|e].
  2:{ rewrite Hrun. simpl. split; [split; constructor|discriminate]. }
  destruct Hrun as [Hres Hev]. rewrite Hev, Hres.
  rewrite !progress_of_app, progress_export_events. simpl app.
  split.
  - destruct (listed_rows soups) as [|r rs].
    + apply (progress_ok_then_last 0); [apply climbs_nil|lia].
    + assert (Ht : 0 < Z.of_nat (length (r :: rs))) by (simpl length; lia).
      apply (progress_ok_then_last
               (progress_at (float_round (runtime w)) (Z.of_nat (length (r :: rs))) 1)).
      * apply for_rows_climbs; [exact Hround|exact Ht|lia|lia].
      * apply progress_at_bounds; [exact Hround|exact Ht|lia].
  - intros H0. apply export_result_zero in H0.
    rewrite (for_rows_silent _ _ _ _ _ _ _ _ H0), H0.
    rewrite last_report_ok by apply export_error_nil.
    apply progress_report_events.
Qed.

(** The reports of the robot: those of the rows of the first page, which
    stay below 100, then 100. *)
Lemma robot_progress :
  (1 <= fuel w)%nat ->
  let o := scrape_comprar_tics_robot w start_date end_date output_dir cb ic 0%nat in
  progress_ok (progress_of (events o)) /\
  (res o = Returns 0 -> progress_of (events o) = if cb then [100] else []).
Proof.
  intros Hfuel. cbv zeta. unfold scrape_comprar_tics_robot.
  destruct (fuel w) as [|fuel']; [lia|].
  pose proof (scrape_comprar_tics_robot_run (runtime w) (chrome w) cb ic start_date
                end_date output_dir fuel' 0%nat) as Hrun.
  cbv zeta in Hrun.
  destruct (ComprarBot.crear_driver (chrome w)) as [[]|e].
  2:{ destruct Hrun as [-> ->]. split; [split; constructor|discriminate]. }
  destruct (ComprarBot.ir_a_listado (chrome w)) as [[]|e].
  2:{ destruct Hrun as [-> ->]. split; [split; constructor|discriminate]. }
  destruct Hrun as [Hres Hev]. rewrite Hev, Hres.
  set (fo := ComprarBot.for_filas _ _ _ _ 1 _ [] 0 0%nat) in *.
  change (progress_of (PageSource 1 :: events fo ++ Quit :: ?t))
    with (progress_of (events fo ++ Quit :: t)).
  rewrite progress_of_app.
  change (progress_of (Quit :: ?t)) with (progress_of t).
  rewrite progress_of_app, progress_export_events. simpl app.
  split.
  - apply (progress_ok_then_last 1); [|lia].
    eapply climbs_weaken;
      [apply (for_filas_climbs (runtime w) (chrome w) cb ic 1
                (enumerate 0 (ComprarBot.obtener_filas_listado (chrome w) 1))
                [] 0 0%nat)
      |lia|lia].
  - intros H0. apply export_result_zero, map_eq_nil in H0. subst fo.
    rewrite (for_filas_silent _ _ _ _ _ _ _ _ _ H0), H0.
    cbn [map]. rewrite last_report_ok by apply export_error_nil.
    apply progress_report_events.
Qed.

(** The reports of the gazette adapter, over days that are dates. *)
Lemma boletin_progress :
  1 <= start_date -> end_date <= MAXORDINAL ->
  progress_ok
    (progress_of
       (events (scrape_boletin_tercera w start_date end_date output_dir cb ic 0%nat))).
Proof.
  intros Hs He. unfold scrape_boletin_tercera.
  pose proof (scrape_boletin_tercera_run (runtime w) (gaceta w) cb ic start_date
                end_date output_dir 0%nat) as Hrun.
  cbv zeta in Hrun.
  destruct (end_date <? start_date) eqn:Hlt.
  { rewrite Hrun. split; constructor. }
  apply Z.ltb_ge in Hlt.
  set (wo := BoletinTercera.while_fechas _ _ _ _ _ _ _ _ _ _ _) in *.
  assert (Hmax : MAXORDINAL <= 2 ^ 53 - 1) by (vm_compute; discriminate).
  assert (Hc : progress_ok (progress_of (events wo))).
  { apply (climbs_ok (pct_dia (runtime w) 0 (end_date - start_date + 1)) 100);
      [apply pct_of_bounds|lia|].
    apply while_climbs; [exact Hround|lia|lia|lia]. }
  destruct Hrun as [(_ & _ & ->)|(_ & _ & ->)]; [exact Hc|].
  now rewrite progress_of_app, progress_export_events, app_nil_r.
Qed.

End Progress.

Section ProgressEmpty.
Import Efectos Scrapers Fechas.
Variable w : mundo.
Variable start_date end_date : date.
Variable output_dir : Py.str.
Variable cb : bool.
Variable ic : option (nat -> bool).

(** The reports of a run of the gazette adapter that returns zero: those of
    the days without entries among the first days of the range, which are
    all its days when the run is never cancelled. *)
Lemma boletin_zero_progress :
  let o := scrape_boletin_tercera w start_date end_date output_dir cb ic 0%nat in
  let total_days := end_date - start_date + 1 in
  res o = Returns 0 ->
  exists k : nat,
    Z.of_nat k <= total_days /\
    (never_cancelled ic -> Z.of_nat k = total_days) /\
    progress_of (events o)
    = if cb then empty_day_reports (runtime w) (gaceta w) start_date total_days 0 k
      else [].
Proof.
  cbv zeta. unfold scrape_boletin_tercera.
  pose proof (scrape_boletin_tercera_run (runtime w) (gaceta w) cb ic start_date
                end_date output_dir 0%nat) as Hrun.
  cbv zeta in Hrun.
  destruct (end_date <? start_date) eqn:Hlt.
  { rewrite Hrun. discriminate. }
  apply Z.ltb_ge in Hlt.
  pose proof (while_empty_days (runtime w) (gaceta w) cb ic start_date end_date
                (S (Z.to_nat (end_date - start_date + 1)))
                (end_date - start_date + 1) 0 0%nat) as Hw.
  cbv zeta in Hw. change (Z.of_nat 0) with 0 in Hw. rewrite Z.add_0_r in Hw.
  set (wo := BoletinTercera.while_fechas _ _ _ _ _ _ _ _ _ _ _) in *.
  destruct Hrun as [(_ & -> & _)|(Hwo & -> & ->)]; [discriminate|].
  intros H0. apply export_result_zero in H0. rewrite H0 in Hwo.
  destruct (Hw Hwo) as (k & Hk & Hall & Hev).
  exists k. split; [lia|]. split; [intros Hn; specialize (Hall Hn); lia|].
  now rewrite progress_of_app, progress_export_events, app_nil_r.
Qed.

End ProgressEmpty.

(** C2, as the code has it.  For every registered adapter, whatever the pages
    fetched and the answers of the cancel predicate, and for floats rounded
    monotonically and exact on the integers up to 2^53, the integers passed
    to [progress_callback] never decrease and lie between 0 and 100.  A run
    of one of the two COMPR.AR adapters that returns zero records reports
    100 once when there is a callback, and nothing otherwise.  A run of the
    gazette adapter that returns zero records reports, for each day without
    entries among the first [k] days of the range,
    [min(100, max(0, int((day_index / total_days) * 100)))] computed in
    floats, and nothing for a day with entries; [k] is the number of days
    of the range when the cancel predicate never answers true. *)
Theorem progress_monotone_bounded (w : Scrapers.mundo) (key : Py.str)
    (f : Scrapers.ScraperFunc) (start_date end_date : Fechas.date)
    (output_dir : Py.str) (cb : bool) (ic : option (nat -> bool)) :
  Scrapers.SCRAPERS_REGISTRY w !! key = Some f ->
  rounds_well (float_round (Scrapers.runtime w)) ->
  (1 <= Scrapers.fuel w)%nat ->
  1 <= start_date -> end_date <= Fechas.MAXORDINAL ->
  let o := f start_date end_date output_dir cb ic 0%nat in
  progress_ok (progress_of (Efectos.events o)) /\
  (key <> lit "boletin_tercera" -> Efectos.res o = Efectos.Returns 0 ->
   progress_of (Efectos.events o) = if cb then [100] else []) /\
  (key = lit "boletin_tercera" -> Efectos.res o = Efectos.Returns 0 ->
   let total_days := end_date - start_date + 1 in
   exists k : nat,
     Z.of_nat k <= total_days /\
     (never_cancelled ic -> Z.of_nat k = total_days) /\
     progress_of (Efectos.events o)
     = if cb
       then empty_day_reports (Scrapers.runtime w) (Scrapers.gaceta w) start_date
              total_days 0 k
       else []).
Proof.
  intros Hf Hround Hfuel Hs He.
  destruct (registry_cases w key f Hf) as [[-> ->]|[[-> ->]|[-> ->]]]; cbv zeta.
  - split; [now apply boletin_progress|]. split.
    + intros Hk. now contradiction Hk.
    + intros _. apply boletin_zero_progress.
  - destruct (comprar_progress w start_date end_date output_dir cb ic Hround)
      as [H1 H2].
    split; [exact H1|]. split; [intros _; exact H2|].
    intros Hk. vm_compute in Hk. discriminate Hk.
  - destruct (robot_progress w start_date end_date output_dir cb ic Hfuel)
      as [H1 H2].
    split; [exact H1|]. split; [intros _; exact H2|].
    intros Hk. vm_compute in Hk. discriminate Hk.
Qed.

(** The robot on the listing of two pages: eleven rows of the first page
    are reported, then 100. *)
Lemma progress_monotone_bounded_witness :
  let o := Scrapers.scrape_comprar_tics_robot Escenario.mundo Escenario.d20250101
             Escenario.d20250131 (lit "salida") true None 0%nat in
  progress_ok (progress_of (Efectos.events o)) /\
  progress_of (Efectos.events o) = [1; 2; 3; 4; 5; 6; 7; 8; 9; 10; 11; 100].
Proof.
  cbv zeta. split; [|vm_compute; reflexivity].
  refine (proj1 (progress_monotone_bounded Escenario.mundo (lit "comprar_tics_robot")
                   _ Escenario.d20250101 Escenario.d20250131 (lit "salida") true
                   None _ exact_rounds_well _ _ _)).
  - exact (proj2 (proj2 (registry_lookup Escenario.mundo))).
  - simpl. lia.
  - vm_compute. discriminate.
  - vm_compute. discriminate.
Defined.

(** The gazette adapter over two days.  With no entry on the first day and
    one entry that cannot be parsed on the second, no record is produced
    and the only report is 50.  With no entry on either day, no record is
    produced and the reports are 50 and 100. *)
Lemma boletin_zero_rows_reports_50 :
  let w := {| Scrapers.runtime := latin1_python;
              Scrapers.gaceta := Escenario.gaceta;
              Scrapers.comprar := Escenario.web;
              Scrapers.chrome := Escenario.chrome;
              Scrapers.fuel := 1 |} in
  (exists f,
     Scrapers.SCRAPERS_REGISTRY w !! lit "boletin_tercera" = Some f /\
     let o := f Escenario.d20250101 Escenario.d20250102 (lit "salida") true None 0%nat in
     Efectos.res o = Efectos.Returns 0 /\
     appended (Efectos.events o) = [] /\
     written (Efectos.events o) = [] /\
     progress_of (Efectos.events o) = [50] /\
     progress_of (Efectos.events o) <> [100] /\
     progress_of (Efectos.events o) <> []) /\
  (exists f,
     Scrapers.SCRAPERS_REGISTRY Escenario.mundo_vacio !! lit "boletin_tercera"
     = Some f /\
     let o := f Escenario.d20250101 Escenario.d20250102 (lit "salida") true None 0%nat in
     Efectos.res o = Efectos.Returns 0 /\
     appended (Efectos.events o) = [] /\
     written (Efectos.events o) = [] /\
     progress_of (Efectos.events o) = [50; 100]).
Proof.
  cbv zeta. split.
  - eexists. split; [exact (proj1 (registry_lookup _))|].
    assert (H : progress_of
                  (Efectos.events
                     (Scrapers.scrape_boletin_tercera
                        {| Scrapers.runtime := latin1_python;
                           Scrapers.gaceta := Escenario.gaceta;
                           Scrapers.comprar := Escenario.web;
                           Scrapers.chrome := Escenario.chrome;
                           Scrapers.fuel := 1 |}
                        Escenario.d20250101 Escenario.d20250102 (lit "salida") true
                        None 0%nat)) = [50]) by (vm_compute; reflexivity).
    rewrite H.
    split; [vm_compute; reflexivity|]. split; [vm_compute; reflexivity|].
    split; [vm_compute; reflexivity|]. split; [reflexivity|].
    split; discriminate.
  - eexists. split; [exact (proj1 (registry_lookup _))|].
    split; [vm_compute; reflexivity|]. split; [vm_compute; reflexivity|].
    split; vm_compute; reflexivity.
Qed.

(** ** C3: cancellation *)

Section Cancel.
Import Efectos Scrapers Fechas.




Variable w : mundo.
Variable key : Py.str.
Variable f : ScraperFunc.
Variable start_date end_date : date.
Variable output_dir : Py.str.
Variable cb : bool.
Variable ic : option (nat -> bool).
Hypothesis Hf : SCRAPERS_REGISTRY w !! key = Some f.
Hypothesis Hfuel : (1 <= fuel w)%nat.
Hypothesis Hstay : stays_true ic.

Local Abbreviation o := (f start_date end_date output_dir cb ic 0%nat).



End Cancel.




(** ** C6: the spreadsheet *)

(** C6. A run of a registered adapter that returns a count: the count is
    the number of records produced; with no record no spreadsheet is
    written and the count is zero; with at least one record exactly one
    spreadsheet is written, in the output directory.  Its rows are the
    records, one row for each record and in their order: as they are for
    the gazette and the HTTP adapter, and for the robot in the twelve
    columns of its export, each with the value of its field.  Its name is
    the stem of the adapter, the first date of the range, an underscore, the
    last date of the range and [.xlsx], each date written as the year that
    the C library gives for [%Y] followed by the month and the day of the
    date in two digits each. *)
Theorem export_one_file_named_by_range (w : Scrapers.mundo) (key : Py.str)
    (f : Scrapers.ScraperFunc) (start_date end_date : Fechas.date)
    (output_dir : Py.str) (cb : bool) (ic : option (nat -> bool)) (count : Z) :
  Scrapers.SCRAPERS_REGISTRY w !! key = Some f ->
  (1 <= Scrapers.fuel w)%nat ->
  let o := f start_date end_date output_dir cb ic 0%nat in
  Efectos.res o = Efectos.Returns count ->
  let records := appended (Efectos.events o) in
  count = Z.of_nat (length records) /\
  (records = [] -> written (Efectos.events o) = [] /\ count = 0) /\
  (records <> [] ->
   exists file rows,
     written (Efectos.events o) = [(output_dir, file, rows)] /\
     sheet_rows key records rows /\
     names_range (Scrapers.runtime w) key start_date end_date file).
Proof.
  intros Hf Hfuel o Hcount records. subst records.
  destruct (registered_run w start_date end_date output_dir cb ic key f Hf Hfuel)
    as (file & sheet & [Hname Hsheet] & Hrun).
  destruct (adapter_run_result output_dir ic (Scrapers.runtime w) file sheet o
              (fun records => proj2 (Hsheet records)) Hrun)
    as [(e & He & _)|[Hres Hw]].
  { rewrite He in Hcount. discriminate Hcount. }
  rewrite Hres in Hcount. injection Hcount as <-.
  split; [reflexivity|]. split.
  - intros Hnil. rewrite Hnil in Hw |- *. split; [exact Hw|reflexivity].
  - intros Hne. exists file, (sheet (appended (Efectos.events o))).
    split; [|split; [exact (proj1 (Hsheet _))|exact Hname]].
    rewrite Hw. destruct (appended (Efectos.events o)); [now contradiction Hne|].
    reflexivity.
Qed.

(** The listing of two pages, through the HTTP adapter: fifteen records, in
    one spreadsheet named [comprar_tics_20250101_20250131.xlsx]. *)
Lemma export_one_file_named_by_range_witness :
  let o := Scrapers.scrape_comprar_tics Escenario.mundo Escenario.d20250101
             Escenario.d20250131 (lit "salida") true None 0%nat in
  Efectos.res o = Efectos.Returns 15 /\
  15 = Z.of_nat (length (appended (Efectos.events o))) /\
  map (fun file => file.1.2) (written (Efectos.events o))
  = [lit "comprar_tics_20250101_20250131.xlsx"].
Proof.
  cbv zeta.
  assert (H : Efectos.res (Scrapers.scrape_comprar_tics Escenario.mundo
                Escenario.d20250101 Escenario.d20250131 (lit "salida") true None 0%nat)
              = Efectos.Returns 15) by (vm_compute; reflexivity).
  split; [exact H|]. split; [|vm_compute; reflexivity].
  refine (proj1 (export_one_file_named_by_range Escenario.mundo (lit "comprar_tics")
                   _ Escenario.d20250101 Escenario.d20250131 (lit "salida") true
                   None 15 _ _ H)).
  - exact (proj1 (proj2 (registry_lookup Escenario.mundo))).
  - simpl. lia.
Defined.

(** ** C9: the dates and the COMPR.AR adapters *)

Section Dates.
Import Efectos Fechas.




Variable py : python.
Variable cb : bool.
Variable ic : option (nat -> bool).
Variable start_date end_date start_date' end_date' : date.
Variable output_dir : Py.str.



End Dates.


(** ** C10: the robot behind the standard signature *)

Section FirstPage.
Import Efectos ComprarBot Fechas.

(** Two browsers that show the same first page. *)
Definition same_first_page (nav nav' : navegador) : Prop :=
  crear_driver nav = crear_driver nav' /\
  ir_a_listado nav = ir_a_listado nav' /\
  obtener_filas_listado nav 1 = obtener_filas_listado nav' 1 /\
  forall idx numero,
    scrapear_detalle_proceso nav 1 idx numero
    = scrapear_detalle_proceso nav' 1 idx numero.

Lemma pages_read_app (a b : list event) :
  pages_read (a ++ b) = pages_read a ++ pages_read b.
Proof. apply omap_app. Qed.

Lemma pages_asked_app (a b : list event) :
  pages_asked (a ++ b) = pages_asked a ++ pages_asked b.
Proof. apply omap_app. Qed.

Lemma pages_tail (py : python) (dir file : Py.str) (rows : list record) (cb : bool) :
  pages_read (export_events py dir file rows ++ last_report py cb rows) = [] /\
  pages_asked (export_events py dir file rows ++ last_report py cb rows) = [].
Proof.
  unfold export_events, last_report, export_error.
  destruct rows, (to_excel py), cb; split; reflexivity.
Qed.

Variable py : python.
Variable cb : bool.
Variable ic : option (nat -> bool).

Lemma for_filas_ext (nav nav' : navegador) (pagina : Z) (filas : list (Z * Fila))
    (registros : list record) (total : Z) (n : nat) :
  (forall idx numero,
      scrapear_detalle_proceso nav pagina idx numero
      = scrapear_detalle_proceso nav' pagina idx numero) ->
  for_filas py nav cb ic pagina filas registros total n
  = for_filas py nav' cb ic pagina filas registros total n.
Proof.
  intros Hsame. revert registros total n.
  induction filas as [|[idx fila] rest IH]; intros registros total n; [reflexivity|].
  rewrite !for_filas_cons.
  assert (Hreg : registro_de py nav pagina idx fila = registro_de py nav' pagina idx fila).
  { unfold registro_de, detalle_de. now rewrite Hsame. }
  rewrite Hreg. destruct (poll_answer ic n); [reflexivity|].
  destruct (registro_de py nav' pagina idx fila); cbv zeta; now rewrite IH.
Qed.

Variable start_date end_date : date.
Variable output_dir : Py.str.

Lemma robot_first_page (nav : navegador) (fuel : nat) (n : nat) :
  let o := scrape_comprar_tics_robot py nav (S fuel) start_date end_date output_dir
             cb ic n in
  res o <> OutOfFuel /\
  pages_asked (events o) = [] /\
  (pages_read (events o) = [] \/ pages_read (events o) = [1]).
Proof.
  cbv zeta.
  pose proof (scrape_comprar_tics_robot_run py nav cb ic start_date end_date
                output_dir fuel n) as Hrun.
  cbv zeta in Hrun.
  destruct (crear_driver nav) as [[]|e].
  2:{ destruct Hrun as [-> ->]. split; [discriminate|]. split; [reflexivity|now left]. }
  destruct (ir_a_listado nav) as [[]|e].
  2:{ destruct Hrun as [-> ->]. split; [discriminate|]. split; [reflexivity|now left]. }
  destruct Hrun as [-> ->].
  split; [unfold export_result; destruct (export_error _ _); discriminate|].
  set (fo := for_filas _ _ _ _ 1 _ [] 0 n).
  destruct (pages_plain (events fo)) as [Hr Ha]; [apply for_filas_plain|].
  destruct (pages_tail py output_dir (robot_filename py start_date end_date)
              (map exportar (appended (events fo))) cb) as [Hr' Ha'].
  change (pages_asked (PageSource 1 :: events fo ++ Quit :: ?t))
    with (pages_asked (events fo ++ Quit :: t)).
  change (pages_read (PageSource 1 :: events fo ++ Quit :: ?t))
    with (1 :: pages_read (events fo ++ Quit :: t)).
  rewrite pages_asked_app, pages_read_app, Hr, Ha.
  change (pages_asked (Quit :: ?t)) with (pages_asked t).
  change (pages_read (Quit :: ?t)) with (pages_read t).
  rewrite Hr', Ha'. split; [reflexivity|now right].
Qed.

Lemma robot_same_first_page (nav nav' : navegador) (fuel fuel' : nat) (n : nat) :
  same_first_page nav nav' ->
  let o := scrape_comprar_tics_robot py nav (S fuel) start_date end_date output_dir
             cb ic n in
  let o' := scrape_comprar_tics_robot py nav' (S fuel') start_date end_date output_dir
              cb ic n in
  res o' = res o /\ events o' = events o.
Proof.
  intros (Hc & Hl & Hf & Hd). cbv zeta.
  pose proof (scrape_comprar_tics_robot_run py nav cb ic start_date end_date
                output_dir fuel n) as H.
  pose proof (scrape_comprar_tics_robot_run py nav' cb ic start_date end_date
                output_dir fuel' n) as H'.
  cbv zeta in H, H'. rewrite <- Hc, <- Hl, <- Hf in H'.
  rewrite <- (for_filas_ext nav nav' 1 _ [] 0 n Hd) in H'.
  destruct (crear_driver nav) as [[]|e]; [|destruct H as [-> ->]; exact H'].
  destruct (ir_a_listado nav) as [[]|e]; destruct H as [-> ->]; exact H'.
Qed.

End FirstPage.

(** C10. Every run of [scrape_comprar_tics_robot] that can go once round
    the loop over the pages ends without asking the pager for another page,
    and reads the first page of the listing and no other (or none, when the
    browser or the listing cannot be opened); its count and its trace are
    the same on every browser that shows the same first page, whatever the
    other pages are. *)
Theorem robot_wrapper_first_page_only (py : python) (nav : ComprarBot.navegador)
    (fuel : nat) (start_date end_date : Fechas.date) (output_dir : Py.str)
    (cb : bool) (ic : option (nat -> bool)) (n : nat) :
  (1 <= fuel)%nat ->
  let o := ComprarBot.scrape_comprar_tics_robot py nav fuel start_date end_date
             output_dir cb ic n in
  Efectos.res o <> Efectos.OutOfFuel /\
  pages_asked (Efectos.events o) = [] /\
  (pages_read (Efectos.events o) = [] \/ pages_read (Efectos.events o) = [1]) /\
  forall nav' fuel',
    (1 <= fuel')%nat -> same_first_page nav nav' ->
    let o' := ComprarBot.scrape_comprar_tics_robot py nav' fuel' start_date end_date
                output_dir cb ic n in
    Efectos.res o' = Efectos.res o /\ Efectos.events o' = Efectos.events o.
Proof.
  intros Hfuel. destruct fuel as [|fuel]; [lia|]. cbv zeta.
  destruct (robot_first_page py cb ic start_date end_date output_dir nav fuel n)
    as (H1 & H2 & H3).
  split; [exact H1|]. split; [exact H2|]. split; [exact H3|].
  intros nav' fuel' Hfuel' Hsame. destruct fuel' as [|fuel']; [lia|].
  now apply robot_same_first_page.
Qed.

(** The browser that shows two pages: only the first is read. *)
Lemma robot_wrapper_first_page_only_witness :
  let o := ComprarBot.scrape_comprar_tics_robot latin1_python Escenario.chrome 1
             Escenario.d20250101 Escenario.d20250131 (lit "salida") true None 0%nat in
  pages_asked (Efectos.events o) = [] /\ pages_read (Efectos.events o) = [1] /\
  Efectos.res o = Efectos.Returns 11.
Proof.
  cbv zeta. split; [|split; vm_compute; reflexivity].
  refine (proj1 (proj2 (robot_wrapper_first_page_only latin1_python Escenario.chrome 1
                          Escenario.d20250101 Escenario.d20250131 (lit "salida") true
                          None 0%nat _))).
  lia.
Defined.

(** ** C4, C8: the scenarios *)

Section Scenarios.
Import Efectos Comprar.

(** An underscore of the sanitized ["14/1-0026 LPR25"]. *)
Lemma sanitizar_doc_id_witness :
  In underscore (Upload.sanitizar_doc_id (VStr (lit "14/1-0026 LPR25"))) /\
  underscore <> slash /\ underscore <> backslash /\ isspace underscore = false.
Proof.
  split; [vm_compute; tauto|].
  apply (proj1 sanitizar_doc_id_spec (lit "14/1-0026 LPR25") underscore).
  vm_compute. tauto.
Defined.

Lemma escenario_listado_answers (h : list request) :
  exists sp, Escenario.listado h = Reply sp.
Proof. destruct h as [|r [|r' h]]; eexists; reflexivity. Qed.

(** The listing of 15 results with 12 rows on page 1 and a pager target:
    page 2 is asked for by one postback. *)
Lemma iter_compras_pages_witness :
  exists more reqs,
    _iter_compras_pages Escenario.listado None
    = (Reply (Escenario.page1 :: more), GET COMPRAS_LIST_URL :: reqs) /\
    length more = length reqs /\
    Forall2 (asks_page Escenario.pager) (range 2 3) reqs.
Proof.
  assert (Hrows : _extract_list_rows_from_soup Escenario.page1 <> [])
    by (vm_compute; discriminate).
  assert (Htarget : Escenario.pager <> []) by (vm_compute; discriminate).
  pose proof (iter_compras_pages_spec Escenario.listado None Escenario.page1 15%N
                eq_refl eq_refl Hrows eq_refl) as (_ & _ & H).
  apply (H Escenario.pager eq_refl Htarget); [vm_compute; reflexivity|].
  exact escenario_listado_answers.
Defined.

(** Page 1 with a simple link to page 2 and no pager target: the walk
    follows the link, and returns two pages. *)
Lemma simple_links_walk_without_pager_target :
  Escenario.listado_links [GET COMPRAS_LIST_URL] = Reply Escenario.page1_links /\
  _parse_total_results Escenario.page1_links = Some 15%N /\
  length (_extract_list_rows_from_soup Escenario.page1_links) = 12%nat /\
  _parse_pager_target Escenario.page1_links = None /\
  _iter_compras_pages Escenario.listado_links None
  = (Reply [Escenario.page1_links; Escenario.page2_links],
     [GET COMPRAS_LIST_URL; GET Escenario.link2]) /\
  _iter_compras_pages Escenario.listado_links None
  <> (Reply [Escenario.page1_links], [GET COMPRAS_LIST_URL]).
Proof.
  assert (H : _iter_compras_pages Escenario.listado_links None
              = (Reply [Escenario.page1_links; Escenario.page2_links],
                 [GET COMPRAS_LIST_URL; GET Escenario.link2])).
  { unfold _iter_compras_pages.
    change (Escenario.listado_links [GET COMPRAS_LIST_URL])
      with (Reply (A:=Soup) Escenario.page1_links).
    cbv iota beta.
    change (_parse_simple_pager_links Escenario.page1_links) with [Escenario.link2].
    reflexivity. }
  split; [reflexivity|]. split; [reflexivity|]. split; [reflexivity|].
  split; [reflexivity|]. split; [exact H|].
  rewrite H. intros Heq. discriminate Heq.
Qed.

End Scenarios.

(* ===================================================================== *)
(** * Part III: further properties of the code                            *)
(* ===================================================================== *)

(** ** [scrape_boletin_tercera] up to the last date *)

Section BoletinOverflow.
Import Efectos BoletinTercera Fechas.
Variable py : python.
Variable sitio : boletin.
Variable cb : bool.
Variable ic : option (nat -> bool).
Hypothesis Hnever : never_cancelled ic.

(** The loop over the days up to [date.max] ends in [OverflowError]: the
    day after the last one does not exist. *)
Lemma while_until_max (fuel : nat) (T : Z) (fecha : date) (d : Z)
    (registros : list record) (n : nat) :
  fecha <= MAXORDINAL -> (Z.to_nat (MAXORDINAL - fecha) < fuel)%nat ->
  res (while_fechas py sitio MAXORDINAL cb ic fuel T fecha d registros n)
  = Raises OverflowError.
Proof.
  revert fecha d registros n.
  induction fuel as [|fuel IH]; intros fecha d registros n Hle Hfuel; [lia|].
  while_turn sitio MAXORDINAL ic fecha n fo;
    try (rewrite (Hnever _) in Hp; discriminate Hp);
    try (rewrite (Hnever _) in Hp2; discriminate Hp2);
    try reflexivity.
  - apply negb_true_iff, Z.leb_gt in Hc. lia.
  - apply Z.ltb_ge in Hmax. apply IH; lia.
  - apply Z.ltb_ge in Hmax. apply IH; lia.
Qed.

End BoletinOverflow.

(** X2. A run of [scrape_boletin_tercera] whose range ends on [date.max]
    (9999-12-31) and that is not cancelled raises [OverflowError] when it
    steps past the last day, and writes no spreadsheet: what was scraped is
    lost. *)
Theorem boletin_until_date_max_raises (py : python) (sitio : BoletinTercera.boletin)
    (start_date : Fechas.date) (output_dir : Py.str) (cb : bool)
    (ic : option (nat -> bool)) (n : nat) :
  never_cancelled ic ->
  start_date <= Fechas.MAXORDINAL ->
  let o := BoletinTercera.scrape_boletin_tercera py sitio start_date Fechas.MAXORDINAL
             output_dir cb ic n in
  Efectos.res o = Efectos.Raises OverflowError /\ written (Efectos.events o) = [].
Proof.
  intros Hnever Hle. cbv zeta.
  pose proof (scrape_boletin_tercera_run py sitio cb ic start_date Fechas.MAXORDINAL
                output_dir n) as Hrun.
  cbv zeta in Hrun.
  replace (Fechas.MAXORDINAL <? start_date) with false in Hrun
    by (symmetry; apply Z.ltb_ge; exact Hle).
  pose proof (while_until_max py sitio cb ic Hnever
                (S (Z.to_nat (Fechas.MAXORDINAL - start_date + 1)))
                (Fechas.MAXORDINAL - start_date + 1) start_date 0 [] n Hle
                ltac:(lia)) as Hwo.
  destruct Hrun as [(_ & Hres & Hev)|(Hret & _ & _)].
  - split; [exact Hres|]. rewrite Hev. apply written_plain, while_plain.
  - rewrite Hwo in Hret. discriminate Hret.
Qed.

(** The single day 9999-12-31 of the gazette with one entry a day. *)
Lemma boletin_until_date_max_raises_witness :
  Efectos.res
    (BoletinTercera.scrape_boletin_tercera latin1_python Escenario.gaceta_diaria
       Fechas.MAXORDINAL Fechas.MAXORDINAL (lit "salida") true None 0%nat)
  = Efectos.Raises OverflowError.
Proof.
  refine (proj1 (boletin_until_date_max_raises latin1_python Escenario.gaceta_diaria
                   Fechas.MAXORDINAL (lit "salida") true None 0%nat _ _)).
  - intros i. reflexivity.
  - lia.
Defined.

(** ** [ejecutar_robot]: the pages and the browser *)

Section RobotWalk.
Import Efectos ComprarBot Fechas.
Variable py : python.
Variable nav : navegador.
Variable max_paginas : option Z.
Variable cb : bool.
Variable ic : option (nat -> bool).

(** How many times [driver.quit()] was called. *)
Definition quits (evs : list event) : nat :=
  length (omap (fun e => match e with Quit => Some tt | _ => None end) evs).

Lemma quits_app (a b : list event) : quits (a ++ b) = (quits a + quits b)%nat.
Proof. unfold quits. now rewrite omap_app, length_app. Qed.

Lemma quits_plain (evs : list event) : Forall plain evs -> quits evs = 0%nat.
Proof.
  induction 1 as [|e evs He _ IH]; [reflexivity|].
  destruct e; simpl in *; try exact IH; destruct He.
Qed.

Lemma paginas_quits (fuel : nat) (pagina : Z) (registros : list record) (total : Z)
    (n : nat) :
  quits (events (paginas py nav max_paginas cb ic fuel pagina registros total n))
  = 0%nat.
Proof.
  revert pagina registros total n.
  induction fuel as [|fuel IH]; intros pagina registros total n; [reflexivity|].
  pose proof (quits_plain _ (for_filas_plain py nav cb ic pagina
    (enumerate 0 (obtener_filas_listado nav pagina)) registros total n)) as Hq.
  destruct (paginas_S py nav max_paginas cb ic fuel pagina registros total n)
    as [(_ & _ & Hev)|[(_ & _ & Hev)|(_ & _ & _ & Hev)]];
    cbv zeta in *.
  - rewrite Hev. exact Hq.
  - destruct Hev as [->|[-> _]]; [exact Hq|].
    change (quits (PageSource pagina :: ?l)) with (quits l).
    now rewrite quits_app, Hq.
  - rewrite Hev.
    change (quits (PageSource pagina :: ?l)) with (quits l).
    rewrite quits_app, Hq.
    change (quits (GoToPage (pagina + 1) :: ?l)) with (quits l).
    apply IH.
Qed.

(** The pages read from [pagina] on are consecutive, the pager is asked for
    each page after the first one read and at most for one more, and with
    [max_paginas = m] no page beyond [m] is asked for or read, but for the
    page the loop starts on. *)
Lemma paginas_pages (fuel : nat) (pagina : Z) (registros : list record) (total : Z)
    (n : nat) :
  let o := paginas py nav max_paginas cb ic fuel pagina registros total n in
  exists k : Z,
    0 <= k /\
    pages_read (events o) = Comprar.range pagina (pagina + k) /\
    (pages_asked (events o) = Comprar.range (pagina + 1) (pagina + k) \/
     pages_asked (events o) = Comprar.range (pagina + 1) (pagina + k + 1)) /\
    (forall m, max_paginas = Some m ->
       pagina + k <= Z.max (pagina + 1) (m + 1) /\
       Forall (fun p => p <= m) (pages_asked (events o))).
Proof.
  revert pagina registros total n.
  induction fuel as [|fuel IH]; intros pagina registros total n.
  { exists 0. cbv zeta. simpl. rewrite !range_nil by lia.
    split; [lia|]. split; [reflexivity|]. split; [now left|].
    intros m _. split; [lia|constructor]. }
  set (fo := for_filas py nav cb ic pagina
               (enumerate 0 (obtener_filas_listado nav pagina)) registros total n).
  destruct (pages_plain _ (for_filas_plain py nav cb ic pagina
    (enumerate 0 (obtener_filas_listado nav pagina)) registros total n)) as [Hr Ha].
  fold fo in Hr, Ha.
  destruct (paginas_S py nav max_paginas cb ic fuel pagina registros total n)
    as [(_ & _ & Hev)|[(_ & _ & Hev)|(_ & Hb & _ & Hev)]];
    cbv zeta in *; fold fo in Hev.
  - exists 1. rewrite Hev. simpl. rewrite Hr, Ha.
    rewrite (range_cons pagina) by lia. rewrite !range_nil by lia.
    split; [lia|]. split; [reflexivity|]. split; [now left|].
    intros m _. split; [lia|constructor].
  - destruct Hev as [->|[-> Hb]].
    + exists 1. simpl. rewrite Hr, Ha.
      rewrite (range_cons pagina) by lia. rewrite !range_nil by lia.
      split; [lia|]. split; [reflexivity|]. split; [now left|].
      intros m _. split; [lia|constructor].
    + exists 1. simpl. rewrite pages_read_app, pages_asked_app, Hr, Ha. simpl.
      rewrite (range_cons pagina (pagina + 1)) by lia.
      rewrite (range_cons (pagina + 1) (pagina + 1 + 1)) by lia.
      rewrite !range_nil by lia.
      split; [lia|]. split; [reflexivity|]. split; [now right|].
      intros m ->. simpl in Hb. apply Z.ltb_ge in Hb.
      split; [lia|]. constructor; [lia|constructor].
  - destruct (IH (pagina + 1) (registros ++ appended (events fo))
                (total + Z.of_nat (length (appended (events fo)))) (polls fo))
      as (k & Hk & Hread & Hask & Hmax).
    exists (k + 1). rewrite Hev. simpl.
    rewrite pages_read_app, pages_asked_app, Hr, Ha. simpl.
    rewrite Hread. split; [lia|]. split.
    { rewrite (range_cons pagina (pagina + (k + 1))) by lia.
      f_equal. f_equal. lia. }
    split.
    { destruct Hask as [->| ->].
      - destruct (Z.eq_dec k 0) as [->|Hk0].
        + right. rewrite (range_cons (pagina + 1) (pagina + (0 + 1) + 1)) by lia.
          rewrite !range_nil by lia. reflexivity.
        + left. rewrite (range_cons (pagina + 1) (pagina + (k + 1))) by lia.
          f_equal. f_equal. lia.
      - right. rewrite (range_cons (pagina + 1) (pagina + (k + 1) + 1)) by lia.
        f_equal. f_equal; lia. }
    intros m Hm. destruct (Hmax m Hm) as [Hle Hall].
    rewrite Hm in Hb. simpl in Hb. apply Z.ltb_ge in Hb.
    split; [lia|]. constructor; [lia|exact Hall].
Qed.

(** The loop comes to an end when some page is empty or has no successor in
    the pager. *)
Lemma paginas_ends (fuel : nat) (pagina last : Z) (registros : list record)
    (total : Z) (n : nat) :
  pagina <= last ->
  obtener_filas_listado nav last = [] \/ ir_a_pagina nav (last + 1) = false ->
  (Z.to_nat (last - pagina) < fuel)%nat ->
  res (paginas py nav max_paginas cb ic fuel pagina registros total n) <> OutOfFuel.
Proof.
  revert pagina registros total n.
  induction fuel as [|fuel IH]; intros pagina registros total n Hle Hlast Hfuel;
    [lia|].
  destruct (Z.eq_dec pagina last) as [->|Hne].
  - simpl paginas. unfold bind, emit, ret. cbn [res polls events].
    destruct (obtener_filas_listado nav last) as [|f fs] eqn:Hf; [discriminate|].
    destruct Hlast as [Hlast|Hlast]; [discriminate Hlast|].
    destruct (for_filas_res py nav cb ic last (enumerate 0 (f :: fs)) registros
                total n) as [[_ Hres]|[_ Hres]]; cbv zeta in Hres; rewrite Hres;
      cbn [res polls events]; [discriminate|].
    destruct (Comprar.beyond max_paginas (last + 1)); cbn [res polls events];
      [discriminate|].
    rewrite Hlast. cbn [negb res polls events]. discriminate.
  - destruct (paginas_S py nav max_paginas cb ic fuel pagina registros total n)
      as [(Hres & _)|[(Hres & _)|(_ & _ & Hres & _)]]; cbv zeta in *;
      rewrite Hres; try discriminate.
    apply IH; [lia|exact Hlast|lia].
Qed.

End RobotWalk.

(** X3. Whatever [max_paginas], [ejecutar_robot] reads the pages of the
    listing in order from page 1, without a gap; it asks the pager for each
    page after the first and for at most one page more; and with
    [max_paginas = m] it asks for no page beyond [m] and reads no page
    beyond [m], but for page 1, which is always read. *)
Theorem ejecutar_robot_pages_in_order (py : python) (nav : ComprarBot.navegador)
    (max_paginas : option Z) (cb : bool) (ic : option (nat -> bool)) (fuel n : nat) :
  let o := ComprarBot.ejecutar_robot py nav max_paginas cb ic fuel n in
  exists k : Z,
    0 <= k /\
    pages_read (Efectos.events o) = Comprar.range 1 (1 + k) /\
    (pages_asked (Efectos.events o) = Comprar.range 2 (1 + k) \/
     pages_asked (Efectos.events o) = Comprar.range 2 (2 + k)) /\
    (forall m, max_paginas = Some m ->
       k <= Z.max 1 m /\ Forall (fun p => p <= m) (pages_asked (Efectos.events o))).
Proof.
  cbv zeta.
  pose proof (ejecutar_robot_run py nav cb ic max_paginas fuel n) as Hrun.
  cbv zeta in Hrun.
  destruct (ComprarBot.crear_driver nav) as [[]|e].
  2:{ rewrite Hrun. exists 0. simpl. rewrite !range_nil by lia.
      split; [lia|]. split; [reflexivity|]. split; [now left|].
      intros m _. split; [lia|constructor]. }
  destruct (ComprarBot.ir_a_listado nav) as [[]|e].
  2:{ rewrite Hrun. exists 0. simpl. rewrite !range_nil by lia.
      split; [lia|]. split; [reflexivity|]. split; [now left|].
      intros m _. split; [lia|constructor]. }
  rewrite Hrun. cbn [Efectos.events].
  destruct (paginas_pages py nav max_paginas cb ic fuel 1 [] 0 n)
    as (k & Hk & Hread & Hask & Hmax).
  cbv zeta in *. exists k.
  rewrite pages_read_app, pages_asked_app. simpl. rewrite !app_nil_r.
  split; [exact Hk|]. split; [exact Hread|].
  split; [replace (2 + k) with (1 + k + 1) by lia; exact Hask|].
  intros m Hm. destruct (Hmax m Hm) as [H1 H2]. split; [lia|exact H2].
Qed.

(** X4. [driver.quit()] is called exactly once in every run of
    [ejecutar_robot] in which the browser was started, also when the
    listing cannot be opened, and is not called when the browser could not
    be started. *)
Theorem ejecutar_robot_quits_once (py : python) (nav : ComprarBot.navegador)
    (max_paginas : option Z) (cb : bool) (ic : option (nat -> bool)) (fuel n : nat) :
  quits (Efectos.events (ComprarBot.ejecutar_robot py nav max_paginas cb ic fuel n))
  = match ComprarBot.crear_driver nav with
    | Efectos.Reply _ => 1%nat
    | Efectos.Throws _ => 0%nat
    end.
Proof.
  pose proof (ejecutar_robot_run py nav cb ic max_paginas fuel n) as Hrun.
  cbv zeta in Hrun.
  destruct (ComprarBot.crear_driver nav) as [[]|e]; [|now rewrite Hrun].
  destruct (ComprarBot.ir_a_listado nav) as [[]|e]; [|now rewrite Hrun].
  rewrite Hrun. cbn [Efectos.events].
  rewrite quits_app, paginas_quits. reflexivity.
Qed.

(** X5. When some page of the listing is empty, or has no successor in the
    pager, [ejecutar_robot] without [max_paginas] comes to an end: it
    returns its records or raises, within as many turns of [while True] as
    there are pages up to that one. *)
Theorem ejecutar_robot_ends (py : python) (nav : ComprarBot.navegador)
    (cb : bool) (ic : option (nat -> bool)) (last : Z) (fuel n : nat) :
  1 <= last ->
  ComprarBot.obtener_filas_listado nav last = [] \/
  ComprarBot.ir_a_pagina nav (last + 1) = false ->
  (Z.to_nat last <= fuel)%nat ->
  Efectos.res (ComprarBot.ejecutar_robot py nav None cb ic fuel n) <> Efectos.OutOfFuel.
Proof.
  intros Hlast Hend Hfuel.
  pose proof (ejecutar_robot_run py nav cb ic None fuel n) as Hrun.
  cbv zeta in Hrun.
  destruct (ComprarBot.crear_driver nav) as [[]|e]; [|rewrite Hrun; discriminate].
  destruct (ComprarBot.ir_a_listado nav) as [[]|e]; [|rewrite Hrun; discriminate].
  rewrite Hrun. cbn [Efectos.res].
  pose proof (paginas_ends py nav None cb ic fuel 1 last [] 0 n Hlast Hend
                ltac:(lia)) as Hne.
  destruct (Efectos.res (ComprarBot.paginas py nav None cb ic fuel 1 [] 0 n))
    as [[r|df]|e|]; congruence.
Qed.

(** The browser of the scenario: the pager has no page 3, and all the 14
    rows whose detail can be had are returned. *)
Lemma ejecutar_robot_ends_witness :
  let o := ComprarBot.ejecutar_robot latin1_python Escenario.chrome None true None
             2 0%nat in
  Efectos.res o <> Efectos.OutOfFuel /\ length (appended (Efectos.events o)) = 14%nat.
Proof.
  cbv zeta. split; [|vm_compute; reflexivity].
  apply (ejecutar_robot_ends latin1_python Escenario.chrome true None 2 2 0%nat).
  - lia.
  - right. reflexivity.
  - simpl. lia.
Defined.

(** ** [ScraperWorker.run] *)

Section Worker.
Import Efectos Scrapers Fechas Main.

Lemma emitted_progress (evs : list event) :
  omap (fun e => match e with
                 | Progress p => Some (ProgressChanged p)
                 | _ => None
                 end) evs
  = map ProgressChanged (progress_of evs).
Proof.
  induction evs as [|e evs IH]; [reflexivity|].
  destruct e; simpl; try exact IH. f_equal. exact IH.
Qed.

Lemma progress_values_map (ps : list Z) :
  progress_values (map ProgressChanged ps) = ps.
Proof. induction ps as [|p ps IH]; [reflexivity|]. simpl. now rewrite IH. Qed.

Lemma progress_values_app (a b : list signal) :
  progress_values (a ++ b) = progress_values a ++ progress_values b.
Proof. apply omap_app. Qed.

Lemma progress_ok_snoc_100 (ps : list Z) : progress_ok ps -> progress_ok (ps ++ [100]).
Proof.
  intros H. apply (climbs_ok 0 100); [lia|lia|].
  apply (climbs_app 0 100 100); [exact H|apply climbs_one; lia|lia].
Qed.

(** The flag stays set once it is set. *)
Lemma _cancelled_stays (clicks : nat -> bool) : stays_true (is_cancelled clicks).
Proof.
  intros i j Hij. simpl. induction Hij as [|j Hij IH]; [tauto|].
  intros H. simpl. now rewrite (IH H).
Qed.

Variable w : mundo.
Variable start_date end_date : date.
Variable output_dir : Py.str.
Variable clicks : nat -> bool.

(** What [run] emits for a registered adapter. *)
Lemma run_registered (site_key : Py.str) (f : ScraperFunc) :
  SCRAPERS_REGISTRY w !! site_key = Some f ->
  (1 <= fuel w)%nat ->
  let o := f start_date end_date output_dir true (is_cancelled clicks) 0%nat in
  let ps := progress_of (events o) in
  (exists e, res o = Raises e /\
     run w site_key start_date end_date output_dir clicks
     = Some (map ProgressChanged ps ++ [Error e])) \/
  (exists count, res o = Returns count /\
     count = Z.of_nat (length (appended (events o))) /\
     let cancelled := _cancelled clicks (polls o) in
     run w site_key start_date end_date output_dir clicks
     = Some (map ProgressChanged
               (ps ++ if negb cancelled && (0 <? count) then [100] else [])
             ++ [Finished count cancelled])).
Proof.
  intros Hf Hfuel. cbv zeta. unfold run, get_scraper. rewrite Hf. cbv zeta.
  rewrite emitted_progress.
  destruct (registered_run w start_date end_date output_dir true (is_cancelled clicks)
              site_key f Hf Hfuel)
    as (file & sheet & [_ Hsheet] & Hrun).
  destruct (adapter_run_result output_dir (is_cancelled clicks) (runtime w) file sheet
              _ (fun records => proj2 (Hsheet records)) Hrun)
    as [(e & He & _)|[Hres _]].
  - left. exists e. rewrite He. split; reflexivity.
  - right. eexists. rewrite Hres.
    split; [reflexivity|]. split; [reflexivity|].
    rewrite map_app, <- app_assoc. f_equal. f_equal.
    destruct (negb _ && _); reflexivity.
Qed.

End Worker.

(** X6. [ScraperWorker.run] on a registered adapter emits some progress
    values and then exactly one closing signal, [finished] or [error]: it is
    [error] exactly when the adapter raised; in [finished] the count is the
    number of records that the adapter appended.  When [get_scraper] raises,
    its error is the only signal. *)
Theorem run_ends_with_one_signal (w : Scrapers.mundo) (site_key : Py.str)
    (start_date end_date : Fechas.date) (output_dir : Py.str) (clicks : nat -> bool) :
  (1 <= Scrapers.fuel w)%nat ->
  match Scrapers.get_scraper w site_key with
  | Efectos.Throws e =>
    Main.run w site_key start_date end_date output_dir clicks = Some [Main.Error e]
  | Efectos.Reply f =>
    let o := f start_date end_date output_dir true (Main.is_cancelled clicks) 0%nat in
    exists ps closing,
      Main.run w site_key start_date end_date output_dir clicks
      = Some (map Main.ProgressChanged ps ++ [closing]) /\
      match Efectos.res o with
      | Efectos.Raises e => closing = Main.Error e
      | _ =>
        exists cancelled,
          closing
          = Main.Finished (Z.of_nat (length (appended (Efectos.events o)))) cancelled
      end
  end.
Proof.
  intros Hfuel.
  destruct (Scrapers.get_scraper w site_key) as [f|e] eqn:Hg.
  - assert (Hf : Scrapers.SCRAPERS_REGISTRY w !! site_key = Some f).
    { unfold Scrapers.get_scraper in Hg.
      destruct (Scrapers.SCRAPERS_REGISTRY w !! site_key); congruence. }
    destruct (run_registered w start_date end_date output_dir clicks site_key f Hf
                Hfuel) as [(e & He & Hrun)|(count & Hc & Hn & Hrun)];
      cbv zeta in *; rewrite Hrun; eexists _, _; (split; [reflexivity|]).
    + now rewrite He.
    + rewrite Hc, Hn. now eexists.
  - unfold Main.run. now rewrite Hg.
Qed.

(** The HTTP adapter on the listing of two pages, never cancelled. *)
Lemma run_ends_with_one_signal_witness :
  exists ps closing,
    Main.run Escenario.mundo (lit "comprar_tics") Escenario.d20250101
      Escenario.d20250131 (lit "salida") (fun _ => false)
    = Some (map Main.ProgressChanged ps ++ [closing]).
Proof.
  pose proof (run_ends_with_one_signal Escenario.mundo (lit "comprar_tics")
                Escenario.d20250101 Escenario.d20250131 (lit "salida")
                (fun _ => false) ltac:(simpl; lia)) as H.
  assert (Hg : Scrapers.get_scraper Escenario.mundo (lit "comprar_tics")
               = Efectos.Reply (Scrapers.scrape_comprar_tics Escenario.mundo)).
  { unfold Scrapers.get_scraper.
    now rewrite (proj1 (proj2 (registry_lookup Escenario.mundo))). }
  rewrite Hg in H. destruct H as (ps & closing & H & _).
  exists ps, closing. exact H.
Defined.

(** X7. The values that [ScraperWorker.run] sends to the progress bar, those
    of the adapter and its own, never decrease and lie between 0 and 100;
    and when the run is reported as finished, not cancelled, with at least
    one record, the last value is 100. *)
Theorem run_progress_monotone (w : Scrapers.mundo) (site_key : Py.str)
    (start_date end_date : Fechas.date) (output_dir : Py.str) (clicks : nat -> bool)
    (signals : list Main.signal) :
  rounds_well (float_round (Scrapers.runtime w)) ->
  (1 <= Scrapers.fuel w)%nat ->
  1 <= start_date -> end_date <= Fechas.MAXORDINAL ->
  Main.run w site_key start_date end_date output_dir clicks = Some signals ->
  progress_ok (Main.progress_values signals) /\
  forall count, 0 < count -> Main.Finished count false ∈ signals ->
    last (Main.progress_values signals) = Some 100.
Proof.
  intros Hround Hfuel Hs He Hrun.
  destruct (Scrapers.SCRAPERS_REGISTRY w !! site_key) as [f|] eqn:Hf.
  2:{ unfold Main.run, Scrapers.get_scraper in Hrun. rewrite Hf in Hrun.
      injection Hrun as <-. split; [split; constructor|].
      intros count _ Hin. apply list_elem_of_singleton in Hin. discriminate Hin. }
  assert (Hok : progress_ok
                  (progress_of (Efectos.events
                     (f start_date end_date output_dir true
                        (Main.is_cancelled clicks) 0%nat)))).
  { destruct (registry_cases w site_key f Hf) as [[_ ->]|[[_ ->]|[_ ->]]].
    - now apply boletin_progress.
    - now apply comprar_progress.
    - now apply robot_progress. }
  destruct (run_registered w start_date end_date output_dir clicks site_key f Hf Hfuel)
    as [(e & _ & Hrun')|(count & _ & _ & Hrun')]; cbv zeta in *;
    rewrite Hrun' in Hrun; injection Hrun as <-;
    rewrite progress_values_app, progress_values_map; simpl; rewrite app_nil_r.
  - split; [exact Hok|]. intros count _ Hin.
    apply elem_of_app in Hin as [Hin|Hin].
    + apply list_elem_of_fmap in Hin as (p & Hp & _). discriminate Hp.
    + apply list_elem_of_singleton in Hin. discriminate Hin.
  - split.
    + destruct (negb _ && _); [now apply progress_ok_snoc_100|now rewrite app_nil_r].
    + intros count' Hpos Hin. apply elem_of_app in Hin as [Hin|Hin].
      { apply list_elem_of_fmap in Hin as (p & Hp & _). discriminate Hp. }
      apply list_elem_of_singleton in Hin. injection Hin as -> Hc.
      rewrite <- Hc. simpl.
      replace (0 <? count) with true by (symmetry; apply Z.ltb_lt; exact Hpos).
      apply last_snoc.
Qed.

(** The gazette with one entry a day over two days: the adapter reports 50
    and 100, and the worker 100 once more. *)
Lemma run_progress_monotone_witness :
  progress_ok [50; 100; 100].
Proof.
  assert (Hrun : Main.run Escenario.mundo (lit "boletin_tercera") Escenario.d20250101
                   Escenario.d20250102 (lit "salida") (fun _ => false)
                 = Some (map Main.ProgressChanged [50; 100; 100]
                         ++ [Main.Finished 2 false]))
    by (vm_compute; reflexivity).
  refine (proj1 (run_progress_monotone Escenario.mundo (lit "boletin_tercera")
                   Escenario.d20250101 Escenario.d20250102 (lit "salida")
                   (fun _ => false) _ exact_rounds_well _ _ _ Hrun)).
  - simpl. lia.
  - vm_compute. discriminate.
  - vm_compute. discriminate.
Defined.

(** X8. The flag of the [finished] signal is truthful about the run: when
    [ScraperWorker.run] reports a run as not cancelled, the cancel predicate
    never answered true to the adapter, which therefore was not cut short;
    and whenever the predicate answered true to the adapter, the run is
    reported as cancelled. *)
Theorem run_cancelled_flag (w : Scrapers.mundo) (site_key : Py.str)
    (f : Scrapers.ScraperFunc) (start_date end_date : Fechas.date)
    (output_dir : Py.str) (clicks : nat -> bool) (signals : list Main.signal)
    (count : Z) (cancelled : bool) :
  Scrapers.SCRAPERS_REGISTRY w !! site_key = Some f ->
  (1 <= Scrapers.fuel w)%nat ->
  Main.run w site_key start_date end_date output_dir clicks = Some signals ->
  Main.Finished count cancelled ∈ signals ->
  let o := f start_date end_date output_dir true (Main.is_cancelled clicks) 0%nat in
  (cancelled = false -> ~ cancel_seen (Efectos.events o)) /\
  (cancel_seen (Efectos.events o) -> cancelled = true).
Proof.
  intros Hf Hfuel Hrun Hin o.
  assert (Hflag : cancelled = Main._cancelled clicks (Efectos.polls o)).
  { destruct (run_registered w start_date end_date output_dir clicks site_key f Hf
                Hfuel) as [(e & _ & Hrun')|(c & _ & _ & Hrun')]; cbv zeta in Hrun';
      rewrite Hrun' in Hrun; injection Hrun as <-;
      apply elem_of_app in Hin as [Hin|Hin];
      try (apply list_elem_of_fmap in Hin as (p & Hp & _); discriminate Hp);
      apply list_elem_of_singleton in Hin; [discriminate Hin|].
    now injection Hin as _ ->. }
  assert (Hseen : cancel_seen (Efectos.events o) -> cancelled = true).
  { unfold cancel_seen. intros Hs.
    destruct (registered_accounts w site_key f start_date end_date output_dir true
                (Main.is_cancelled clicks) Hf 0%nat) as [_ Hp].
    fold o in Hp. rewrite Hp in Hs.
    apply list_elem_of_fmap in Hs as (i & Hi & Hs).
    apply list_elem_of_In, in_seq in Hs.
    rewrite Hflag.
    apply (_cancelled_stays clicks i (Efectos.polls o)); [lia|now symmetry]. }
  split; [|exact Hseen].
  intros Hc Hs. rewrite (Hseen Hs) in Hc. discriminate Hc.
Qed.

(** The HTTP adapter on the listing of two pages, without a click on
    Cancel: no poll answered true. *)
Lemma run_cancelled_flag_witness :
  ~ cancel_seen
      (Efectos.events
         (Scrapers.scrape_comprar_tics Escenario.mundo Escenario.d20250101
            Escenario.d20250131 (lit "salida") true
            (Main.is_cancelled (fun _ => false)) 0%nat)).
Proof.
  assert (Hrun : Main.run Escenario.mundo (lit "comprar_tics") Escenario.d20250101
                   Escenario.d20250131 (lit "salida") (fun _ => false)
                 = Some (map Main.ProgressChanged
                           [6; 13; 20; 26; 33; 40; 46; 53; 60; 66; 73; 80; 86; 93;
                            100; 100; 100]
                         ++ [Main.Finished 15 false]))
    by (vm_compute; reflexivity).
  refine (proj1 (run_cancelled_flag Escenario.mundo (lit "comprar_tics") _
                   Escenario.d20250101 Escenario.d20250131 (lit "salida")
                   (fun _ => false) _ 15 false _ _ Hrun _) eq_refl).
  - exact (proj1 (proj2 (registry_lookup Escenario.mundo))).
  - simpl. lia.
  - apply elem_of_app. right. now apply list_elem_of_singleton.
Defined.

(** ** [_clean_text] *)

Section CleanText.
Import Texto.

(** A word: not empty, and without white space. *)
Definition word (w : str) : Prop :=
  w <> [] /\ Forall (fun c => isspace c = false) w.

Lemma lstrip_app (u v : str) :
  lstrip (u ++ v) = match lstrip u with [] => lstrip v | l => l ++ v end.
Proof.
  induction u as [|c u IH]; [reflexivity|].
  simpl. destruct (isspace c); [exact IH|reflexivity].
Qed.

Lemma rstrip_app (a b : str) :
  rstrip (a ++ b) = match rstrip b with [] => rstrip a | l => a ++ l end.
Proof.
  unfold rstrip. rewrite rev_app_distr, lstrip_app.
  destruct (lstrip (rev b)) as [|c l] eqn:E; [reflexivity|].
  rewrite rev_app_distr, rev_involutive.
  destruct (rev (c :: l)) as [|x y] eqn:E'; [|reflexivity].
  apply (f_equal (@length N)) in E'. rewrite length_rev in E'. discriminate E'.
Qed.

Lemma rstrip_no_space (w : str) :
  Forall (fun c => isspace c = false) w -> rstrip w = w.
Proof.
  intros H. unfold rstrip. rewrite lstrip_no_space; [apply rev_involutive|].
  now apply Forall_rev.
Qed.

Lemma rstrip_space (c : N) (x : str) :
  isspace c = true ->
  rstrip (c :: x) = match rstrip x with [] => [] | l => c :: l end.
Proof.
  intros Hc. change (c :: x) with ([c] ++ x). rewrite rstrip_app.
  destruct (rstrip x); [|reflexivity].
  unfold rstrip. simpl. now rewrite Hc.
Qed.

Lemma join_cons (sep w : str) (ws : list str) :
  join sep (w :: ws) = match ws with [] => w | _ => w ++ sep ++ join sep ws end.
Proof. destruct ws; reflexivity. Qed.

Lemma join_words_nil (sep : str) (ws : list str) :
  Forall word ws -> join sep ws = [] -> ws = [].
Proof.
  destruct 1 as [|w ws [Hw _] _]; [reflexivity|].
  rewrite join_cons. destruct ws; [congruence|].
  intros H. apply app_eq_nil in H as [H _]. congruence.
Qed.

Lemma word_snoc (cur : str) (c : N) :
  cur = [] \/ word cur -> isspace c = false -> word (cur ++ [c]).
Proof.
  intros Hcur Hc. split; [now destruct cur|].
  apply Forall_app. split; [|now constructor].
  destruct Hcur as [->|[_ H]]; [constructor|exact H].
Qed.

Lemma split_from_words (s cur : str) :
  cur = [] \/ word cur -> Forall word (split_from cur s).
Proof.
  revert cur. induction s as [|c r IH]; intros cur Hcur; simpl.
  - destruct cur; [constructor|]. destruct Hcur as [H|H]; [discriminate|].
    constructor; [exact H|constructor].
  - destruct (isspace c) eqn:Hc.
    + destruct cur as [|x cur]; [now apply IH; left|].
      destruct Hcur as [H|H]; [discriminate|].
      constructor; [exact H|now apply IH; left].
    + apply IH. right. now apply word_snoc.
Qed.

(** Reading the words of [s] and collapsing its white space, side by side:
    in a word, and between words. *)
Lemma split_sub_spaces (s : str) :
  (forall cur, word cur ->
     join [32%N] (split_from cur s) = rstrip (cur ++ sub_spaces [32%N] false s)) /\
  join [32%N] (split_from [] s) = rstrip (sub_spaces [32%N] true s).
Proof.
  induction s as [|c r [IH1 IH2]]; simpl.
  - split; [|reflexivity]. intros cur [Hne Hw].
    rewrite app_nil_r, rstrip_no_space by exact Hw. now destruct cur.
  - destruct (isspace c) eqn:Hc.
    + split; [|exact IH2]. intros cur [Hne Hw].
      destruct cur as [|x cur]; [congruence|].
      rewrite join_cons, rstrip_app, rstrip_space by reflexivity.
      rewrite <- IH2.
      pose proof (split_from_words r [] (or_introl eq_refl)) as Hws.
      destruct (split_from [] r) as [|w ws] eqn:E.
      * simpl. symmetry. now apply rstrip_no_space.
      * destruct (join [32%N] (w :: ws)) as [|y l] eqn:Ej; [|reflexivity].
        apply join_words_nil in Ej; [discriminate Ej|exact Hws].
    + split.
      * intros cur Hcur. rewrite IH1 by (apply word_snoc; [now right|exact Hc]).
        now rewrite <- app_assoc.
      * rewrite (IH1 [c]); [reflexivity|]. now apply (word_snoc []); [left|].
Qed.

Lemma lstrip_sub_spaces (s : str) :
  lstrip (sub_spaces [32%N] false s) = sub_spaces [32%N] true s.
Proof.
  assert (Htrue : forall r, lstrip (sub_spaces [32%N] true r) = sub_spaces [32%N] true r).
  { induction r as [|c r IH]; [reflexivity|]. simpl.
    destruct (isspace c) eqn:Hc; [exact IH|]. simpl. now rewrite Hc. }
  destruct s as [|c r]; [reflexivity|]. simpl.
  destruct (isspace c) eqn:Hc; simpl; [apply Htrue|now rewrite Hc].
Qed.

Lemma clean_text_split (s : str) :
  _clean_text (Some s) = join (lit " ") (split s).
Proof.
  unfold _clean_text, split, strip, re_sub_spaces. simpl default.
  change (lit " ") with [32%N].
  rewrite lstrip_sub_spaces. symmetry. apply split_sub_spaces.
Qed.

Lemma split_from_word (w cur rest : str) :
  Forall (fun c => isspace c = false) w ->
  split_from cur (w ++ rest) = split_from (cur ++ w) rest.
Proof.
  intros H. revert cur. induction H as [|c w Hc _ IH]; intros cur.
  - now rewrite app_nil_r.
  - simpl. rewrite Hc, IH, <- app_assoc. reflexivity.
Qed.

Lemma split_from_space (cur : str) (c : N) (r : str) :
  isspace c = true ->
  split_from cur (c :: r)
  = match cur with [] => split_from [] r | _ => cur :: split_from [] r end.
Proof. intros Hc. simpl. now rewrite Hc. Qed.

Lemma split_join (ws : list str) :
  Forall word ws -> split (join [32%N] ws) = ws.
Proof.
  unfold split. induction 1 as [|w ws [Hne Hw] _ IH]; [reflexivity|].
  rewrite join_cons. destruct ws as [|w' ws].
  - rewrite <- (app_nil_r w), split_from_word by exact Hw. simpl.
    rewrite app_nil_r. now destruct w.
  - rewrite split_from_word by exact Hw. cbn [app].
    rewrite split_from_space by reflexivity.
    rewrite IH. now destruct w.
Qed.

End CleanText.

(** X9. [_clean_text] gives the words of the text joined by single spaces,
    that is [" ".join(text.split())], and the empty string for [None]; so
    its result has no white space at either end and no white space but
    single spaces between words, and cleaning twice is cleaning once. *)
Theorem clean_text_words :
  Texto._clean_text None = [] /\
  forall s : str,
    Texto._clean_text (Some s) = join (lit " ") (Texto.split s) /\
    Forall word (Texto.split s) /\
    Texto._clean_text (Some (Texto._clean_text (Some s))) = Texto._clean_text (Some s).
Proof.
  split; [reflexivity|]. intros s.
  pose proof (split_from_words s [] (or_introl eq_refl)) as Hw.
  split; [apply clean_text_split|]. split; [exact Hw|].
  rewrite !clean_text_split. change (lit " ") with [32%N].
  now rewrite split_join.
Qed.

(** ** [_extract_renglones_from_text] *)

Section RenglonesFacts.
Import Texto.
Variable lower : str -> str.

(** A line that ends the block of items. *)
Definition cierra (line : str) : Prop :=
  startswith (lit "#### ") (strip line) = true \/ strip line = lit "×".

Lemma detalle_lines_cons (line : str) (rest : list str) :
  detalle_lines (line :: rest)
  = match strip line with
    | [] => detalle_lines rest
    | _ =>
      if startswith (lit "#### ") (strip line) then []
      else if bool_decide (strip line = lit "×") then []
      else strip line :: detalle_lines rest
    end.
Proof. reflexivity. Qed.

Lemma detalle_lines_cut (body : list str) (stop : str) (tail : list str) :
  cierra stop ->
  detalle_lines (body ++ stop :: tail) = detalle_lines body.
Proof.
  unfold cierra. intros Hstop. induction body as [|line body IH]; cbn [app];
    rewrite detalle_lines_cons.
  - destruct Hstop as [H|H].
    + destruct (strip stop) as [|c r]; [vm_compute in H; discriminate H|].
      now rewrite H.
    + rewrite H. change (lit "×") with [215%N]. cbv iota.
      destruct (startswith _ _); [reflexivity|].
      now rewrite bool_decide_eq_true_2 by reflexivity.
  - rewrite (detalle_lines_cons line body), IH. reflexivity.
Qed.

Lemma tras_cabecera_app (lines more : list str) (body : list str) :
  tras_cabecera lower lines = Some body ->
  tras_cabecera lower (lines ++ more) = Some (body ++ more).
Proof.
  induction lines as [|line lines IH]; [discriminate|]. simpl.
  destruct (es_cabecera lower line); [now intros [= <-]|exact IH].
Qed.

Lemma tras_cabecera_none (lines : list str) :
  Forall (fun line => es_cabecera lower line = false) lines ->
  tras_cabecera lower lines = None.
Proof.
  induction 1 as [|line lines Hl _ IH]; [reflexivity|]. simpl. now rewrite Hl.
Qed.

Lemma tras_cabecera_some (lines body : list str) :
  tras_cabecera lower lines = Some body ->
  exists pre h,
    lines = pre ++ h :: body /\
    Forall (fun line => es_cabecera lower line = false) pre /\
    es_cabecera lower h = true.
Proof.
  revert body. induction lines as [|line lines IH]; intros body; [discriminate|].
  simpl. destruct (es_cabecera lower line) eqn:E.
  - intros [= <-]. exists [], line.
    split; [reflexivity|split; [constructor|exact E]].
  - intros H. destruct (IH body H) as (pre & h & -> & Hpre & Hh).
    exists (line :: pre), h.
    split; [reflexivity|split; [constructor; assumption|exact Hh]].
Qed.

(** The parts of the block: stripped lines, none of them blank or closing. *)
Definition parte (body : list str) (p : str) : Prop :=
  p <> [] /\ startswith (lit "#### ") p = false /\ p <> lit "×" /\
  exists line, In line body /\ p = strip line.

Lemma detalle_lines_parts (body : list str) :
  Forall (parte body) (detalle_lines body).
Proof.
  induction body as [|line body IH]; [constructor|].
  rewrite detalle_lines_cons.
  assert (IH' : Forall (parte (line :: body)) (detalle_lines body)).
  { eapply Forall_impl; [exact IH|]. intros p (H1 & H2 & H3 & l & Hl & Hp).
    split; [exact H1|]. split; [exact H2|]. split; [exact H3|].
    exists l. split; [now right|exact Hp]. }
  destruct (strip line) as [|c r] eqn:E; [exact IH'|].
  destruct (startswith _ _) eqn:Es; [constructor|].
  destruct (bool_decide _) eqn:Ex; [constructor|].
  constructor; [|exact IH'].
  split; [discriminate|]. split; [exact Es|]. split.
  - now apply bool_decide_eq_false in Ex.
  - exists line. split; [now left|now symmetry].
Qed.

End RenglonesFacts.

(** X10. [_extract_renglones_from_text] gives [None] when no line holds one
    of the four headers; a block that it returns is never the empty string,
    and is the join by [" | "] of stripped lines that follow the first
    header, none of them blank, a section title or the closing cross; and
    whatever comes after a line that closes the block does not change the
    result. *)
Theorem extract_renglones_block (lower : str -> str) (lines : list str) :
  (Forall (fun line => Texto.es_cabecera lower line = false) lines ->
   Texto._extract_renglones_from_text lower lines = None) /\
  (forall s, Texto._extract_renglones_from_text lower lines = Some s ->
     s <> [] /\
     exists pre h body parts,
       lines = pre ++ h :: body /\
       Forall (fun line => Texto.es_cabecera lower line = false) pre /\
       Texto.es_cabecera lower h = true /\
       s = join (lit " | ") parts /\ Forall (parte body) parts) /\
  (forall stop tail,
     Texto.tras_cabecera lower lines <> None -> cierra stop ->
     Texto._extract_renglones_from_text lower (lines ++ stop :: tail)
     = Texto._extract_renglones_from_text lower lines).
Proof.
  unfold Texto._extract_renglones_from_text. split; [|split].
  - intros H. now rewrite (tras_cabecera_none lower lines H).
  - intros s. destruct (Texto.tras_cabecera lower lines) as [body|] eqn:E;
      [|discriminate].
    pose proof (detalle_lines_parts body) as Hparts.
    destruct (Texto.detalle_lines body) as [|p parts] eqn:Ed; [discriminate|].
    intros Hs. assert (Hs' : s = join (lit " | ") (p :: parts)) by congruence.
    subst s. clear Hs. split.
    + inversion Hparts as [|? ? (Hp & _) _]; subst.
      rewrite join_cons. destruct parts; [exact Hp|].
      intros H. apply app_eq_nil in H as [H _]. contradiction.
    + destruct (tras_cabecera_some lower lines body E) as (pre & h & -> & Hpre & Hh).
      exists pre, h, body, (p :: parts).
      split; [reflexivity|]. split; [exact Hpre|]. split; [exact Hh|].
      split; [reflexivity|exact Hparts].
  - intros stop tail Hsome Hstop.
    destruct (Texto.tras_cabecera lower lines) as [body|] eqn:E; [|congruence].
    rewrite (tras_cabecera_app lower lines (stop :: tail) body E).
    now rewrite detalle_lines_cut.
Qed.

(** A page with two items, and a section after them. *)
Lemma extract_renglones_block_witness :
  Texto._extract_renglones_from_text (lower latin1_python)
    ([lit "Detalle de productos o servicios"; lit " 1 Servidor "; lit "2 Switch"]
     ++ lit "#### Anexos" :: [lit "Pliego"])
  = Some (lit "1 Servidor | 2 Switch").
Proof.
  rewrite (proj2 (proj2 (extract_renglones_block (lower latin1_python)
             [lit "Detalle de productos o servicios"; lit " 1 Servidor ";
              lit "2 Switch"])) (lit "#### Anexos") [lit "Pliego"]).
  - vm_compute. reflexivity.
  - vm_compute. discriminate.
  - left. vm_compute. reflexivity.
Defined.

(** ** [_find_after_label] *)

Section LabelFacts.
Import Texto.
Variable ieq : N -> N -> bool.

Definition blank (line : str) : Prop := strip line = [].

Lemma candidate_cons (line : str) (rest : list str) :
  candidate (line :: rest)
  = match strip line with
    | [] => candidate rest
    | _ => if startswith (lit "####") (strip line) then None else Some (strip line)
    end.
Proof. reflexivity. Qed.

(** The value found after a label is the first line that is not blank. *)
Lemma candidate_some (following : list str) (c : str) :
  candidate following = Some c ->
  c <> [] /\ startswith (lit "####") c = false /\
  exists mid v post,
    following = mid ++ v :: post /\ Forall blank mid /\ c = strip v.
Proof.
  induction following as [|line rest IH]; [discriminate|].
  rewrite candidate_cons. destruct (strip line) as [|x y] eqn:E.
  - intros H. destruct (IH H) as (H1 & H2 & mid & v & post & -> & Hmid & ->).
    split; [exact H1|]. split; [exact H2|].
    exists (line :: mid), v, post.
    split; [reflexivity|]. split; [now constructor|reflexivity].
  - destruct (startswith (lit "####") (x :: y)) eqn:Es; [intros H; discriminate H|].
    intros [= <-].
    split; [discriminate|]. split; [exact Es|].
    exists [], line, rest. split; [reflexivity|]. split; [constructor|now symmetry].
Qed.

Lemma take_split (n : nat) (l mid : list str) (v : str) (post : list str) :
  take n l = mid ++ v :: post ->
  (length mid < n)%nat /\ exists post', l = mid ++ v :: post'.
Proof.
  intros H. split.
  - apply (f_equal (@length str)) in H.
    rewrite length_take, length_app in H. simpl in H. lia.
  - exists (post ++ drop n l). rewrite <- (take_drop n l) at 1. rewrite H.
    now rewrite <- app_assoc.
Qed.

End LabelFacts.

(** X11. A value that [_find_after_label] returns is never blank and never
    a section title: it is the stripped text of the first line that is not
    blank after a line that is the label, up to case, and it lies at most
    [max_lookahead] lines after it. *)
Theorem find_after_label_value (ieq : N -> N -> bool) (lines : list str)
    (label : str) (max_lookahead : Z) (c : str) :
  Texto._find_after_label ieq lines label max_lookahead = Some c ->
  c <> [] /\ startswith (lit "####") c = false /\
  exists pre l mid v post,
    lines = pre ++ l :: mid ++ v :: post /\
    Texto.match_label ieq label l = true /\
    Forall blank mid /\ Z.of_nat (length mid) < max_lookahead /\
    c = strip v.
Proof.
  induction lines as [|line rest IH]; [discriminate|]. simpl.
  assert (Hrest : Texto._find_after_label ieq rest label max_lookahead = Some c ->
            c <> [] /\ startswith (lit "####") c = false /\
            exists pre l mid v post,
              line :: rest = pre ++ l :: mid ++ v :: post /\
              Texto.match_label ieq label l = true /\
              Forall blank mid /\ Z.of_nat (length mid) < max_lookahead /\
              c = strip v).
  { intros H. destruct (IH H) as (H1 & H2 & pre & l & mid & v & post & -> & H3).
    split; [exact H1|]. split; [exact H2|].
    now exists (line :: pre), l, mid, v, post. }
  destruct (Texto.match_label ieq label line) eqn:Em; [|exact Hrest].
  destruct (Texto.candidate (Texto.lookahead max_lookahead rest)) as [c'|] eqn:Ec;
    [|exact Hrest].
  intros [= ->].
  destruct (candidate_some _ _ Ec) as (H1 & H2 & mid & v & post & Ht & Hmid & ->).
  unfold Texto.lookahead in Ht.
  destruct (take_split _ _ _ _ _ Ht) as (Hlen & post' & ->).
  split; [exact H1|]. split; [exact H2|].
  exists [], line, mid, v, post'.
  split; [reflexivity|]. split; [exact Em|]. split; [exact Hmid|].
  split; [lia|reflexivity].
Qed.

(** The object of a call for tenders, two lines after its label. *)
Lemma find_after_label_value_witness :
  Texto._find_after_label N.eqb
    [lit "Objeto"; lit "  "; lit " Adquisición de servidores "; lit "#### Anexos"]
    (lit "Objeto") 6
  = Some (lit "Adquisición de servidores") /\
  lit "Adquisición de servidores" <> [].
Proof.
  assert (H : Texto._find_after_label N.eqb
                [lit "Objeto"; lit "  "; lit " Adquisición de servidores ";
                 lit "#### Anexos"] (lit "Objeto") 6
              = Some (lit "Adquisición de servidores")) by (vm_compute; reflexivity).
  split; [exact H|].
  exact (proj1 (find_after_label_value N.eqb _ _ _ _ H)).
Defined.

(** ** [_parse_postback_from_href] and [fetch_detalle_proceso_via_postback] *)

Section PostbackFacts.
Import Efectos Postback.

Definition sin_comillas (s : str) : Prop := Forall (fun c => c <> quote) s.

Lemma until_quote_app (g rest : str) :
  sin_comillas g -> until_quote (g ++ quote :: rest) = Some (g, rest).
Proof.
  induction 1 as [|c g Hc _ IH]; [reflexivity|]. simpl.
  destruct (N.eqb_spec c quote) as [->|_]; [contradiction|]. now rewrite IH.
Qed.

Lemma until_quote_some (s g rest : str) :
  until_quote s = Some (g, rest) -> sin_comillas g /\ s = g ++ quote :: rest.
Proof.
  revert g. induction s as [|c r IH]; intros g; [discriminate|]. simpl.
  destruct (N.eqb_spec c quote) as [->|Hc].
  - intros [= <- <-]. split; [constructor|reflexivity].
  - destruct (until_quote r) as [[g' rest']|]; [|discriminate].
    intros [= <- <-]. destruct (IH g' eq_refl) as [H1 H2].
    split; [now constructor|]. now rewrite H2.
Qed.

Lemma match_postback_groups (s t a : str) :
  match_postback s = Some (t, a) -> sin_comillas t /\ sin_comillas a.
Proof.
  unfold match_postback.
  destruct (literal _ s) as [s1|]; [|discriminate].
  destruct (until_quote s1) as [[t' s2]|] eqn:E1; [|discriminate].
  destruct (literal _ s2) as [s3|]; [|discriminate].
  destruct (until_quote s3) as [[a' s4]|] eqn:E2; [|discriminate].
  destruct (literal _ s4); [|discriminate].
  intros [= <- <-].
  split; [exact (proj1 (until_quote_some _ _ _ E1))
         |exact (proj1 (until_quote_some _ _ _ E2))].
Qed.

Lemma search_postback_groups (s t a : str) :
  search_postback s = Some (t, a) -> sin_comillas t /\ sin_comillas a.
Proof.
  induction s as [|c r IH]; [discriminate|]. cbn [search_postback].
  destruct (match_postback (c :: r)) as [[t' a']|] eqn:E; [|exact IH].
  intros [= <- <-]. exact (match_postback_groups _ _ _ E).
Qed.

Lemma strip_between (c d : N) (m : str) :
  isspace c = false -> isspace d = false -> strip (c :: m ++ [d]) = c :: m ++ [d].
Proof.
  intros Hc Hd. unfold strip.
  assert (H1 : lstrip (c :: m ++ [d]) = c :: m ++ [d]) by (simpl; now rewrite Hc).
  rewrite H1. unfold rstrip. rewrite app_comm_cons, rev_unit.
  assert (H2 : lstrip (d :: rev (c :: m)) = d :: rev (c :: m))
    by (cbn [lstrip]; now rewrite Hd).
  rewrite H2. change (rev (d :: rev (c :: m))) with (rev (rev (c :: m)) ++ [d]).
  now rewrite rev_involutive.
Qed.

(** The link of a process in the grid. *)
Definition postback_href (target argument : str) : str :=
  lit "javascript:__doPostBack('" ++ target ++ lit "','" ++ argument ++ lit "')".

Lemma literal_app (p s : str) : literal p (p ++ s) = Some s.
Proof.
  induction p as [|c p IH]; [now destruct s|]. simpl. now rewrite N.eqb_refl.
Qed.

Lemma match_postback_here (target argument rest : str) :
  sin_comillas target -> sin_comillas argument ->
  match_postback
    (lit "__doPostBack('" ++ target ++ quote :: lit ",'" ++ argument
     ++ quote :: lit ")" ++ rest)
  = Some (target, argument).
Proof.
  intros Ht Ha. unfold match_postback.
  rewrite literal_app, (until_quote_app target _ Ht), literal_app.
  now rewrite (until_quote_app argument _ Ha), literal_app.
Qed.

Lemma search_postback_here (s : str) (m : str * str) :
  match_postback s = Some m -> search_postback s = Some m.
Proof.
  intros H. destruct s; [vm_compute in H; discriminate H|].
  cbn [search_postback]. now rewrite H.
Qed.

Lemma search_postback_skip (c : N) (r : str) :
  c <> 95%N -> search_postback (c :: r) = search_postback r.
Proof.
  intros Hc. cbn [search_postback].
  assert (H : match_postback (c :: r) = None).
  { unfold match_postback. change (lit "__doPostBack('") with (95%N :: lit "_doPostBack('").
    cbn [literal]. destruct (N.eqb_spec 95 c); [congruence|reflexivity]. }
  now rewrite H.
Qed.

Ltac calc_lits :=
  repeat match goal with
         | |- context [lit ?s] =>
           let x := eval vm_compute in (lit s) in change (lit s) with x
         end.

Lemma postback_href_ends (target argument : str) :
  postback_href target argument
  = 106%N :: (lit "avascript:__doPostBack('" ++ target ++ lit "','" ++ argument
              ++ [quote]) ++ [41%N].
Proof.
  unfold postback_href, quote. calc_lits.
  do 3 (cbn [app]; rewrite <- ?app_assoc). reflexivity.
Qed.

Lemma postback_href_parts (target argument : str) :
  postback_href target argument
  = lit "javascript:"
    ++ (lit "__doPostBack('" ++ target ++ quote :: lit ",'" ++ argument
        ++ quote :: lit ")" ++ []).
Proof. unfold postback_href, quote. calc_lits. reflexivity. Qed.

Lemma parse_postback_href (target argument : str) :
  sin_comillas target -> sin_comillas argument ->
  _parse_postback_from_href (Some (postback_href target argument))
  = Some (target, argument).
Proof.
  intros Ht Ha. unfold _parse_postback_from_href.
  rewrite (postback_href_ends target argument).
  cbn [negb Py.truthy_opt Py.truthy Py.of_opt default id].
  rewrite (strip_between 106 41) by reflexivity.
  rewrite <- (postback_href_ends target argument), postback_href_parts.
  change (lit "javascript:") with [106; 97; 118; 97; 115; 99; 114; 105; 112; 116; 58]%N.
  cbn [app]. rewrite !search_postback_skip by discriminate.
  apply search_postback_here, match_postback_here; assumption.
Qed.

Lemma buscar_fila_some (numero_proceso : str) (rows : list Tr) (link : option str) :
  buscar_fila numero_proceso rows = Some link ->
  exists tr td rest,
    In tr rows /\ tds tr = td :: rest /\
    Texto._clean_text (Some td) = numero_proceso /\ a_href tr = link.
Proof.
  induction rows as [|tr rows IH]; [discriminate|]. simpl.
  assert (Hrest : buscar_fila numero_proceso rows = Some link ->
            exists tr' td rest,
              (tr = tr' \/ In tr' rows) /\ tds tr' = td :: rest /\
              Texto._clean_text (Some td) = numero_proceso /\ a_href tr' = link).
  { intros H. destruct (IH H) as (tr' & td & rest & H1 & H2).
    exists tr', td, rest. split; [now right|exact H2]. }
  destruct (tds tr) as [|td rest] eqn:E; [exact Hrest|].
  destruct (bool_decide _) eqn:Eb; [|exact Hrest].
  apply bool_decide_eq_true in Eb. intros [= <-].
  exists tr, td, rest. split; [now left|]. split; [exact E|]. split; [exact Eb|reflexivity].
Qed.

(** Hidden inputs of the form go before the fields of the postback. *)
Lemma postback_data_keeps (t a : str) (form_state : gmap str str) (k v : str) :
  form_state !! k = Some v -> postback_data t a form_state !! k = Some v.
Proof. intros H. unfold postback_data. now apply lookup_union_Some_l. Qed.

Lemma postback_data_fields (t a : str) (form_state : gmap str str) :
  (form_state !! lit "__EVENTTARGET" = None ->
   postback_data t a form_state !! lit "__EVENTTARGET" = Some t) /\
  (form_state !! lit "__EVENTARGUMENT" = None ->
   postback_data t a form_state !! lit "__EVENTARGUMENT" = Some a).
Proof.
  unfold postback_data, dict_of. cbn [fold_left fst snd]. split; intros E;
    rewrite (lookup_union_r _ _ _ E).
  - rewrite !lookup_insert_ne by (intros H; vm_compute in H; discriminate H).
    apply lookup_insert_eq.
  - rewrite lookup_insert_ne by (intros H; vm_compute in H; discriminate H).
    apply lookup_insert_eq.
Qed.

End PostbackFacts.

(** X12. [_parse_postback_from_href] gives nothing for [None] and for the
    empty string; the target and the argument that it returns never hold a
    quote; and it reads back the target and the argument of a link
    [javascript:__doPostBack('target','argument')], whatever they are, as
    long as they hold no quote. *)
Theorem parse_postback_round_trip :
  Postback._parse_postback_from_href None = None /\
  Postback._parse_postback_from_href (Some []) = None /\
  (forall href t a,
     Postback._parse_postback_from_href href = Some (t, a) ->
     sin_comillas t /\ sin_comillas a) /\
  (forall t a,
     sin_comillas t -> sin_comillas a ->
     Postback._parse_postback_from_href (Some (postback_href t a)) = Some (t, a)).
Proof.
  split; [reflexivity|]. split; [reflexivity|]. split.
  - intros href t a. unfold Postback._parse_postback_from_href.
    destruct (negb _); [discriminate|]. apply search_postback_groups.
  - apply parse_postback_href.
Qed.

(** The link of the docstring. *)
Lemma parse_postback_round_trip_witness :
  Postback._parse_postback_from_href
    (Some (postback_href
             (lit "ctl00$CPH1$GridListaPliegosAperturaProxima$ctl03$lnkNumeroProceso")
             []))
  = Some (lit "ctl00$CPH1$GridListaPliegosAperturaProxima$ctl03$lnkNumeroProceso", []).
Proof.
  apply (proj2 (proj2 (proj2 parse_postback_round_trip))).
  - unfold sin_comillas. apply (bool_decide_unpack _). vm_compute. exact I.
  - constructor.
Defined.

(** X13. [fetch_detalle_proceso_via_postback] asks for the listing and sends
    at most one postback.  A postback is sent only for a row of the grid
    whose first cell, cleaned, is the number asked for and whose link reads
    as a postback; in its data every hidden input of the form keeps its
    value, so the target and the argument of the link are sent only when the
    form has no hidden input of the names [__EVENTTARGET] and
    [__EVENTARGUMENT].  Fields are returned only from an answer that does
    not hold the name of the grid. *)
Theorem fetch_detalle_postback_request (ses : Postback.sesion) (numero_proceso : str) :
  let r := Postback.fetch_detalle_proceso_via_postback ses numero_proceso in
  (r.2 = [Comprar.GET Comprar.COMPRAS_LIST_URL] \/
   exists data,
     r.2 = [Comprar.GET Comprar.COMPRAS_LIST_URL;
            Comprar.POST Comprar.COMPRAS_LIST_URL data]) /\
  (forall url data, In (Comprar.POST url data) r.2 ->
     exists soup rows tr td rest href t a,
       Postback.get_listado ses = Efectos.Reply soup /\
       Postback._find_grid_table soup = Some rows /\
       In tr rows /\ Postback.tds tr = td :: rest /\
       Texto._clean_text (Some td) = numero_proceso /\
       Postback.a_href tr = Some href /\
       Postback._parse_postback_from_href (Some href) = Some (t, a) /\
       (forall k v, Postback._collect_form_state soup !! k = Some v ->
                    data !! k = Some v) /\
       data !! lit "__EVENTTARGET"
       = Some (default t (Postback._collect_form_state soup !! lit "__EVENTTARGET")) /\
       data !! lit "__EVENTARGUMENT"
       = Some (default a (Postback._collect_form_state soup !! lit "__EVENTARGUMENT"))) /\
  (forall d, r.1 = Efectos.Reply (Some d) ->
     exists data resp,
       In (Comprar.POST Comprar.COMPRAS_LIST_URL data) r.2 /\
       Postback.post_listado ses data = Efectos.Reply resp /\
       contains (lit "GridListaPliegosAperturaProxima") (Postback.html resp) = false /\
       d = Postback.extract_convocatoria_fields resp).
Proof.
  cbv zeta. unfold Postback.fetch_detalle_proceso_via_postback.
  destruct (Postback.get_listado ses) as [soup|e];
    [|split; [now left|split; [intros ? ? [H|[]]; discriminate H|discriminate]]].
  destruct (Postback._find_grid_table soup) as [rows|] eqn:Eg;
    [|split; [now left|split; [intros ? ? [H|[]]; discriminate H|discriminate]]].
  destruct (Postback.buscar_fila numero_proceso rows) as [[href|]|] eqn:Ef;
    [|split; [now left|split; [intros ? ? [H|[]]; discriminate H|discriminate]]..].
  destruct (Postback._parse_postback_from_href (Some href)) as [[t a]|] eqn:Ep;
    [|split; [now left|split; [intros ? ? [H|[]]; discriminate H|discriminate]]].
  destruct (buscar_fila_some _ _ _ Ef) as (tr & td & rest & Htr & Htd & Hnum & Hlink).
  set (data := Postback.postback_data t a (Postback._collect_form_state soup)).
  assert (Hsent : forall (x : Efectos.reply (option Comprar.dict)),
            (x, [Comprar.GET Comprar.COMPRAS_LIST_URL]
                ++ [Comprar.POST Comprar.COMPRAS_LIST_URL data]).2
            = [Comprar.GET Comprar.COMPRAS_LIST_URL;
               Comprar.POST Comprar.COMPRAS_LIST_URL data]) by reflexivity.
  assert (Hpost : forall url data',
            In (Comprar.POST url data')
               [Comprar.GET Comprar.COMPRAS_LIST_URL;
                Comprar.POST Comprar.COMPRAS_LIST_URL data] ->
            exists soup' rows' tr td rest href t' a',
              Efectos.Reply soup = Efectos.Reply soup' /\
              Postback._find_grid_table soup' = Some rows' /\
              In tr rows' /\ Postback.tds tr = td :: rest /\
              Texto._clean_text (Some td) = numero_proceso /\
              Postback.a_href tr = Some href /\
              Postback._parse_postback_from_href (Some href) = Some (t', a') /\
              (forall k v, Postback._collect_form_state soup' !! k = Some v ->
                           data' !! k = Some v) /\
              data' !! lit "__EVENTTARGET"
              = Some (default t' (Postback._collect_form_state soup'
                                    !! lit "__EVENTTARGET")) /\
              data' !! lit "__EVENTARGUMENT"
              = Some (default a' (Postback._collect_form_state soup'
                                    !! lit "__EVENTARGUMENT"))).
  { intros url data' [H|[H|[]]]; [discriminate H|]. injection H as <- <-.
    exists soup, rows, tr, td, rest, href, t, a.
    split; [reflexivity|]. split; [exact Eg|]. split; [exact Htr|].
    split; [exact Htd|]. split; [exact Hnum|]. split; [exact Hlink|].
    split; [exact Ep|]. split.
    - intros k v Hk. now apply postback_data_keeps.
    - subst data. split.
      + destruct (Postback._collect_form_state soup !! lit "__EVENTTARGET")
          as [v|] eqn:E; cbn [default].
        * now apply postback_data_keeps.
        * now apply postback_data_fields.
      + destruct (Postback._collect_form_state soup !! lit "__EVENTARGUMENT")
          as [v|] eqn:E; cbn [default].
        * now apply postback_data_keeps.
        * now apply postback_data_fields. }
  destruct (Postback.post_listado ses data) as [resp|e] eqn:Er.
  - destruct (contains _ (Postback.html resp)) eqn:Eh; rewrite Hsent.
    + split; [right; now exists data|]. split; [exact Hpost|discriminate].
    + split; [right; now exists data|]. split; [exact Hpost|].
      intros d [= <-]. exists data, resp.
      split; [right; now left|]. split; [exact Er|]. split; [exact Eh|reflexivity].
  - rewrite Hsent. split; [right; now exists data|]. split; [exact Hpost|discriminate].
Qed.

(** A form that holds the hidden input [__EVENTTARGET], empty as ASP.NET
    writes it: a postback is sent, and the target of the link is not in
    it. *)
Lemma fetch_detalle_postback_request_witness :
  let ses :=
    {| Postback.get_listado :=
         Efectos.Reply
           {| Postback._find_grid_table :=
                Some [ {| Postback.tds := [lit " 38/19-1191-LPR25 "];
                          Postback.a_href :=
                            Some (postback_href (lit "ctl00$lnkNumeroProceso") []) |} ];
              Postback._collect_form_state := {[ lit "__EVENTTARGET" := [] ]} |};
       Postback.post_listado := fun _ => Efectos.Throws HTTPError |} in
  exists data,
    In (Comprar.POST Comprar.COMPRAS_LIST_URL data)
       (Postback.fetch_detalle_proceso_via_postback ses (lit "38/19-1191-LPR25")).2 /\
    data !! lit "__EVENTTARGET" = Some [].
Proof.
  intros ses.
  pose proof (fetch_detalle_postback_request ses (lit "38/19-1191-LPR25")) as H.
  cbv zeta in H. destruct H as ([Hs|[data Hs]] & Hp & _).
  { apply (f_equal (@length Comprar.request)) in Hs. vm_compute in Hs.
    discriminate Hs. }
  exists data. assert (Hin : In (Comprar.POST Comprar.COMPRAS_LIST_URL data)
                               (Postback.fetch_detalle_proceso_via_postback ses
                                  (lit "38/19-1191-LPR25")).2)
    by (rewrite Hs; right; now left).
  split; [exact Hin|].
  destruct (Hp _ _ Hin)
    as (soup & rows & tr & td & rest & href & t & a & Hg & _ & _ & _ & _ & _ & _ & _
        & Ht & _).
  etransitivity; [exact Ht|]. injection Hg as <-.
  cbn [Postback._collect_form_state]. now rewrite lookup_singleton_eq.
Defined.

(** ** The parsers of the listings *)

Section ListadosFacts.
Import Efectos Fechas Listados.

Lemma unique_links_elem (links : list str) : forall (seen : gset str) (u : str),
  u ∈ unique_links seen links <-> u ∈ links /\ u ∉ seen.
Proof.
  induction links as [|v links IH]; intros seen u; cbn [unique_links].
  - split; [intros H|intros [H _]]; destruct (not_elem_of_nil _ H).
  - destruct (bool_decide (v ∈ seen)) eqn:E.
    + apply bool_decide_eq_true in E. rewrite IH, elem_of_cons.
      split; [intros [H1 H2]; split; [now right|exact H2]|].
      intros [[->|H1] H2]; [contradiction|now split].
    + apply bool_decide_eq_false in E. rewrite !elem_of_cons, IH.
      split.
      * intros [->|[H1 H2]]; [split; [now left|exact E]|].
        split; [now right|set_solver].
      * intros [[->|H1] H2]; [now left|].
        destruct (decide (u = v)) as [->|Hne]; [now left|].
        right. split; [exact H1|set_solver].
Qed.

Lemma unique_links_NoDup (links : list str) : forall (seen : gset str),
  NoDup (unique_links seen links).
Proof.
  induction links as [|v links IH]; intros seen; cbn [unique_links].
  - constructor.
  - destruct (bool_decide (v ∈ seen)); [apply IH|].
    constructor; [|apply IH].
    rewrite unique_links_elem. set_solver.
Qed.

Lemma unique_links_sublist (links : list str) : forall (seen : gset str),
  sublist (unique_links seen links) links.
Proof.
  induction links as [|v links IH]; intros seen; cbn [unique_links].
  - constructor.
  - destruct (bool_decide (v ∈ seen)).
    + apply sublist_cons, IH.
    + apply sublist_skip, IH.
Qed.

(** A link that is kept comes after those that appear before it. *)
Lemma unique_links_order (links : list str) :
  forall (seen : gset str) (lpre : list str) (u : str) (lpost : list str),
    unique_links seen links = lpre ++ u :: lpost ->
    exists pre post,
      links = pre ++ u :: post /\
      forall v, v ∈ pre -> v ∈ lpre \/ v ∈ seen.
Proof.
  induction links as [|v links IH]; intros seen lpre u lpost; cbn [unique_links].
  - intros H. destruct lpre; discriminate H.
  - destruct (bool_decide (v ∈ seen)) eqn:E.
    + apply bool_decide_eq_true in E. intros H.
      destruct (IH _ _ _ _ H) as (pre & post & -> & Hpre).
      exists (v :: pre), post. split; [reflexivity|].
      intros x Hx. apply elem_of_cons in Hx as [->|Hx]; [now right|now apply Hpre].
    + intros H. destruct lpre as [|x lpre]; cbn [app] in H; injection H as <- H.
      * exists [], links. split; [reflexivity|].
        intros x Hx. destruct (not_elem_of_nil _ Hx).
      * destruct (IH _ _ _ _ H) as (pre & post & -> & Hpre).
        exists (v :: pre), post. split; [reflexivity|].
        intros y Hy. apply elem_of_cons in Hy as [->|Hy]; [left; now left|].
        destruct (Hpre y Hy) as [Hin|Hin]; [left; now right|].
        apply elem_of_union in Hin as [Hin|Hin]; [|now right].
        apply elem_of_singleton in Hin as ->. left. now left.
Qed.

Lemma unique_links_fixed (links : list str) : forall (seen : gset str),
  NoDup links -> (forall u, u ∈ links -> u ∉ seen) -> unique_links seen links = links.
Proof.
  induction links as [|v links IH]; intros seen Hnd Hseen; [reflexivity|].
  cbn [unique_links]. apply NoDup_cons in Hnd as [Hv Hnd].
  rewrite bool_decide_eq_false_2 by (apply Hseen; now left).
  f_equal. apply IH; [exact Hnd|].
  intros u Hu. specialize (Hseen u (list_elem_of_further _ _ _ Hu)).
  assert (u <> v) by (intros ->; contradiction). set_solver.
Qed.

Lemma avisos_unicos_urls (avisos : list BoletinTercera.Aviso) :
  forall (vistos : gset str),
    map BoletinTercera.url (avisos_unicos vistos avisos)
    = unique_links vistos (map BoletinTercera.url avisos).
Proof.
  induction avisos as [|av avisos IH]; intros vistos; [reflexivity|].
  cbn [avisos_unicos map unique_links].
  destruct (bool_decide (BoletinTercera.url av ∈ vistos)); [apply IH|].
  cbn [map]. f_equal. apply IH.
Qed.

(** An entry that is kept is the first of the page with its URL. *)
Lemma avisos_unicos_first (avisos : list BoletinTercera.Aviso) :
  forall (vistos : gset str) (av : BoletinTercera.Aviso),
    av ∈ avisos_unicos vistos avisos ->
    exists before after,
      avisos = before ++ av :: after /\
      (BoletinTercera.url av ∉ map BoletinTercera.url before) /\
      (BoletinTercera.url av ∉ vistos).
Proof.
  induction avisos as [|a avisos IH]; intros vistos av; cbn [avisos_unicos].
  - intros H. destruct (not_elem_of_nil _ H).
  - destruct (bool_decide (BoletinTercera.url a ∈ vistos)) eqn:E.
    + apply bool_decide_eq_true in E. intros H.
      destruct (IH _ _ H) as (before & after & -> & Hb & Hv).
      exists (a :: before), after. split; [reflexivity|]. split; [|exact Hv].
      cbn [map]. rewrite elem_of_cons. intros [Heq|Hin]; [|contradiction].
      rewrite Heq in Hv. contradiction.
    + apply bool_decide_eq_false in E. rewrite elem_of_cons.
      intros [->|H].
      * exists [], avisos. split; [reflexivity|]. split; [|exact E].
        cbn [map]. apply not_elem_of_nil.
      * destruct (IH _ _ H) as (before & after & -> & Hb & Hv).
        exists (a :: before), after. split; [reflexivity|].
        split; [|set_solver].
        cbn [map]. rewrite elem_of_cons. intros [Heq|Hin]; [|contradiction].
        set_solver.
Qed.

Lemma filter_first {A : Type} (f : A -> bool) (l : list A) :
  forall (l1 : list A) (x : A) (l2 : list A),
    filter (fun a => f a = true) l = l1 ++ x :: l2 ->
    exists b a, l = b ++ x :: a /\ filter (fun a => f a = true) b = l1 /\ f x = true.
Proof.
  induction l as [|y l IH]; intros l1 x l2 H.
  - destruct l1; discriminate H.
  - rewrite filter_cons in H. destruct (decide (f y = true)) as [Hy|Hy].
    + destruct l1 as [|z l1]; cbn [app] in H; injection H as -> H.
      * exists [], l. split; [reflexivity|]. split; [reflexivity|exact Hy].
      * destruct (IH _ _ _ H) as (b & a & -> & Hb & Hx).
        exists (z :: b), a. split; [reflexivity|]. split; [|exact Hx].
        rewrite filter_cons, decide_True by exact Hy. now rewrite Hb.
    + destruct (IH _ _ _ H) as (b & a & -> & Hb & Hx).
      exists (y :: b), a. split; [reflexivity|]. split; [|exact Hx].
      rewrite filter_cons, decide_False by exact Hy. exact Hb.
Qed.

Lemma startswith_app (p s : str) : startswith p (p ++ s) = true.
Proof.
  induction p as [|c p IH]; [reflexivity|].
  cbn [app startswith]. now rewrite N.eqb_refl, IH.
Qed.

Lemma aviso_url_http (fecha : date) (a : Enlace) :
  startswith (lit "http") (BoletinTercera.url (aviso_de fecha a)) = true.
Proof.
  unfold aviso_de. cbn [BoletinTercera.url].
  destruct (startswith (lit "http") (href a)) eqn:E; [exact E|].
  assert (Hb : BASE_URL = lit "http" ++ lit "s://www.boletinoficial.gob.ar")
    by (vm_compute; reflexivity).
  rewrite Hb, <- app_assoc. apply startswith_app.
Qed.

(** The entries of a day carry its date. *)
Lemma get_listado_avisos_fecha (fecha : date) (resp : respuesta) :
  Forall (fun av => BoletinTercera.fecha_edicion av = isoformat fecha)
    (_get_listado_avisos fecha resp).
Proof.
  destruct resp as [|status enlaces]; cbn [_get_listado_avisos]; [constructor|].
  destruct (negb (status =? 200)); [constructor|].
  apply Forall_forall. intros av Hav.
  destruct (avisos_unicos_first _ _ _ Hav) as (before & after & Heq & _).
  assert (Hin : av ∈ map (aviso_de fecha)
                       (filter (fun a => es_aviso a = true) enlaces))
    by (rewrite Heq; apply elem_of_app; right; now left).
  apply list_elem_of_fmap in Hin as (a & -> & _). reflexivity.
Qed.

End ListadosFacts.

(** X14. The entries that [_get_listado_avisos] gives for a day: when the
    request fails or the status is not 200 there is none; otherwise no two
    of them have the same URL; every URL starts with [http], being the
    [href] of its link when that starts with [http] and [BASE_URL] followed
    by the [href] otherwise; every entry carries the date of the day; every
    link to a notice of the page has its URL among them; and the entry kept
    for a URL is that of the first link of the page with it. *)
Theorem get_listado_avisos_unique (fecha : Fechas.date) (resp : Listados.respuesta) :
  let avisos := Listados._get_listado_avisos fecha resp in
  NoDup (map BoletinTercera.url avisos) /\
  Forall (fun av => startswith (lit "http") (BoletinTercera.url av) = true /\
                    BoletinTercera.fecha_edicion av = Listados.isoformat fecha) avisos /\
  (resp = Listados.SinConexion -> avisos = []) /\
  (forall status enlaces,
      resp = Listados.Respuesta status enlaces ->
      (status <> 200 -> avisos = []) /\
      (status = 200 ->
       (forall a, a ∈ enlaces -> Listados.es_aviso a = true ->
                  BoletinTercera.url (Listados.aviso_de fecha a)
                  ∈ map BoletinTercera.url avisos) /\
       (forall av, av ∈ avisos ->
           exists before a after,
             enlaces = before ++ a :: after /\
             Listados.es_aviso a = true /\
             av = Listados.aviso_de fecha a /\
             BoletinTercera.url av
             = (if startswith (lit "http") (Listados.href a) then Listados.href a
                else Listados.BASE_URL ++ Listados.href a) /\
             forall b, b ∈ before -> Listados.es_aviso b = true ->
                       BoletinTercera.url (Listados.aviso_de fecha b)
                       <> BoletinTercera.url av))).
Proof.
  cbv zeta. destruct resp as [|status enlaces]; cbn [Listados._get_listado_avisos].
  { split; [constructor|]. split; [constructor|]. split; [reflexivity|].
    intros ? ? H. discriminate H. }
  destruct (status =? 200) eqn:Es; cbn [negb].
  2:{ split; [constructor|]. split; [constructor|]. split; [reflexivity|].
      intros ? ? [= <- <-]. split; [reflexivity|].
      intros ->. discriminate Es. }
  apply Z.eqb_eq in Es. subst status.
  set (notices := filter (fun a => Listados.es_aviso a = true) enlaces).
  split; [rewrite avisos_unicos_urls; apply unique_links_NoDup|].
  split.
  { apply Forall_forall. intros av Hav.
    destruct (avisos_unicos_first _ _ _ Hav) as (before & after & Heq & _).
    assert (Hin : av ∈ map (Listados.aviso_de fecha) notices)
      by (rewrite Heq; apply elem_of_app; right; now left).
    apply list_elem_of_fmap in Hin as (a & -> & _).
    split; [apply aviso_url_http|reflexivity]. }
  split; [intros H; discriminate H|].
  intros ? ? [= <- <-]. split; [intros H; now contradiction H|]. intros _.
  split.
  - intros a Ha Hes. rewrite avisos_unicos_urls, unique_links_elem.
    split; [|set_solver].
    apply list_elem_of_fmap. exists (Listados.aviso_de fecha a). split; [reflexivity|].
    apply list_elem_of_fmap. exists a. split; [reflexivity|].
    apply list_elem_of_filter. now split.
  - intros av Hav.
    destruct (avisos_unicos_first _ _ _ Hav) as (before & after & Heq & Hb & _).
    change (map ?f ?l) with (f <$> l) in Heq.
    apply fmap_app_inv in Heq as (nb & rest & -> & Hrest & Hn).
    symmetry in Hrest. apply fmap_cons_inv in Hrest as (a & na & -> & -> & ->).
    subst notices.
    destruct (filter_first _ _ _ _ _ Hn) as (eb & ea & -> & Hnb & Hes).
    exists eb, a, ea.
    split; [reflexivity|]. split; [exact Hes|]. split; [reflexivity|].
    split; [reflexivity|].
    intros b Hb' Hbes Hurl. apply Hb. rewrite <- Hurl.
    apply list_elem_of_fmap.
    exists (Listados.aviso_de fecha b). split; [reflexivity|].
    apply list_elem_of_fmap. exists b. split; [reflexivity|].
    rewrite <- Hnb. apply list_elem_of_filter. now split.
Qed.

(** X15. The links that [_parse_simple_pager_links] gives: they are the
    joined URLs of the anchors whose stripped text is made of digits and
    whose [href] holds [Compras.aspx], each of them once, in the order in
    which they first appear on the page: a link of the result is the URL of
    an anchor of the page, and the URL of every such anchor before that one
    comes before the link in the result.  An anchor with an empty text or a
    text that is not a number gives no link. *)
Theorem parse_simple_pager_links_unique (isdigit : N -> bool)
    (urljoin : Py.str -> Py.str -> Py.str) (anchors : list Listados.Paginador) :
  let links := Listados._parse_simple_pager_links isdigit urljoin anchors in
  let url_of a := urljoin Listados.COMPRAR_BASE_URL (Listados.pager_href a) in
  NoDup links /\
  (forall u, u ∈ links <->
     exists a, a ∈ anchors /\ u = url_of a /\
               strip (Listados.get_text a) <> [] /\
               Forall (fun c => isdigit c = true) (strip (Listados.get_text a)) /\
               contains (lit "Compras.aspx") (Listados.pager_href a) = true) /\
  sublist links (map url_of anchors) /\
  (NoDup (map url_of anchors) ->
   Forall (fun a => Listados.es_pagina isdigit a = true) anchors ->
   links = map url_of anchors) /\
  (forall lpre u lpost,
      links = lpre ++ u :: lpost ->
      exists before a after,
        anchors = before ++ a :: after /\
        Listados.es_pagina isdigit a = true /\ u = url_of a /\
        forall b, b ∈ before -> Listados.es_pagina isdigit b = true ->
                  url_of b ∈ lpre).
Proof.
  cbv zeta. unfold Listados._parse_simple_pager_links.
  set (url_of := fun a => urljoin Listados.COMPRAR_BASE_URL (Listados.pager_href a)).
  assert (Hes : forall a, Listados.es_pagina isdigit a = true <->
                  strip (Listados.get_text a) <> [] /\
                  Forall (fun c => isdigit c = true) (strip (Listados.get_text a)) /\
                  contains (lit "Compras.aspx") (Listados.pager_href a) = true).
  { intros a. unfold Listados.es_pagina, Listados.str_isdigit.
    rewrite andb_true_iff.
    destruct (strip (Listados.get_text a)) as [|c r] eqn:E.
    - split; [intros [H _]; discriminate H|intros [H _]; now contradiction H].
    - rewrite forallb_forall, Forall_forall.
      split.
      + intros [H1 H2]. split; [discriminate|]. split; [|exact H2].
        intros x Hx. apply H1. now apply list_elem_of_In.
      + intros (_ & H1 & H2). split; [|exact H2].
        intros x Hx. apply H1. now apply list_elem_of_In. }
  split; [apply unique_links_NoDup|]. split; [|split; [|split]].
  - intros u. rewrite unique_links_elem. split.
    + intros [Hu _]. apply list_elem_of_fmap in Hu as (a & -> & Ha).
      apply list_elem_of_filter in Ha as [Hp Ha].
      exists a. split; [exact Ha|]. split; [reflexivity|]. now apply Hes.
    + intros (a & Ha & -> & Hp). split; [|set_solver].
      apply list_elem_of_fmap. exists a. split; [reflexivity|].
      apply list_elem_of_filter. split; [now apply Hes|exact Ha].
  - etransitivity; [apply unique_links_sublist|].
    apply fmap_sublist, sublist_filter.
  - intros Hnd Hall.
    assert (Hf : filter (fun a => Listados.es_pagina isdigit a = true) anchors = anchors).
    { clear Hnd. induction anchors as [|a l IH]; [reflexivity|].
      apply Forall_cons in Hall as [Ha Hl].
      rewrite filter_cons, decide_True by exact Ha. now rewrite IH. }
    rewrite Hf. apply unique_links_fixed; [exact Hnd|set_solver].
  - intros lpre u lpost Hl.
    destruct (unique_links_order _ _ _ _ _ Hl) as (pre & post & Heq & Hpre).
    change (map ?g ?l) with (g <$> l) in Heq.
    apply fmap_app_inv in Heq as (fb & rest & -> & Hrest & Hn).
    symmetry in Hrest. apply fmap_cons_inv in Hrest as (a & fa & -> & -> & ->).
    destruct (filter_first _ _ _ _ _ Hn) as (eb & ea & -> & Hfb & Hpa).
    exists eb, a, ea. split; [reflexivity|]. split; [exact Hpa|].
    split; [reflexivity|].
    intros b Hb Hpb.
    destruct (Hpre (url_of b)) as [Hin|Hin]; [|exact Hin|set_solver].
    apply list_elem_of_fmap. exists b. split; [reflexivity|].
    rewrite <- Hfb. apply list_elem_of_filter. now split.
Qed.

Section SimpleLinks.
Import Efectos Comprar.
Variable ses : session.
Variable max_pages : option Z.

(** The loop over the simple links asks for a first part of them, one GET
    each. *)
Lemma simple_links_loop_sent (links : list str) :
  forall (idx : Z) (soups : list Soup) (sent : list request),
  exists k : nat,
    (k <= length links)%nat /\
    (simple_links_loop ses max_pages (enumerate idx links) soups sent).2
    = sent ++ map GET (take k links) /\
    (forall m, max_pages = Some m -> Z.of_nat k <= Z.max 0 (m - idx + 1)) /\
    (forall soups',
        (simple_links_loop ses max_pages (enumerate idx links) soups sent).1
        = Reply soups' ->
        length soups' = (length soups + k)%nat /\
        ((k < length links)%nat ->
         exists m, max_pages = Some m /\ m < idx + Z.of_nat k)) /\
    (forall e,
        (simple_links_loop ses max_pages (enumerate idx links) soups sent).1
        = Throws e ->
        (1 <= k)%nat /\
        ses (sent ++ map GET (take k links)) = Throws e).
Proof.
  induction links as [|u links IH]; intros idx soups sent.
  - exists 0%nat. cbn [enumerate simple_links_loop fst snd take map length].
    rewrite app_nil_r. split; [lia|]. split; [reflexivity|].
    split; [intros; lia|]. split; [|intros e H; discriminate H].
    intros soups' [= <-]. split; [lia|]. intros H; lia.
  - cbn [enumerate simple_links_loop].
    destruct (beyond max_pages idx) eqn:Eb.
    + exists 0%nat. cbn [fst snd take map length]. rewrite app_nil_r.
      split; [lia|]. split; [reflexivity|]. split; [intros; lia|].
      split; [|intros e H; discriminate H].
      intros soups' [= <-]. split; [lia|]. intros _.
      unfold beyond in Eb. destruct max_pages as [m|]; [|discriminate Eb].
      exists m. split; [reflexivity|]. apply Z.ltb_lt in Eb. lia.
    + cbv zeta. destruct (ses (sent ++ [GET u])) as [sp|e] eqn:Es.
      * destruct (IH (idx + 1) (soups ++ [sp]) (sent ++ [GET u]))
          as (k & Hk & Hsent & Hmax & Hok & Herr).
        exists (S k). cbn [take map length]. split; [lia|].
        split; [rewrite Hsent, <- app_assoc; reflexivity|].
        split; [|split].
        -- intros m Hm. specialize (Hmax m Hm). unfold beyond in Eb.
           rewrite Hm in Eb. apply Z.ltb_ge in Eb. lia.
        -- intros soups' Hs. destruct (Hok soups' Hs) as [Hlen Hstop].
           rewrite length_app in Hlen. cbn [length] in Hlen. split; [lia|].
           intros Hlt. destruct Hstop as (m & Hm & Hlt'); [lia|].
           exists m. split; [exact Hm|lia].
        -- intros e He. destruct (Herr e He) as [_ Hthrows]. split; [lia|].
           rewrite <- app_assoc in Hthrows. exact Hthrows.
      * exists 1%nat. cbn [fst snd take map length]. split; [lia|].
        split; [reflexivity|]. split; [|split].
        -- intros m Hm. unfold beyond in Eb. rewrite Hm in Eb.
           apply Z.ltb_ge in Eb. lia.
        -- intros soups' H. discriminate H.
        -- intros e' [= <-]. split; [lia|]. exact Es.
Qed.

End SimpleLinks.

(** X16. When the first page of the listing shows simple numbered links,
    [_iter_compras_pages] sends, after the GET of the listing, one GET for
    each link of a first part of them, in their order, and no POST; it
    returns one page more than the links it asked for; it stops before the
    end of the links only at [max_pages] or at an exception of the session;
    and with the links that [_parse_simple_pager_links] reads from the
    anchors of the page, no link is asked for twice. *)
Theorem iter_compras_pages_simple_links (ses : Comprar.session)
    (max_pages : option Z) (soup : Comprar.Soup) :
  ses [Comprar.GET Comprar.COMPRAS_LIST_URL] = Efectos.Reply soup ->
  Comprar._parse_simple_pager_links soup <> [] ->
  let links := Comprar._parse_simple_pager_links soup in
  let walk := Comprar._iter_compras_pages ses max_pages in
  exists k : nat,
    (k <= length links)%nat /\
    walk.2 = map Comprar.GET (Comprar.COMPRAS_LIST_URL :: take k links) /\
    (forall m, max_pages = Some m -> Z.of_nat k <= Z.max 0 (m - 1)) /\
    (forall soups,
        walk.1 = Efectos.Reply soups ->
        length soups = S k /\
        ((k < length links)%nat ->
         exists m, max_pages = Some m /\ m < 2 + Z.of_nat k)) /\
    (forall isdigit urljoin anchors,
        links = Listados._parse_simple_pager_links isdigit urljoin anchors ->
        NoDup (map Comprar.GET (take k links))).
Proof.
  intros Hses Hlinks. cbv zeta. unfold Comprar._iter_compras_pages.
  rewrite Hses. cbv zeta.
  destruct (Comprar._parse_simple_pager_links soup) as [|u links] eqn:El;
    [now contradiction Hlinks|].
  destruct (simple_links_loop_sent ses max_pages (u :: links) 2 [soup]
              [Comprar.GET Comprar.COMPRAS_LIST_URL])
    as (k & Hk & Hsent & Hmax & Hok & _).
  exists k. split; [exact Hk|]. split; [exact Hsent|]. split; [|split].
  - intros m Hm. specialize (Hmax m Hm). lia.
  - intros soups Hs. destruct (Hok soups Hs) as [Hlen Hstop].
    split; [exact Hlen|exact Hstop].
  - intros isdigit urljoin anchors Heq.
    apply NoDup_fmap_2; [intros x y Hxy; now injection Hxy|].
    apply (sublist_NoDup (take k (u :: links)) (u :: links));
      [|apply sublist_take].
    rewrite Heq. apply unique_links_NoDup.
Qed.

(** The listing whose first page shows one link to a second page. *)
Lemma iter_compras_pages_simple_links_witness :
  exists k : nat,
    (k <= 1)%nat /\
    (Comprar._iter_compras_pages Escenario.listado_links None).2
    = map Comprar.GET (Comprar.COMPRAS_LIST_URL :: take k [Escenario.link2]).
Proof.
  assert (Hne : Comprar._parse_simple_pager_links Escenario.page1_links <> [])
    by (vm_compute; discriminate).
  destruct (iter_compras_pages_simple_links Escenario.listado_links None
              Escenario.page1_links eq_refl Hne) as (k & Hk & Hsent & _).
  exists k. split; [exact Hk|exact Hsent].
Defined.

Section FilasFacts.
Import Listados.
Variable isalpha : N -> bool.

(** The rows of the grid that give a row of the listing. *)
Definition fila_valida (cols : list str) : bool :=
  (4 <=? length cols)%nat && existsb isalpha (default [] (cols !! 0%nat)).

Lemma fila_de_some (cols : list str) (f : ComprarBot.Fila) :
  fila_de isalpha cols = Some f ->
  fila_valida cols = true /\
  cols !! 0%nat = Some (ComprarBot.numero_proceso f) /\
  cols !! 1%nat = ComprarBot.objeto f /\
  cols !! 2%nat = ComprarBot.tipo f /\
  cols !! 3%nat = ComprarBot.fecha_apertura f /\
  cols !! 4%nat = ComprarBot.estado f /\
  cols !! 5%nat = ComprarBot.unidad_ejecutora f /\
  cols !! 6%nat = ComprarBot.saf f.
Proof.
  unfold fila_de, fila_valida.
  destruct (length cols <? 4)%nat eqn:El; [discriminate|].
  apply Nat.ltb_ge in El.
  destruct cols as [|numero cols]; [cbn [length] in El; lia|].
  cbn [lookup list_lookup default id].
  destruct (negb (truthy (VStr numero))); [discriminate|].
  destruct (existsb isalpha numero) eqn:Ea; cbn [negb]; [|discriminate].
  intros [= <-].
  split; [rewrite andb_true_r; now apply Nat.leb_le|].
  cbn [ComprarBot.numero_proceso ComprarBot.objeto ComprarBot.tipo
       ComprarBot.fecha_apertura ComprarBot.estado ComprarBot.unidad_ejecutora
       ComprarBot.saf].
  repeat (split; [reflexivity|]). reflexivity.
Qed.

Lemma fila_de_none (cols : list str) :
  fila_de isalpha cols = None -> fila_valida cols = false.
Proof.
  unfold fila_de, fila_valida.
  destruct (length cols <? 4)%nat eqn:El.
  { intros _. apply Nat.ltb_lt in El. apply andb_false_iff. left.
    apply Nat.leb_gt. exact El. }
  destruct cols as [|numero cols];
    [intros _; apply andb_false_iff; now right|].
  cbn [lookup list_lookup default id].
  destruct numero as [|c numero]; [intros _; apply andb_false_iff; now right|].
  cbn [truthy negb].
  destruct (existsb isalpha (c :: numero)); cbn [negb]; [discriminate|].
  intros _. apply andb_false_iff. now right.
Qed.

End FilasFacts.

(** X17. The rows that [obtener_filas_listado] gives: none without a grid;
    otherwise one for each row of the body with four cells or more whose
    first cell holds a letter, in the order of the grid; such a row carries
    the texts of its cells, so that its number is not empty and its object,
    type and opening date are never missing, while its state, unit and SAF
    are missing when the row has no fifth, sixth or seventh cell; the rows
    of the pager, whose first cell has no letter, are left out. *)
Theorem obtener_filas_listado_rows (isalpha : N -> bool)
    (tabla : option (list (list Py.str))) :
  let filas := Listados.obtener_filas_listado isalpha tabla in
  (tabla = None -> filas = []) /\
  Forall (fun f =>
            ComprarBot.numero_proceso f <> [] /\
            existsb isalpha (ComprarBot.numero_proceso f) = true /\
            ComprarBot.objeto f <> None /\ ComprarBot.tipo f <> None /\
            ComprarBot.fecha_apertura f <> None) filas /\
  (forall body_rows,
      tabla = Some body_rows ->
      exists kept,
        sublist kept body_rows /\
        (forall cols, cols ∈ kept <->
           cols ∈ body_rows /\ (4 <= length cols)%nat /\
           exists numero c, cols !! 0%nat = Some numero /\ c ∈ numero /\
                            isalpha c = true) /\
        Forall2 (fun cols f =>
                   cols !! 0%nat = Some (ComprarBot.numero_proceso f) /\
                   cols !! 1%nat = ComprarBot.objeto f /\
                   cols !! 2%nat = ComprarBot.tipo f /\
                   cols !! 3%nat = ComprarBot.fecha_apertura f /\
                   cols !! 4%nat = ComprarBot.estado f /\
                   cols !! 5%nat = ComprarBot.unidad_ejecutora f /\
                   cols !! 6%nat = ComprarBot.saf f)
          kept filas).
Proof.
  cbv zeta.
  assert (Hrows : forall body_rows,
             Forall2 (fun cols f =>
                   cols !! 0%nat = Some (ComprarBot.numero_proceso f) /\
                   cols !! 1%nat = ComprarBot.objeto f /\
                   cols !! 2%nat = ComprarBot.tipo f /\
                   cols !! 3%nat = ComprarBot.fecha_apertura f /\
                   cols !! 4%nat = ComprarBot.estado f /\
                   cols !! 5%nat = ComprarBot.unidad_ejecutora f /\
                   cols !! 6%nat = ComprarBot.saf f)
               (filter (fun cols => fila_valida isalpha cols = true) body_rows)
               (omap (Listados.fila_de isalpha) body_rows)).
  { induction body_rows as [|cols rows IH]; [constructor|].
    rewrite filter_cons. cbn [omap list_omap].
    destruct (Listados.fila_de isalpha cols) as [f|] eqn:Ef.
    - destruct (fila_de_some _ _ _ Ef) as [Hv Hf].
      rewrite decide_True by exact Hv. constructor; [exact Hf|exact IH].
    - rewrite decide_False by (rewrite (fila_de_none _ _ Ef); discriminate).
      exact IH. }
  assert (Hvalid : forall cols,
             fila_valida isalpha cols = true <->
             (4 <= length cols)%nat /\
             exists numero c, cols !! 0%nat = Some numero /\ c ∈ numero /\
                              isalpha c = true).
  { intros cols. unfold fila_valida. rewrite andb_true_iff, Nat.leb_le, existsb_exists.
    split.
    - intros [Hl (c & Hc & Ha)]. split; [exact Hl|].
      destruct cols as [|numero cols]; [destruct Hc|].
      exists numero, c. split; [reflexivity|]. split; [|exact Ha].
      now apply list_elem_of_In.
    - intros [Hl (numero & c & Hn & Hc & Ha)]. split; [exact Hl|].
      destruct cols as [|numero' cols]; [discriminate Hn|].
      injection Hn as ->.
      exists c. split; [|exact Ha]. now apply list_elem_of_In. }
  split; [intros ->; reflexivity|]. split.
  - destruct tabla as [body_rows|]; [|constructor].
    cbn [Listados.obtener_filas_listado].
    apply Forall_forall. intros f Hf.
    apply list_elem_of_omap in Hf as (cols & _ & Hf).
    destruct (fila_de_some _ _ _ Hf) as (Hv & H0 & H1 & H2 & H3 & _).
    unfold fila_valida in Hv. apply andb_true_iff in Hv as [Hl Ha].
    apply Nat.leb_le in Hl.
    destruct cols as [|numero cols]; [cbn [length] in Hl; lia|].
    injection H0 as <-. cbn [lookup list_lookup default id] in Ha.
    split; [intros Hn; rewrite Hn in Ha; discriminate Ha|].
    split; [exact Ha|].
    rewrite <- H1, <- H2, <- H3.
    split; [|split]; apply not_eq_None_Some, lookup_lt_is_Some; exact Hl ||
      (cbn [length] in *; lia).
  - intros body_rows ->. cbn [Listados.obtener_filas_listado].
    exists (filter (fun cols => fila_valida isalpha cols = true) body_rows).
    split; [apply sublist_filter|]. split; [|apply Hrows].
    intros cols. rewrite list_elem_of_filter, Hvalid. tauto.
Qed.

(** ** The uploads *)

Section UploadFacts.
Import Efectos Upload.
Variable decimal : N -> option N.

(** The columns of the table of BigQuery. *)
Definition columnas_tabla : list str :=
  [ lit "doc_id"; lit "n"; lit "numero_proceso"; lit "expediente";
    lit "nombre_proceso"; lit "tipo_proceso"; lit "fecha_apertura"; lit "estado";
    lit "unidad_ejecutora"; lit "saf"; lit "detalle_productos_servicios";
    lit "pliego_numero"; lit "link"; lit "origen"; lit "es_tic"; lit "anio";
    lit "fecha_carga" ].

Lemma columnas_tabla_NoDup : NoDup columnas_tabla.
Proof. apply (bool_decide_unpack _). vm_compute. exact I. Qed.

(** The fields of a document of Firestore. *)
Lemma preparar_registro_fields (rec : record) :
  let data := Firestore.preparar_registro_para_firestore decimal rec in
  data !! lit "fecha_carga" = Some Firestore.SERVER_TIMESTAMP /\
  (forall key, key <> lit "fecha_carga" -> key <> lit "anio" ->
               data !! key = Firestore.Valor <$> rec !! key) /\
  (forall v, rec !! lit "anio" = Some v ->
             data !! lit "anio" = Some (Firestore.Valor v)) /\
  (rec !! lit "anio" = None ->
   data !! lit "anio"
   = (fun z => Firestore.Valor (VInt z))
       <$> obtener_anio_desde_fecha decimal (get_value rec (lit "fecha_apertura"))).
Proof.
  cbv zeta. unfold Firestore.preparar_registro_para_firestore.
  assert (Hne : lit "fecha_carga" <> lit "anio")
    by (intros H; vm_compute in H; discriminate H).
  set (anio := obtener_anio_desde_fecha decimal _).
  rewrite (lookup_fmap Firestore.Valor rec (lit "anio")).
  split; [apply lookup_insert_eq|]. split; [|split].
  - intros key Hk Ha. rewrite lookup_insert_ne by congruence.
    destruct (rec !! lit "anio") as [v|]; cbn [fmap option_fmap option_map];
      [apply lookup_fmap|].
    destruct anio as [z|]; [|apply lookup_fmap].
    rewrite lookup_insert_ne by congruence. apply lookup_fmap.
  - intros v Hv. rewrite lookup_insert_ne by exact Hne.
    rewrite Hv. cbn [fmap option_fmap option_map]. now rewrite lookup_fmap, Hv.
  - intros Hn. rewrite lookup_insert_ne by exact Hne.
    rewrite Hn. cbn [fmap option_fmap option_map].
    destruct anio as [z|]; cbn [fmap option_fmap option_map].
    + apply lookup_insert_eq.
    + now rewrite lookup_fmap, Hn.
Qed.

(** The loop over the records makes one call for each record of a first
    part of them. *)
Lemma for_registros_sets (col_ref : Firestore.coleccion) (id_field : str)
    (registros : list record) :
  forall (idx : Z) (sets : list (str * Firestore.documento)),
    let out := Firestore.for_registros decimal col_ref id_field
                 (enumerate idx registros) sets in
    exists k : nat,
      (k <= length registros)%nat /\
      out.2 = sets ++ imap (fun i rec =>
                              (Firestore.doc_id_de id_field (idx + Z.of_nat i) rec,
                               Firestore.preparar_registro_para_firestore decimal rec))
                        (take k registros) /\
      (forall u, out.1 = Reply u -> k = length registros) /\
      (forall e, out.1 = Throws e -> (1 <= k)%nat /\ col_ref out.2 = Throws e).
Proof.
  induction registros as [|rec registros IH]; intros idx sets; cbv zeta.
  - exists 0%nat. cbn [enumerate Firestore.for_registros fst snd take imap length].
    rewrite app_nil_r. split; [lia|]. split; [reflexivity|].
    split; [reflexivity|]. intros e H. discriminate H.
  - cbn [enumerate Firestore.for_registros]. cbv zeta.
    set (call := (Firestore.doc_id_de id_field idx rec,
                  Firestore.preparar_registro_para_firestore decimal rec)).
    destruct (col_ref (sets ++ [call])) as [u|e] eqn:Ec.
    + destruct (IH (idx + 1) (sets ++ [call])) as (k & Hk & Hsets & Hok & Herr).
      exists (S k). cbn [length take]. split; [lia|]. split; [|split].
      * rewrite Hsets, <- app_assoc. cbn [app imap]. f_equal. f_equal.
        -- subst call. now rewrite Z.add_0_r.
        -- apply imap_ext. intros i x _. cbn. do 2 f_equal. lia.
      * intros u' Hu. now rewrite (Hok u' Hu).
      * intros e He. destruct (Herr e He) as [_ Hthrows]. split; [lia|exact Hthrows].
    + exists 1%nat. cbn [length take imap fst snd]. split; [lia|].
      split; [subst call; now rewrite Z.add_0_r|]. split; [intros u H; discriminate H|].
      intros e' [= <-]. split; [lia|exact Ec].
Qed.

End UploadFacts.

(** X18. [subir_registros_a_firestore] calls [set] for the records in their
    order, one call each, and stops at the first call that raises: with no
    exception every record is sent. The identifier of the document of the
    record at place [i] (from 0) holds no slash, no backslash and no white
    space; it is made from the value of the identifier field, or from
    [doc_] and [i + 1] when the record has none. The document holds the
    fields of the record, [fecha_carga] as the server timestamp whatever
    the record has there, and, when the record has no [anio], the year read
    from [fecha_apertura] if there is one. *)
Theorem subir_registros_a_firestore_sets (decimal : N -> option N)
    (db : Py.str -> Firestore.coleccion) (collection_name : Py.str)
    (registros : list Efectos.record) (id_field : Py.str) :
  let out := Firestore.subir_registros_a_firestore decimal db collection_name
               registros id_field in
  (length out.2 <= length registros)%nat /\
  (forall u, out.1 = Efectos.Reply u -> length out.2 = length registros) /\
  (forall e, out.1 = Efectos.Throws e ->
             (1 <= length out.2)%nat /\ db collection_name out.2 = Efectos.Throws e) /\
  (forall i doc_id data,
      out.2 !! i = Some (doc_id, data) ->
      exists rec,
        registros !! i = Some rec /\
        Forall clean_char doc_id /\
        doc_id
        = Upload.sanitizar_doc_id
            (match Efectos.get_value rec id_field with
             | VNone => VStr (lit "doc_" ++ str_of_Z (Z.of_nat i + 1))
             | base_id => base_id
             end) /\
        data !! lit "fecha_carga" = Some Firestore.SERVER_TIMESTAMP /\
        (forall key, key <> lit "fecha_carga" -> key <> lit "anio" ->
                     data !! key = Firestore.Valor <$> rec !! key) /\
        (forall v, rec !! lit "anio" = Some v ->
                   data !! lit "anio" = Some (Firestore.Valor v)) /\
        (rec !! lit "anio" = None ->
         data !! lit "anio"
         = (fun z => Firestore.Valor (VInt z))
             <$> Upload.obtener_anio_desde_fecha decimal
                   (Efectos.get_value rec (lit "fecha_apertura")))).
Proof.
  cbv zeta. unfold Firestore.subir_registros_a_firestore.
  destruct (for_registros_sets decimal (db collection_name) id_field registros 1 [])
    as (k & Hk & Hsets & Hok & Herr).
  cbv zeta in Hsets, Hok, Herr. cbn [app] in Hsets.
  assert (Hlen : length (Firestore.for_registros decimal (db collection_name) id_field
                           (Efectos.enumerate 1 registros) []).2 = k).
  { rewrite Hsets, length_imap, length_take. lia. }
  split; [lia|]. split; [intros u Hu; rewrite Hlen; exact (Hok u Hu)|].
  split; [intros e He; rewrite Hlen; exact (Herr e He)|].
  intros i doc_id data Hi. rewrite Hsets in Hi.
  rewrite list_lookup_imap in Hi.
  destruct (take k registros !! i) as [rec|] eqn:Et; [|discriminate Hi].
  cbn [fmap option_fmap option_map] in Hi. injection Hi as <- <-.
  exists rec. split.
  { rewrite <- Et. symmetry. apply lookup_take_lt.
    apply lookup_lt_Some in Et. rewrite length_take in Et. lia. }
  split; [apply sanitizar_clean|].
  split.
  { unfold Firestore.doc_id_de. cbv zeta.
    destruct (Efectos.get_value rec id_field); [rewrite (Z.add_comm 1)|..];
      reflexivity. }
  apply preparar_registro_fields.
Qed.

Section TablaFacts.
Import Efectos Upload.
Variable decimal : N -> option N.

Lemma registro_de_keys (utcnow_isoformat : str) (row : ComprasToBigQuery.fila) :
  forall k, is_Some (ComprasToBigQuery.registro_de decimal utcnow_isoformat row !! k)
            <-> k ∈ columnas_tabla.
Proof.
  intros k. rewrite <- elem_of_dom. unfold ComprasToBigQuery.registro_de.
  cbv zeta. rewrite dict_of_dom, elem_of_list_to_set. reflexivity.
Qed.

Lemma preparar_fila_keys (utcnow_isoformat : str) (rec : record) (id_field : str) :
  forall k, is_Some (BigQuery.preparar_fila decimal utcnow_isoformat rec id_field !! k)
            <-> k ∈ columnas_tabla.
Proof.
  intros k. rewrite <- elem_of_dom. unfold BigQuery.preparar_fila.
  cbv zeta. rewrite dict_of_dom, elem_of_list_to_set. reflexivity.
Qed.

End TablaFacts.

(** The field at place [n] of a display with the columns of the table. *)
Ltac campo n :=
  apply (dict_of_lookup _ n); [exact columnas_tabla_NoDup|reflexivity].

(** X19. [df_a_registros_bigquery] gives one row for each row of the
    [DataFrame], in its order, with the seventeen columns of the table and
    no other.  Whatever the robot decided for a process, its row is marked
    [es_tic = True], with [origen] equal to [COMPRAR] and [n] empty; the
    process number is the cell of the frame; the year is read from a
    [fecha_apertura] that is a string and is empty for any other cell,
    [nan] included; the link is the cell [url_detalle] when that is true
    as a condition, which [nan] is, and the cell [pliego_url] otherwise;
    and [doc_id] is empty when the process number is [None] or empty, is
    [nan] as a text when the process number is [nan], and in every other
    case holds no slash, backslash or white space. *)
Theorem df_a_registros_bigquery_rows (decimal : N -> option N) (utcnow : nat -> Py.str)
    (df : list ComprasToBigQuery.fila) :
  let registros := ComprasToBigQuery.df_a_registros_bigquery decimal utcnow df in
  let get := ComprasToBigQuery.row_get in
  length registros = length df /\
  forall i row,
    df !! i = Some row ->
    exists r,
      registros !! i = Some r /\
      (forall k, is_Some (r !! k) <-> k ∈ columnas_tabla) /\
      r !! lit "es_tic" = Some (ComprasToBigQuery.Dato (VBool true)) /\
      r !! lit "origen" = Some (ComprasToBigQuery.Dato (VStr (lit "COMPRAR"))) /\
      r !! lit "n" = Some (ComprasToBigQuery.Dato VNone) /\
      r !! lit "numero_proceso" = Some (get row (lit "numero_proceso")) /\
      (forall v, get row (lit "fecha_apertura") = ComprasToBigQuery.Dato v ->
         r !! lit "anio"
         = Some (ComprasToBigQuery.Dato
                   (BigQuery.of_anio (Upload.obtener_anio_desde_fecha decimal v)))) /\
      (get row (lit "fecha_apertura") = ComprasToBigQuery.NaN ->
       r !! lit "anio" = Some (ComprasToBigQuery.Dato VNone)) /\
      (forall v, get row (lit "url_detalle") = ComprasToBigQuery.Dato v ->
         r !! lit "link"
         = Some (if truthy v then ComprasToBigQuery.Dato v
                 else get row (lit "pliego_url"))) /\
      (get row (lit "url_detalle") = ComprasToBigQuery.NaN ->
       r !! lit "link" = Some ComprasToBigQuery.NaN) /\
      r !! lit "fecha_carga" = Some (ComprasToBigQuery.Dato (VStr (utcnow i ++ lit "Z"))) /\
      (forall v, get row (lit "numero_proceso") = ComprasToBigQuery.Dato v ->
         (truthy v = false -> r !! lit "doc_id" = Some (ComprasToBigQuery.Dato VNone)) /\
         (truthy v = true ->
          r !! lit "doc_id"
          = Some (ComprasToBigQuery.Dato (VStr (Upload.sanitizar_doc_id v))) /\
          Forall clean_char (Upload.sanitizar_doc_id v))) /\
      (get row (lit "numero_proceso") = ComprasToBigQuery.NaN ->
       r !! lit "doc_id" = Some (ComprasToBigQuery.Dato (VStr (lit "nan")))).
Proof.
  cbv zeta. unfold ComprasToBigQuery.df_a_registros_bigquery.
  split; [apply length_imap|].
  intros i row Hi. eexists. split; [rewrite list_lookup_imap, Hi; reflexivity|].
  split; [apply registro_de_keys|].
  unfold ComprasToBigQuery.registro_de. cbv zeta.
  split; [campo 14%nat|]. split; [campo 13%nat|]. split; [campo 1%nat|].
  split; [campo 2%nat|].
  split; [intros v Hv; rewrite Hv; campo 15%nat|].
  split; [intros Hv; rewrite Hv; campo 15%nat|].
  split; [intros v Hv; rewrite Hv; campo 12%nat|].
  split; [intros Hv; rewrite Hv; campo 12%nat|].
  split; [campo 16%nat|].
  split.
  - intros v Hv. rewrite Hv. cbn [ComprasToBigQuery.truthy_celda]. split.
    + intros Ht. rewrite Ht. campo 0%nat.
    + intros Ht. rewrite Ht. split; [campo 0%nat|apply sanitizar_clean].
  - intros Hv. rewrite Hv. cbn [ComprasToBigQuery.truthy_celda].
    assert (Hnan : ComprasToBigQuery.sanitizar_celda ComprasToBigQuery.NaN = lit "nan")
      by (vm_compute; reflexivity).
    rewrite Hnan. campo 0%nat.
Qed.

(** X20. [preparar_fila] gives a row with the seventeen columns of the
    table and no other, whatever the keys of the record: a column that the
    record lacks is empty, and the other keys of the record are left out.
    [doc_id] is empty when the identifier field is missing or empty, and
    holds no slash, backslash or white space otherwise; a year that the
    record has is kept, and one that is missing, empty or zero is replaced
    by the year read from [fecha_apertura]. *)
Theorem preparar_fila_schema (decimal : N -> option N) (utcnow_isoformat : Py.str)
    (rec : Efectos.record) (id_field : Py.str) :
  let fila := BigQuery.preparar_fila decimal utcnow_isoformat rec id_field in
  (forall k, is_Some (fila !! k) <-> k ∈ columnas_tabla) /\
  (forall k, k ∈ columnas_tabla ->
             k <> lit "doc_id" -> k <> lit "anio" -> k <> lit "fecha_carga" ->
             fila !! k = Some (Efectos.get_value rec k)) /\
  (truthy (Efectos.get_value rec id_field) = false -> fila !! lit "doc_id" = Some VNone) /\
  (truthy (Efectos.get_value rec id_field) = true ->
   fila !! lit "doc_id"
   = Some (VStr (Upload.sanitizar_doc_id (Efectos.get_value rec id_field))) /\
   Forall clean_char (Upload.sanitizar_doc_id (Efectos.get_value rec id_field))) /\
  (truthy (Efectos.get_value rec (lit "anio")) = true ->
   fila !! lit "anio" = Some (Efectos.get_value rec (lit "anio"))) /\
  (truthy (Efectos.get_value rec (lit "anio")) = false ->
   fila !! lit "anio"
   = Some (BigQuery.of_anio
             (Upload.obtener_anio_desde_fecha decimal
                (Efectos.get_value rec (lit "fecha_apertura"))))) /\
  fila !! lit "fecha_carga" = Some (VStr (utcnow_isoformat ++ lit "Z")).
Proof.
  cbv zeta. split; [apply preparar_fila_keys|].
  unfold BigQuery.preparar_fila. cbv zeta. split.
  { intros k Hk Hd Ha Hf. unfold columnas_tabla in Hk.
    repeat (apply elem_of_cons in Hk as [->|Hk];
            [first [now contradiction Hd|now contradiction Ha|now contradiction Hf
                   |idtac]|]);
      [campo 1%nat|campo 2%nat|campo 3%nat|campo 4%nat|campo 5%nat|campo 6%nat
      |campo 7%nat|campo 8%nat|campo 9%nat|campo 10%nat|campo 11%nat|campo 12%nat
      |campo 13%nat|campo 14%nat|destruct (not_elem_of_nil _ Hk)]. }
  unfold Efectos.or_value.
  split.
  { intros Ht. rewrite Ht. cbn [truthy]. campo 0%nat. }
  split.
  { intros Ht. rewrite Ht. rewrite Ht. split; [campo 0%nat|apply sanitizar_clean]. }
  split; [intros Ht; rewrite Ht; campo 15%nat|].
  split; [intros Ht; rewrite Ht; campo 15%nat|].
  campo 16%nat.
Qed.

Section ConvertirFacts.
Import Efectos Convertir.

(** No new name is an old name. *)
Lemma rename_map_fresh (col v : str) :
  dict_of rename_map !! col = Some v -> dict_of rename_map !! v = None.
Proof.
  intros H.
  assert (Hall : Forall (fun v => dict_of rename_map !! v = None) rename_map.*2).
  { apply (bool_decide_unpack _). vm_compute. exact I. }
  rewrite Forall_forall in Hall. apply Hall.
  apply dict_of_lookup_elem in H.
  apply list_elem_of_fmap. exists (col, v). split; [reflexivity|exact H].
Qed.

Lemma rename_map_keys (col : str) :
  is_Some (dict_of rename_map !! col) <-> col ∈ rename_map.*1.
Proof.
  rewrite <- elem_of_dom, dict_of_dom, elem_of_list_to_set. reflexivity.
Qed.

(** The columns that are present are renamed as [rename_map] says. *)
Lemma columnas_presentes_lookup (columns : list str) (col : str) :
  col ∈ columns -> columnas_presentes columns !! col = dict_of rename_map !! col.
Proof.
  intros Hcol. unfold columnas_presentes.
  rewrite (dict_of_functional (fun k => dict_of rename_map !! k)).
  2:{ intros k v Hkv. apply list_elem_of_omap in Hkv as (c & _ & Hc).
      destruct (dict_of rename_map !! c) as [v'|] eqn:E; [|discriminate Hc].
      cbn [fmap option_fmap option_map] in Hc. injection Hc as <- <-. exact E. }
  destruct (decide _) as [_|Hn]; [reflexivity|].
  destruct (dict_of rename_map !! col) as [v|] eqn:E; [|reflexivity].
  contradiction Hn. apply list_elem_of_fmap. exists (col, v). split; [reflexivity|].
  apply list_elem_of_omap. exists col. split; [exact Hcol|]. now rewrite E.
Qed.

Lemma aplicar_modelo_tics_map (columns : list str) :
  aplicar_modelo_tics columns
  = map (fun col => default col (dict_of rename_map !! col)) columns.
Proof.
  unfold aplicar_modelo_tics. cbv zeta. apply map_ext_in. intros col Hcol.
  rewrite columnas_presentes_lookup; [reflexivity|now apply list_elem_of_In].
Qed.

End ConvertirFacts.

(** X21. [aplicar_modelo_tics] renames the columns in place: their number
    and order stay; a column whose name is a key of the map takes the name
    that the map gives, and any other column keeps its name; no name of the
    result is a key of the map, so that applying the renaming again changes
    nothing. *)
Theorem aplicar_modelo_tics_idempotent (columns : list Py.str) :
  let renamed := Convertir.aplicar_modelo_tics columns in
  length renamed = length columns /\
  (forall i col,
      columns !! i = Some col ->
      (forall v, Efectos.dict_of Convertir.rename_map !! col = Some v ->
                 renamed !! i = Some v) /\
      (col ∉ Convertir.rename_map.*1 -> renamed !! i = Some col)) /\
  (forall col, col ∈ renamed -> col ∉ Convertir.rename_map.*1) /\
  Convertir.aplicar_modelo_tics renamed = renamed.
Proof.
  cbv zeta. rewrite !aplicar_modelo_tics_map.
  assert (Hfresh : forall col,
             col ∈ map (fun col => default col (Efectos.dict_of Convertir.rename_map !! col))
                     columns ->
             Efectos.dict_of Convertir.rename_map !! col = None).
  { intros col Hcol. apply list_elem_of_fmap in Hcol as (c & -> & _).
    destruct (Efectos.dict_of Convertir.rename_map !! c) as [v|] eqn:E;
      cbn [default]; [exact (rename_map_fresh _ _ E)|exact E]. }
  split; [apply length_map|]. split; [|split].
  - intros i col Hi. change (map ?f ?l) with (f <$> l).
    rewrite list_lookup_fmap, Hi. cbn [fmap option_fmap option_map]. split.
    + intros v Hv. now rewrite Hv.
    + intros Hn. destruct (Efectos.dict_of Convertir.rename_map !! col) eqn:E;
        [|reflexivity].
      contradiction Hn. apply rename_map_keys. now rewrite E.
  - intros col Hcol Hin. apply rename_map_keys in Hin as [v Hv].
    rewrite (Hfresh col Hcol) in Hv. discriminate Hv.
  - rewrite <- (map_id (map _ columns)) at 2. apply map_ext_in.
    intros col Hcol. apply list_elem_of_In in Hcol. now rewrite (Hfresh col Hcol).
Qed.

(** ** The editions of the records of the gazette *)

Section BoletinEditions.
Import Efectos BoletinTercera Fechas.
Variable py : python.
Variable sitio : boletin.
Variable cb : bool.
Variable ic : option (nat -> bool).

(** [registro] comes from an entry of the edition of [fecha]. *)
Definition from_edition (fecha : date) (registro : record) : Prop :=
  exists aviso,
    aviso ∈ _get_listado_avisos sitio fecha /\
    registro !! lit "titulo_listado" = Some (VStr (titulo_listado aviso)) /\
    registro !! lit "fecha_edicion" = Some (VStr (fecha_edicion aviso)).

Lemma dato_de_fields (fecha : date) (idx : Z) (aviso : Aviso) (data : record) :
  dato_de sitio fecha idx aviso = Some data ->
  data !! lit "titulo_listado" = Some (VStr (titulo_listado aviso)) /\
  data !! lit "fecha_edicion" = Some (VStr (fecha_edicion aviso)).
Proof.
  unfold dato_de. destruct (_parse_aviso sitio fecha idx (url aviso)); [|discriminate].
  intros [= <-]. split.
  - rewrite lookup_insert_ne by (intros H; vm_compute in H; discriminate H).
    apply lookup_insert_eq.
  - apply lookup_insert_eq.
Qed.

Lemma for_avisos_appended (fecha : date) (d T n_av : Z) (avisos : list (Z * Aviso)) :
  forall (registros : list record) (n : nat),
    Forall (fun registro =>
              exists idx aviso,
                (idx, aviso) ∈ avisos /\ dato_de sitio fecha idx aviso = Some registro)
      (appended (events (for_avisos py sitio cb ic fecha d T n_av avisos registros n))).
Proof.
  induction avisos as [|[idx aviso] rest IH]; intros registros n; [constructor|].
  rewrite for_avisos_cons. destruct (poll_answer ic n); cbn [events].
  { rewrite appended_poll_events. constructor. }
  assert (Hrest : forall registros n,
             Forall (fun registro =>
                       exists idx0 aviso0,
                         (idx0, aviso0) ∈ (idx, aviso) :: rest /\
                         dato_de sitio fecha idx0 aviso0 = Some registro)
               (appended (events (for_avisos py sitio cb ic fecha d T n_av rest
                                    registros n)))).
  { intros registros' n'. eapply Forall_impl; [apply IH|].
    intros r (i & a & Hin & Hd). exists i, a. split; [now right|exact Hd]. }
  destruct (dato_de sitio fecha idx aviso) as [data|] eqn:Ed; cbn [events];
    rewrite appended_app, appended_poll_events; cbn [app].
  - change (appended (Append data :: ?t)) with (data :: appended t).
    rewrite appended_app, appended_report_events. cbn [app].
    constructor; [|apply Hrest].
    exists idx, aviso. split; [now left|exact Ed].
  - apply Hrest.
Qed.

Lemma enumerate_elem {A : Type} (l : list A) :
  forall (start : Z) (idx : Z) (x : A), (idx, x) ∈ enumerate start l -> x ∈ l.
Proof.
  induction l as [|y l IH]; intros start idx x H; cbn [enumerate] in H.
  - destruct (not_elem_of_nil _ H).
  - apply elem_of_cons in H as [H|H]; [injection H as _ ->; now left|].
    right. exact (IH _ _ _ H).
Qed.

Lemma for_avisos_from_edition (fecha : date) (d T : Z) (registros : list record)
    (n : nat) :
  let avisos := _get_listado_avisos sitio fecha in
  Forall (from_edition fecha)
    (appended (events (for_avisos py sitio cb ic fecha d T (Z.of_nat (length avisos))
                         (enumerate 1 avisos) registros n))).
Proof.
  cbv zeta. eapply Forall_impl; [apply for_avisos_appended|].
  intros r (idx & aviso & Hin & Hd). exists aviso.
  split; [exact (enumerate_elem _ _ _ _ Hin)|exact (dato_de_fields _ _ _ _ Hd)].
Qed.

Variable end_date : date.

(** The records of the loop over the days come from the editions of the
    days from the current one to the last one. *)
Lemma while_editions (fuel : nat) (T : Z) :
  forall (fecha : date) (d : Z) (registros : list record) (n : nat),
    Forall (fun registro =>
              exists dia, fecha <= dia <= end_date /\ from_edition dia registro)
      (appended (events (while_fechas py sitio end_date cb ic fuel T fecha d
                           registros n))).
Proof.
  induction fuel as [|fuel IH]; intros fecha d registros n; [constructor|].
  assert (Hnext : forall d' registros' n',
             Forall (fun registro =>
                       exists dia, fecha <= dia <= end_date /\ from_edition dia registro)
               (appended (events (while_fechas py sitio end_date cb ic fuel T
                                    (fecha + 1) d' registros' n')))).
  { intros d' registros' n'. eapply Forall_impl; [apply IH|].
    intros r (dia & Hd & Hr). exists dia. split; [lia|exact Hr]. }
  while_turn sitio end_date ic fecha n fo;
    rewrite ?appended_app, ?appended_poll_events, ?appended_report_events;
    cbn [app]; rewrite ?app_nil_r;
    try (constructor; fail); try apply Hnext.
  all: apply negb_false_iff, Z.leb_le in Hc.
  all: assert (Hfo : Forall (fun registro =>
                       exists dia, fecha <= dia <= end_date /\ from_edition dia registro)
                (appended (events fo)))
         by (subst fo; rewrite <- Hav; eapply Forall_impl;
             [apply for_avisos_from_edition|];
             intros r Hr; exists fecha; split; [lia|exact Hr]).
  all: repeat (apply Forall_app; split); try exact Hfo; try apply Hnext.
Qed.

End BoletinEditions.

(** X22. Every record that a run of [scrape_boletin_tercera] produces comes
    from an entry of the listing of a day of the range, from [start_date]
    to [end_date]: its [titulo_listado] and [fecha_edicion] are those of
    that entry, whatever the page of the notice holds under these names.
    With the listings read by [_get_listado_avisos], [fecha_edicion] is the
    ISO date of a day of the range. *)
Theorem boletin_records_within_range (py : python) (sitio : BoletinTercera.boletin)
    (start_date end_date : Fechas.date) (output_dir : Py.str) (cb : bool)
    (ic : option (nat -> bool)) (n : nat) :
  let o := BoletinTercera.scrape_boletin_tercera py sitio start_date end_date
             output_dir cb ic n in
  Forall (fun registro =>
            exists dia, start_date <= dia <= end_date /\ from_edition sitio dia registro)
    (appended (Efectos.events o)) /\
  ((forall dia, exists resp,
       BoletinTercera._get_listado_avisos sitio dia
       = Listados._get_listado_avisos dia resp) ->
   Forall (fun registro =>
             exists dia,
               start_date <= dia <= end_date /\
               registro !! lit "fecha_edicion" = Some (VStr (Listados.isoformat dia)))
     (appended (Efectos.events o))).
Proof.
  cbv zeta.
  assert (H : Forall (fun registro =>
                exists dia, start_date <= dia <= end_date /\
                            from_edition sitio dia registro)
                (appended (Efectos.events
                   (BoletinTercera.scrape_boletin_tercera py sitio start_date end_date
                      output_dir cb ic n)))).
  { pose proof (scrape_boletin_tercera_run py sitio cb ic start_date end_date
                  output_dir n) as Hrun.
    cbv zeta in Hrun. destruct (end_date <? start_date).
    { rewrite Hrun. constructor. }
    destruct Hrun as [(_ & _ & ->)|(_ & _ & ->)].
    - apply while_editions.
    - rewrite appended_app, appended_export_events, app_nil_r. apply while_editions. }
  split; [exact H|]. intros Hsitio. eapply Forall_impl; [exact H|].
  intros r (dia & Hd & aviso & Hin & _ & Hf). exists dia. split; [exact Hd|].
  rewrite Hf. destruct (Hsitio dia) as [resp Hresp]. rewrite Hresp in Hin.
  pose proof (get_listado_avisos_fecha dia resp) as Hall.
  rewrite Forall_forall in Hall. now rewrite (Hall aviso Hin).
Qed.

(** ** [_parse_pager_target] *)

Section PagerTarget.
Import Postback Listados.

Lemma digitos_app (ds rest : str) (c : N) :
  Forall (fun d => es_digito d = true) ds -> es_digito c = false ->
  digitos (ds ++ c :: rest) = (ds, c :: rest).
Proof.
  intros Hds Hc. induction Hds as [|d ds Hd _ IH]; cbn [app digitos].
  - now rewrite Hc.
  - now rewrite Hd, IH.
Qed.

Lemma match_pager_target (s t : str) :
  match_pager s = Some t -> t <> [] /\ sin_comillas t.
Proof.
  unfold match_pager.
  destruct (literal _ s) as [s1|]; [|discriminate].
  destruct (until_quote s1) as [[[|c t'] s2]|] eqn:E1; [discriminate| |discriminate].
  destruct (literal _ s2) as [s3|]; [|discriminate].
  destruct (literal _ (lstrip s3)) as [s4|]; [|discriminate].
  destruct (digitos s4) as [[|d ds] s5]; [discriminate|].
  destruct (literal _ s5); [|discriminate].
  intros [= <-]. split; [discriminate|exact (proj1 (until_quote_some _ _ _ E1))].
Qed.

Lemma search_pager_target (s t : str) :
  search_pager s = Some t -> t <> [] /\ sin_comillas t.
Proof.
  induction s as [|c r IH]; cbn [search_pager].
  - destruct (match_pager []) as [t'|] eqn:E; [|discriminate].
    intros [= <-]. exact (match_pager_target _ _ E).
  - destruct (match_pager (c :: r)) as [t'|] eqn:E; [|exact IH].
    intros [= <-]. exact (match_pager_target _ _ E).
Qed.

Lemma search_pager_skip (c : N) (r : str) :
  c <> 95%N -> search_pager (c :: r) = search_pager r.
Proof.
  intros Hc. cbn [search_pager].
  assert (H : match_pager (c :: r) = None).
  { unfold match_pager. change (lit "__doPostBack('") with (95%N :: lit "_doPostBack('").
    cbn [literal]. destruct (N.eqb_spec 95 c); [congruence|reflexivity]. }
  now rewrite H.
Qed.

Ltac calc_lits :=
  repeat match goal with
         | |- context [lit ?s] =>
           let x := eval vm_compute in (lit s) in change (lit s) with x
         end.

(** The link of a page in the pager of the grid. *)
Definition pager_link (target number : str) : str :=
  lit "javascript:__doPostBack('" ++ target ++ lit "','Page$" ++ number ++ lit "')".

Lemma pager_link_parts (target number : str) :
  pager_link target number
  = lit "javascript:"
    ++ (lit "__doPostBack('" ++ target ++ quote :: lit ","
        ++ lit "'Page$" ++ number ++ quote :: lit ")").
Proof. unfold pager_link, quote. calc_lits. reflexivity. Qed.

Lemma match_pager_here (target number : str) :
  target <> [] -> sin_comillas target ->
  number <> [] -> Forall (fun d => es_digito d = true) number ->
  match_pager
    (lit "__doPostBack('" ++ target ++ quote :: lit ","
     ++ lit "'Page$" ++ number ++ quote :: lit ")")
  = Some target.
Proof.
  intros Ht Hq Hn Hd. unfold match_pager.
  rewrite literal_app, (until_quote_app target _ Hq).
  destruct target as [|c target]; [contradiction|].
  rewrite literal_app.
  assert (Hl : lstrip (lit "'Page$" ++ number ++ quote :: lit ")")
               = lit "'Page$" ++ number ++ quote :: lit ")").
  { change (lit "'Page$") with (39%N :: lit "Page$"). reflexivity. }
  rewrite Hl, literal_app, (digitos_app number _ quote Hd eq_refl).
  destruct number as [|d number]; [contradiction|].
  change (quote :: lit ")") with (lit "')" ++ []). now rewrite literal_app.
Qed.

Lemma parse_pager_href (target number : str) :
  target <> [] -> sin_comillas target ->
  number <> [] -> Forall (fun d => es_digito d = true) number ->
  search_pager (pager_link target number) = Some target.
Proof.
  intros Ht Hq Hn Hd. rewrite pager_link_parts.
  change (lit "javascript:") with [106; 97; 118; 97; 115; 99; 114; 105; 112; 116; 58]%N.
  cbn [app]. rewrite !search_pager_skip by discriminate.
  pose proof (match_pager_here target number Ht Hq Hn Hd) as H.
  destruct (lit "__doPostBack('" ++ target ++ quote :: lit "," ++ lit "'Page$"
            ++ number ++ quote :: lit ")") as [|c r] eqn:E;
    cbn [search_pager]; now rewrite H.
Qed.

End PagerTarget.

(** X23. The target that [_parse_pager_target] returns is never the empty
    string and holds no quote: it is read from the first link of the page
    whose [href] holds a postback of the pager, so that in
    [_iter_compras_pages] the test [not pager_target] fails only for
    [None]. It reads back the target of a link
    [javascript:__doPostBack('target','Page$n')], for every target of one
    character or more without a quote and every number [n]. *)
Theorem parse_pager_target_first_link (hrefs : list Py.str) :
  (forall target,
      Listados._parse_pager_target hrefs = Some target ->
      target <> [] /\ sin_comillas target /\
      exists before href after,
        hrefs = before ++ href :: after /\
        Forall (fun h => Listados.search_pager h = None) before /\
        Listados.search_pager href = Some target) /\
  (Forall (fun h => Listados.search_pager h = None) hrefs ->
   Listados._parse_pager_target hrefs = None) /\
  (forall target number after,
      target <> [] -> sin_comillas target ->
      number <> [] -> Forall (fun d => Listados.es_digito d = true) number ->
      Forall (fun h => Listados.search_pager h = None) hrefs ->
      Listados._parse_pager_target (hrefs ++ pager_link target number :: after)
      = Some target).
Proof.
  split; [|split].
  - induction hrefs as [|h hrefs IH]; intros target; [discriminate|].
    cbn [Listados._parse_pager_target].
    destruct (Listados.search_pager h) as [t|] eqn:E.
    + intros [= <-]. destruct (search_pager_target _ _ E) as [H1 H2].
      split; [exact H1|]. split; [exact H2|].
      exists [], h, hrefs. split; [reflexivity|]. split; [constructor|exact E].
    + intros H. destruct (IH _ H) as (H1 & H2 & before & href & after & -> & Hb & Hh).
      split; [exact H1|]. split; [exact H2|].
      exists (h :: before), href, after. split; [reflexivity|].
      split; [constructor; [exact E|exact Hb]|exact Hh].
  - induction 1 as [|h hrefs Hh _ IH]; [reflexivity|].
    cbn [Listados._parse_pager_target]. now rewrite Hh.
  - intros target number after Ht Hq Hn Hd.
    induction 1 as [|h hrefs Hh _ IH]; cbn [app Listados._parse_pager_target].
    + now rewrite (parse_pager_href target number Ht Hq Hn Hd).
    + now rewrite Hh.
Qed.

(** The link to page 2 of the grid of the listing. *)
Lemma parse_pager_target_first_link_witness :
  Listados._parse_pager_target
    ([lit "Default.aspx"]
     ++ pager_link (lit "ctl00$CPH1$GridListaPliegosAperturaProxima") (lit "2") :: [])
  = Some (lit "ctl00$CPH1$GridListaPliegosAperturaProxima").
Proof.
  apply (proj2 (proj2 (parse_pager_target_first_link [lit "Default.aspx"]))).
  - vm_compute. discriminate.
  - apply (bool_decide_unpack _). vm_compute. exact I.
  - vm_compute. discriminate.
  - repeat constructor.
  - repeat constructor.
Defined.
